(** * The auth-service pressure harness: model and properties

    A shallow embedding of the Python load-and-assertion scripts
    ([pressure-test.py], [test-hash-concurrency-extreme.py],
    [load-login.py]).

    - Python [str] is [string]; a character is a code point below 256.
    - Python [float] is an IEEE-754 binary64 value, [spec_float] with
      precision 53 and maximal exponent 1024.
    - Python [int] is [Z].
    - A raised exception is the [Raise] branch of [result].
    - [print] is not modelled, except where evaluating its argument can
      raise. *)

From Stdlib Require Import ZArith List String Ascii Bool Lia Sorted Permutation.
From Corelib Require Import SpecFloat.
From stdpp Require Import gmap strings list pretty.

(** ** Exceptions and results *)

Inductive exn : Type :=
| ValueError
| AttributeError
| IndexError
| KeyError
| TypeError
| ZeroDivisionError
| OverflowError
| FileNotFoundError
| ClientError (msg : string)    (* aiohttp transport failure *)
| ContentError (msg : string)   (* resp.json(): body is not JSON *)
| TimeoutError                  (* asyncio.TimeoutError *)
| CancelledError.               (* a BaseException, not an Exception *)

(** [except Exception] catches everything but [CancelledError]. *)
Definition is_Exception (e : exn) : bool :=
  match e with CancelledError => false | _ => true end.

(** [str(e)]. *)
Definition exn_str (e : exn) : string :=
  match e with
  | ClientError msg | ContentError msg => msg
  | _ => ""
  end.

Inductive result (A : Type) : Type :=
| Ok (a : A)
| Raise (e : exn).
Arguments Ok {A} a.
Arguments Raise {A} e.

#[global] Instance result_ret : MRet result := fun _ a => Ok a.
#[global] Instance result_bind : MBind result := fun _ _ f m =>
  match m with Ok a => f a | Raise e => Raise e end.

Definition returns {A} (m : result A) : bool :=
  match m with Ok _ => true | Raise _ => false end.

(** ** Strings *)

Module PyStr.

(** [s.startswith(p)] *)
Definition startswith (s p : string) : bool := String.prefix p s.

(** [sub in s] *)
Fixpoint contains (s sub : string) : bool :=
  String.prefix sub s ||
  match s with
  | EmptyString => false
  | String _ s' => contains s' sub
  end.

(** [s.split(sep)] for a one-character separator. *)
Fixpoint split_on (sep : ascii) (s : string) : list string :=
  match s with
  | EmptyString => [EmptyString]
  | String c s' =>
      if Ascii.eqb c sep then EmptyString :: split_on sep s'
      else match split_on sep s' with
           | w :: ws => String c w :: ws
           | [] => [String c EmptyString]
           end
  end.

(** Whitespace of [str.split()] and [str.isspace()] among the code
    points below 256: TAB..CR, FS..US, space, NEL and NBSP. *)
Definition is_space (c : ascii) : bool :=
  let n := nat_of_ascii c in
  ((9 <=? n) && (n <=? 13)) || ((28 <=? n) && (n <=? 32))
  || (n =? 133) || (n =? 160).

(** [s.split()] *)
Fixpoint split (s : string) : list string :=
  match s with
  | EmptyString => []
  | String c s' =>
      if is_space c then split s'
      else match s' with
           | EmptyString => [String c EmptyString]
           | String c' _ =>
               if is_space c' then String c EmptyString :: split s'
               else match split s' with
                    | w :: ws => String c w :: ws
                    | [] => [String c EmptyString]
                    end
           end
  end.

Definition newline : ascii := ascii_of_nat 10.

End PyStr.

(** [l[k]] on a list, with Python's negative indices. *)
Definition py_getitem {A} (l : list A) (k : Z) : result A :=
  let n := Z.of_nat (length l) in
  let i := if (k <? 0)%Z then (n + k)%Z else k in
  if ((0 <=? i) && (i <? n))%Z
  then match l !! Z.to_nat i with Some x => Ok x | None => Raise IndexError end
  else Raise IndexError.

(** ** Floats *)

Module PyFloat.

Definition prec : Z := 53.
Definition emax : Z := 1024.

Definition float : Type := spec_float.

(** The double nearest to [num/den], ties to even, with sign [s]. *)
Definition of_ratio (s : bool) (num den : positive) : float :=
  let '(q, e, l) := SFdiv_core_binary prec emax (Zpos num) 0 (Zpos den) 0 in
  binary_round_aux prec emax s q e l.

(** [float(n)] for an [int]. *)
Definition of_int (n : Z) : float := binary_normalize prec emax n 0 false.

Definition zero : float := S754_zero false.
Definition one : float := S754_finite false 4503599627370496 (-52).

(** The values a Python float takes: a finite one has its mantissa
    and exponent in the canonical form of binary64. *)
Definition valid (x : float) : bool := valid_binary prec emax x.

(** [x] is a zero or a positive finite value at most [mb * 2^eb],
    written with an exponent that is at most [eb]. *)
Definition below (x : float) (mb : positive) (eb : Z) : Prop :=
  match x with
  | S754_zero _ => True
  | S754_finite false m e => (e <= eb)%Z /\ (Zpos m <= Zpos mb * 2 ^ (eb - e))%Z
  | _ => False
  end.

Definition ltb : float -> float -> bool := SFltb.
Definition leb : float -> float -> bool := SFleb.
Definition eqb : float -> float -> bool := SFeqb.
Definition mul : float -> float -> float := SFmul prec emax.

(** [x / y]: Python raises on a zero divisor. *)
Definition div (x y : float) : result float :=
  match y with
  | S754_zero _ => Raise ZeroDivisionError
  | _ => Ok (SFdiv prec emax x y)
  end.

(** Nearest integer to [n/d], ties to even ([d > 0]). *)
Definition round_half_even (n d : Z) : Z :=
  let q := (n / d)%Z in
  let r := (n mod d)%Z in
  match (2 * r ?= d)%Z with
  | Lt => q
  | Gt => (q + 1)%Z
  | Eq => if Z.even q then q else (q + 1)%Z
  end.

(** [round(x)] with one argument: an [int]. *)
Definition round (x : float) : result Z :=
  match x with
  | S754_nan => Raise ValueError
  | S754_infinity _ => Raise OverflowError
  | S754_zero _ => Ok 0%Z
  | S754_finite s m e =>
      let v := match e with
               | Zneg k => round_half_even (Zpos m) (Zpos (2 ^ k))
               | _ => (Zpos m * 2 ^ e)%Z
               end in
      Ok (if s then (- v)%Z else v)
  end.

(** *** [float(s)] for a string *)

Definition is_digit (c : ascii) : bool :=
  let n := nat_of_ascii c in (48 <=? n) && (n <=? 57).

Definition digit_val (c : ascii) : Z := Z.of_nat (nat_of_ascii c) - 48.

(** The C-locale whitespace that [float] strips. *)
Definition is_cspace (c : ascii) : bool :=
  let n := nat_of_ascii c in ((9 <=? n) && (n <=? 13)) || (n =? 32).

(** Non-ASCII whitespace becomes a space, any other code point from
    127 up becomes ['?']. *)
Definition to_ascii (c : ascii) : ascii :=
  let n := nat_of_ascii c in
  if n <? 127 then c
  else if (n =? 133) || (n =? 160) then " "%char else "?"%char.

Fixpoint lstrip (l : list ascii) : list ascii :=
  match l with
  | c :: l' => if is_cspace c then lstrip l' else l
  | [] => []
  end.

Definition strip (l : list ascii) : list ascii :=
  rev (lstrip (rev (lstrip l))).

(** Underscores may only stand between two digits; they are removed. *)
Fixpoint drop_underscores (prev : ascii) (l : list ascii) : option (list ascii) :=
  match l with
  | [] => if Ascii.eqb prev "_" then None else Some []
  | c :: l' =>
      if Ascii.eqb c "_" then
        if is_digit prev then drop_underscores c l' else None
      else if Ascii.eqb prev "_" && negb (is_digit c) then None
      else cons c <$> drop_underscores c l'
  end.

Fixpoint span_digits (l : list ascii) : list ascii * list ascii :=
  match l with
  | c :: l' =>
      if is_digit c then let '(ds, r) := span_digits l' in (c :: ds, r)
      else ([], l)
  | [] => ([], [])
  end.

Definition digits_val (ds : list ascii) : Z :=
  fold_left (fun acc c => (10 * acc + digit_val c)%Z) ds 0%Z.

Definition take_sign (l : list ascii) : bool * list ascii :=
  match l with
  | c :: l' =>
      if Ascii.eqb c "-" then (true, l')
      else if Ascii.eqb c "+" then (false, l')
      else (false, l)
  | [] => (false, [])
  end.

Definition lower (c : ascii) : ascii :=
  let n := nat_of_ascii c in
  if (65 <=? n) && (n <=? 90) then ascii_of_nat (n + 32) else c.

(** [inf], [infinity] and [nan], in any case. *)
Definition parse_inf_nan (s : bool) (l : list ascii) : option float :=
  let w := string_of_list_ascii (map lower l) in
  if String.eqb w "inf" || String.eqb w "infinity" then Some (S754_infinity s)
  else if String.eqb w "nan" then Some S754_nan
  else None.

(** The optional exponent part: [e], an optional sign and at least
    one digit.  Anything else leaves the input where it was. *)
Definition parse_exponent (l : list ascii) : Z * list ascii :=
  match l with
  | c :: l' =>
      if Ascii.eqb (lower c) "e" then
        let '(neg, l'') := take_sign l' in
        let '(ds, r) := span_digits l'' in
        match ds with
        | [] => (0%Z, l)
        | _ => ((if neg then - digits_val ds else digits_val ds)%Z, r)
        end
      else (0%Z, l)
  | [] => (0%Z, [])
  end.

(** Digits, an optional point and more digits (one digit at least),
    an optional exponent, and nothing after it. *)
Definition parse_number (s : bool) (l : list ascii) : option float :=
  let '(ip, r1) := span_digits l in
  let '(fp, r2) := match r1 with
                   | c :: r => if Ascii.eqb c "." then span_digits r else ([], r1)
                   | [] => ([], [])
                   end in
  match ip ++ fp with
  | [] => None
  | ds =>
      let '(ex, r3) := parse_exponent r2 in
      match r3 with
      | _ :: _ => None
      | [] =>
          let e10 := (ex - Z.of_nat (length fp))%Z in
          match digits_val ds with
          | Zpos d =>
              Some (match e10 with
                    | Zneg k => of_ratio s d (10 ^ k)
                    | Zpos k => of_ratio s (d * 10 ^ k) 1
                    | Z0 => of_ratio s d 1
                    end)
          | _ => Some (S754_zero s)
          end
      end
  end.

(** [float(s)]: [None] stands for [ValueError]. *)
Definition of_string (str : string) : option float :=
  match strip (map to_ascii (list_ascii_of_string str)) with
  | [] => None
  | l =>
      l' ← (if existsb (Ascii.eqb "_") l
            then drop_underscores "000" l else Some l);
      let '(s, body) := take_sign l' in
      match parse_number s body with
      | Some x => Some x
      | None => parse_inf_nan s body
      end
  end.

End PyFloat.

(** ** JSON values and HTTP responses *)

(** What [resp.json()] returns.  An object keeps its members in order;
    its keys are distinct, as in the [dict] Python builds. *)
#[local] Unset Elimination Schemes.
Inductive Json : Type :=
| JNull
| JBool (b : bool)
| JInt (n : Z)
| JFloat (x : PyFloat.float)
| JStr (s : string)
| JArr (items : list Json)
| JObj (members : list (string * Json)).
#[local] Set Elimination Schemes.

(** What the harness reads off a response: [resp.status],
    [await resp.text()] and [await resp.json()].  Reading the text of
    a response that arrived is taken to succeed; parsing it as JSON
    may raise. *)
Record response : Type := {
  status : Z;
  text : string;
  json : result Json
}.

(** ** The metrics parser ([LoadTester.get_metrics]) *)

(** A metric with labels maps to the list of its values, a simple one
    to its value. *)
Inductive metric : Type :=
| MList (values : list PyFloat.float)
| MFloat (value : PyFloat.float).

Module Metrics.

Import PyStr.

(** [float(tok)] *)
Definition to_float (tok : string) : result PyFloat.float :=
  match PyFloat.of_string tok with
  | Some v => Ok v
  | None => Raise ValueError
  end.

(** [line.split('{')[0]] *)
Definition label_name (line : string) : string :=
  match split_on "{" line with
  | name :: _ => name
  | [] => ""
  end.

(** One turn of the loop of [get_metrics]. *)
Definition parse_line (metrics : gmap string metric) (line : string)
  : result (gmap string metric) :=
  if startswith line "auth_" then
    if contains line "{" then
      let name := label_name line in
      tok ← py_getitem (split line) (-1);
      value ← to_float tok;
      match metrics !! name with
      | None => Ok (<[name := MList [value]]> metrics)
      | Some (MList values) => Ok (<[name := MList (values ++ [value])]> metrics)
      | Some (MFloat _) => Raise AttributeError
      end
    else if negb (startswith line "#") then
      match split line with
      | [name; tok] =>
          value ← to_float tok;
          Ok (<[name := MFloat value]> metrics)
      | _ => Ok metrics
      end
    else Ok metrics
  else Ok metrics.

(** The key under which the loop records a line, if it records it. *)
Definition line_name (line : string) : option string :=
  if startswith line "auth_" then
    if contains line "{" then Some (label_name line)
    else match split line with
         | [name; _] => Some name
         | _ => None
         end
  else None.

(** The token the loop hands to [float], if it reads the line. *)
Definition value_token (line : string) : option string :=
  if startswith line "auth_" then
    if contains line "{" then last (split line)
    else match split line with
         | [_; tok] => Some tok
         | _ => None
         end
  else None.

(** Every value the loop reads is numeric. *)
Definition numeric (lines : list string) : Prop :=
  forall line tok, line ∈ lines -> value_token line = Some tok ->
                   is_Some (PyFloat.of_string tok).

(** No name is used both with and without labels. *)
Definition unmixed (lines : list string) : Prop :=
  forall l1 l2 name, l1 ∈ lines -> l2 ∈ lines ->
    contains l1 "{" = true -> contains l2 "{" = false ->
    line_name l1 = Some name -> line_name l2 <> Some name.

(** The two conditions as tests. *)
Definition numericb (lines : list string) : bool :=
  forallb (fun line =>
             match value_token line with
             | Some tok => bool_decide (is_Some (PyFloat.of_string tok))
             | None => true
             end) lines.

Definition unmixedb (lines : list string) : bool :=
  forallb (fun l1 =>
    forallb (fun l2 =>
      if contains l1 "{" && negb (contains l2 "{") then
        match line_name l1, line_name l2 with
        | Some n1, Some n2 => negb (String.eqb n1 n2)
        | _, _ => true
        end
      else true) lines) lines.

Fixpoint parse_lines (metrics : gmap string metric) (lines : list string)
  : result (gmap string metric) :=
  match lines with
  | [] => Ok metrics
  | line :: rest => metrics' ← parse_line metrics line; parse_lines metrics' rest
  end.

(** The loop over [text.split('\n')], from the empty dict. *)
Definition parse (text : string) : result (gmap string metric) :=
  parse_lines ∅ (split_on newline text).

(** [get_metrics]: [resp] is what the GET of [/metrics] gave. *)
Definition get_metrics (resp : result response) : result (gmap string metric) :=
  r ← resp; parse (text r).

End Metrics.

(** ** Latency percentiles ([pct] of [load-login.py]) *)

Module Latency.

(** The float operations [pct] uses, as an interface: [<], [<=],
    [float(n)], [x / y] for a divisor that is not zero ([pct] divides
    by 100.0), [x * y] and [round(x)]. *)
Class FloatOps (F : Type) : Type := {
  f_ltb : F -> F -> bool;
  f_leb : F -> F -> bool;
  f_of_int : Z -> F;
  f_div : F -> F -> F;
  f_mul : F -> F -> F;
  f_round : F -> result Z
}.

Section Pct.
Context {F : Type} `{FloatOps F}.

(** [x == y] on values that are not NaN. *)
Definition f_eqv (x y : F) : Prop :=
  f_leb x y = true /\ f_leb y x = true.

(** [x] is not a NaN: it compares with itself. *)
Definition ordered (x : F) : Prop := f_leb x x = true.

(** [sorted(lst)]: the stable ascending order, by [<] alone as
    Python's sort compares.  [x] stood before every element of
    [l] in the input, so it goes before its equals.  On a list
    without NaN the stable ascending order is unique: it is the list
    Python's sort returns.  With a NaN in the list every comparison
    with it is false, and what Python's sort returns depends on the
    comparisons its algorithm makes: this insertion is then not
    Python's [sorted] in general ([[3.0, 1.0, nan, 2.0]] gives
    [[1.0, 3.0, nan, 2.0]] here and [[1.0, 2.0, 3.0, nan]] in
    Python).  It is on [[1.0, nan]], where the one comparison
    [nan < 1.0] is false and the list stays as it is. *)
Fixpoint insert (x : F) (l : list F) : list F :=
  match l with
  | [] => [x]
  | y :: l' => if f_ltb y x then y :: insert x l' else x :: l
  end.

Definition sorted (lst : list F) : list F := foldr insert [] lst.

(** [int(round((p/100.0)*(n-1)))] for a list of [n] samples; [p]
    is the percentile as a float (an [int] such as 95 is converted
    when it is divided). *)
Definition rank (p : F) (n : nat) : result Z :=
  f_round (f_mul (f_div p (f_of_int 100)) (f_of_int (Z.of_nat n - 1))).

Definition pct (lst : list F) (p : F) : result F :=
  let lst := sorted lst in
  k ← rank p (length lst);
  py_getitem lst k.

(** The builtins [min] and [max]: the first least, the first
    greatest element; [ValueError] on an empty list. *)
Definition py_min (l : list F) : result F :=
  match l with
  | [] => Raise ValueError
  | x :: l' => Ok (fold_left (fun m y => if f_ltb y m then y else m) l' x)
  end.

Definition py_max (l : list F) : result F :=
  match l with
  | [] => Raise ValueError
  | x :: l' => Ok (fold_left (fun m y => if f_ltb m y then y else m) l' x)
  end.

(** What the sort needs of the comparisons: they order the values
    that are not NaN. *)
Class FloatOrder : Prop := {
  leb_trans x y z :
    f_leb x y = true -> f_leb y z = true -> f_leb x z = true;
  leb_total x y :
    f_leb x x = true -> f_leb y y = true ->
    f_leb x y = true \/ f_leb y x = true;
  ltb_leb x y :
    f_leb x x = true -> f_leb y y = true ->
    f_ltb x y = negb (f_leb y x)
}.

End Pct.
Arguments FloatOrder F {_}.

(** Python's floats. *)
#[global] Instance binary64 : FloatOps PyFloat.float := {|
  f_ltb := PyFloat.ltb;
  f_leb := PyFloat.leb;
  f_of_int := PyFloat.of_int;
  f_div := SFdiv PyFloat.prec PyFloat.emax;
  f_mul := PyFloat.mul;
  f_round := PyFloat.round
|}.

End Latency.

(** ** The builtin [hash] on strings

    CPython hashes a [str] with SipHash, keyed by a secret the
    interpreter draws when it starts ([PYTHONHASHSEED]); SipHash-1-3
    from Python 3.11 on, SipHash-2-4 before.  A string of code points
    below 256 is hashed as its bytes. *)

Module PyHash.
Local Open Scope Z_scope.

Record secret : Type := {
  rounds : nat * nat;   (* compression and finalisation rounds *)
  k0 : Z;
  k1 : Z
}.

Definition wrap64 (x : Z) : Z := x mod 2 ^ 64.

Definition rotl64 (x b : Z) : Z :=
  wrap64 (Z.lor (Z.shiftl x b) (Z.shiftr x (64 - b))).

Definition sipround (v : Z * Z * Z * Z) : Z * Z * Z * Z :=
  let '(v0, v1, v2, v3) := v in
  let v0 := wrap64 (v0 + v1) in
  let v1 := Z.lxor (rotl64 v1 13) v0 in
  let v0 := rotl64 v0 32 in
  let v2 := wrap64 (v2 + v3) in
  let v3 := Z.lxor (rotl64 v3 16) v2 in
  let v0 := wrap64 (v0 + v3) in
  let v3 := Z.lxor (rotl64 v3 21) v0 in
  let v2 := wrap64 (v2 + v1) in
  let v1 := Z.lxor (rotl64 v1 17) v2 in
  let v2 := rotl64 v2 32 in
  (v0, v1, v2, v3).

(** The little-endian value of a block of bytes. *)
Definition le_word (bytes : list Z) : Z :=
  foldr (fun b acc => b + 256 * acc) 0 bytes.

Definition absorb (c : nat) (m : Z) (v : Z * Z * Z * Z) : Z * Z * Z * Z :=
  let '(v0, v1, v2, v3) := v in
  let '(v0, v1, v2, v3) := Nat.iter c sipround (v0, v1, v2, Z.lxor v3 m) in
  (Z.lxor v0 m, v1, v2, v3).

(** Whole 8-byte words first, then the rest with the length in the
    top byte. *)
Fixpoint compress (c : nat) (len : Z) (data : list Z) (v : Z * Z * Z * Z)
  : Z * Z * Z * Z :=
  match data with
  | b0 :: b1 :: b2 :: b3 :: b4 :: b5 :: b6 :: b7 :: rest =>
      compress c len rest (absorb c (le_word [b0; b1; b2; b3; b4; b5; b6; b7]) v)
  | tail => absorb c (Z.shiftl (len mod 256) 56 + le_word tail) v
  end.

Definition siphash (key : secret) (data : list Z) : Z :=
  let '(c, d) := rounds key in
  let v := (Z.lxor (k0 key) 0x736f6d6570736575,
            Z.lxor (k1 key) 0x646f72616e646f6d,
            Z.lxor (k0 key) 0x6c7967656e657261,
            Z.lxor (k1 key) 0x7465646279746573) in
  let '(v0, v1, v2, v3) := compress c (Z.of_nat (length data)) data v in
  let '(v0, v1, v2, v3) := Nat.iter d sipround (v0, v1, Z.lxor v2 255, v3) in
  Z.lxor (Z.lxor v0 v1) (Z.lxor v2 v3).

(** [hash(s)]: the empty string hashes to 0, the result is a signed
    64-bit integer, and -1 is replaced by -2. *)
Definition hash (key : secret) (s : string) : Z :=
  match s with
  | EmptyString => 0
  | _ =>
      let h := siphash key (map (fun c => Z.of_nat (nat_of_ascii c))
                                (list_ascii_of_string s)) in
      let h := if 2 ^ 63 <=? h then h - 2 ^ 64 else h in
      if h =? -1 then -2 else h
  end.

End PyHash.

(** ** Formatting and JSON helpers *)

Module PyFmt.
Local Open Scope Z_scope.

(** The last [nd] decimal digits of [v], with leading zeros. *)
Fixpoint pad_digits (nd : nat) (v : Z) : string :=
  match nd with
  | O => ""
  | S k => pad_digits k (v / 10) +:+ pretty (v mod 10)
  end.

(** [f"{x:.{nd}f}"]: the exact value of [x] rounded to [nd]
    decimals, ties to even. *)
Definition fixed (nd : nat) (x : PyFloat.float) : string :=
  let scale := 10 ^ Z.of_nat nd in
  let render (s : bool) (n : Z) : string :=
    (if s then "-" else "") +:+ pretty (n / scale)
    +:+ (match nd with O => "" | _ => "." +:+ pad_digits nd (n mod scale) end) in
  match x with
  | S754_nan => "nan"
  | S754_infinity s => if s then "-inf" else "inf"
  | S754_zero s => render s 0
  | S754_finite s m e =>
      render s match e with
               | Zneg k => PyFloat.round_half_even (Zpos m * scale) (Zpos (2 ^ k))
               | _ => Zpos m * 2 ^ e * scale
               end
  end.

(** [str(b)] for a [bool]. *)
Definition bool (b : Datatypes.bool) : string := if b then "True" else "False".

(** [float(n)], which overflows on an [int] too large. *)
Definition float_of_int (n : Z) : result PyFloat.float :=
  match PyFloat.of_int n with
  | S754_infinity _ => Raise OverflowError
  | x => Ok x
  end.

End PyFmt.

Module PyJson.

(** [d[key]] on the members of a dict, if present. *)
Fixpoint lookup (members : list (string * Json)) (key : string) : option Json :=
  match members with
  | [] => None
  | (k, v) :: rest => if String.eqb k key then Some v else lookup rest key
  end.

(** [isinstance(j, dict) and key in j] *)
Definition has_key (j : Json) (key : string) : bool :=
  match j with
  | JObj members => bool_decide (is_Some (lookup members key))
  | _ => false
  end.

(** Truth value of [j]. *)
Definition truthy (j : Json) : bool :=
  match j with
  | JNull => false
  | JBool b => b
  | JInt n => negb (n =? 0)%Z
  | JFloat (S754_zero _) => false
  | JFloat _ => true
  | JStr s => negb (String.eqb s "")
  | JArr items => negb (bool_decide (items = []))
  | JObj members => negb (bool_decide (members = []))
  end.

(** [j.get(key)]: only a dict has [get]. *)
Definition get (j : Json) (key : string) : result Json :=
  match j with
  | JObj members => Ok (default JNull (lookup members key))
  | _ => Raise AttributeError
  end.

(** [j[0]] *)
Definition first (j : Json) : result Json :=
  match j with
  | JArr (x :: _) => Ok x
  | JArr [] => Raise IndexError
  | JStr (String c _) => Ok (JStr (String c ""))
  | JStr EmptyString => Raise IndexError
  | JObj _ => Raise KeyError
  | _ => Raise TypeError
  end.

(** [j.keys()]: only a dict has [keys]. *)
Definition keys (j : Json) : result (list string) :=
  match j with
  | JObj members => Ok (members.*1)
  | _ => Raise AttributeError
  end.

End PyJson.

(** ** Awaiting a batch *)

(** [asyncio.gather] with [return_exceptions=True]: one entry
    per task, its value or the exception it raised. *)
Fixpoint gather_return_exceptions {A} (tasks : list (result A)) : list (result A) :=
  match tasks with
  | [] => []
  | Ok a :: rest => Ok a :: gather_return_exceptions rest
  | Raise e :: rest => Raise e :: gather_return_exceptions rest
  end.

(** [asyncio.gather] of the tasks: the values, one per task, unless a
    task raises; then that exception is raised to the caller.  (Of
    several failing tasks this takes the first of the list.) *)
Fixpoint gather {A} (tasks : list (result A)) : result (list A) :=
  match tasks with
  | [] => Ok []
  | task :: rest => a ← task; values ← gather rest; Ok (a :: values)
  end.

(** [sum(1 for x in l if f x)] *)
Definition count {A} (f : A -> bool) (l : list A) : Z :=
  Z.of_nat (length (filter (fun x => f x = true) l)).

(** ** The scenarios of [pressure-test.py] ([LoadTester]) *)

Module Harness.

Import PyStr.

Record TestResult : Type := {
  name : string;
  success : bool;
  duration : PyFloat.float;
  details : string;
  metrics : option (gmap string metric)
}.

(** What one run meets outside the process: the outcome of each
    request (a response, or the exception the client raises), the
    elapsed times the clock gives, and the log file ([Raise] when
    [open] fails). *)
Record World : Type := {
  jwks_resp : nat -> result response;
  jwks_time : PyFloat.float;
  metrics_before : result response;
  register_resp : nat -> result response;
  hash_time : PyFloat.float;
  metrics_after : result response;
  replay_register : result response;
  replay_login : result response;
  replay_first : result response;
  replay_second : result response;
  replay_time : PyFloat.float;
  log_file : result string;
  rate_register : result response;
  rate_login : nat -> result response;
  rate_time : PyFloat.float;
  metrics_final : result response
}.

(** *** Requests *)

Record request : Type := {
  path : string;
  body : list (string * string);
  headers : list (string * string)
}.

(** The header of a registration: the last octet is
    [hash(user_data['email']) % 255]. *)
Definition forwarded_for (key : PyHash.secret) (email : string) : string :=
  "192.0.2." +:+ pretty (PyHash.hash key email `mod` 255)%Z.

(** The POST that [register_user] sends; [uuid1] and [uuid2] are the
    two [uuid4] strings it draws. *)
Definition register_request (key : PyHash.secret) (tenant_id uuid1 uuid2 : string)
  : request :=
  let email := "load-" +:+ uuid2 +:+ "@test.com" in
  {| path := "/api/auth/register";
     body := [("tenant_id", tenant_id); ("user_id", uuid1);
              ("email", email); ("password", "SecurePass123!@#")];
     headers := [("X-Forwarded-For", forwarded_for key email)] |}.

Section Scenarios.

(** [str(body)] of a parsed JSON body. *)
Variable py_str : Json -> string.

Variable w : World.

(** *** Test 1: JWKS endpoint under load *)

Definition fetch_jwks (resp : result response) : result Json :=
  r ← resp; json r.

Definition jwks_tasks (concurrency : Z) : list (result Json) :=
  map (fun i => fetch_jwks (jwks_resp w i)) (seq 0 (Z.to_nat concurrency)).

(** [isinstance(r, dict) and 'keys' in r] *)
Definition jwks_ok (r : result Json) : bool :=
  match r with
  | Ok j => PyJson.has_key j "keys"
  | Raise _ => false
  end.

(** The arguments of the prints under [if sample_jwk:]. *)
Definition print_sample (members : list (string * Json)) : result unit :=
  match PyJson.lookup members "keys" with
  | Some ks =>
      if PyJson.truthy ks then
        key ← PyJson.first ks;
        _ ← PyJson.keys key;
        _ ← PyJson.get key "alg";
        _ ← PyJson.get key "kty";
        Ok ()
      else Ok ()
  | None => Ok ()
  end.

Definition test_jwks_endpoint_load (concurrency : Z) (results : list TestResult)
  : result (list TestResult) :=
  let rs := gather_return_exceptions (jwks_tasks concurrency) in
  let duration := jwks_time w in
  let successes := count jwks_ok rs in
  let sample_jwk :=
    match rs with
    | Ok (JObj members) :: _ => Some members
    | _ => None
    end in
  c ← PyFmt.float_of_int concurrency;
  rate ← PyFloat.div c duration;
  let result :=
    {| name := "JWKS Load Test";
       success := (successes =? concurrency)%Z;
       duration := duration;
       details := pretty successes +:+ "/" +:+ pretty concurrency
                  +:+ " requests succeeded in " +:+ PyFmt.fixed 2 duration
                  +:+ "s (" +:+ PyFmt.fixed 1 rate +:+ " req/s)";
       metrics := None |} in
  _ ← match sample_jwk with
      | Some (m :: ms) => print_sample (m :: ms)
      | _ => Ok ()
      end;
  Ok (results ++ [result]).

(** *** Test 2: hash concurrency limit *)

Definition register_user (resp : result response) : result (Z * Json) :=
  match (r ← resp; body ← json r; Ok (status r, body)) with
  | Ok out => Ok out
  | Raise e =>
      if is_Exception e then Ok (0%Z, JObj [("error", JStr (exn_str e))])
      else Raise e
  end.

Definition register_tasks (beyond_limit : Z) : list (result (Z * Json)) :=
  map (fun i => register_user (register_resp w i)) (seq 0 (Z.to_nat beyond_limit)).

Definition test_hash_concurrency_limit (beyond_limit : Z) (results : list TestResult)
  : result (list TestResult) :=
  _ ← Metrics.get_metrics (metrics_before w);
  rs ← gather (register_tasks beyond_limit);
  let duration := hash_time w in
  let successes := count (fun '(st, _) => (st =? 200)%Z) rs in
  let hash_busy :=
    count (fun '(st, body) => (st =? 503)%Z || contains (py_str body) "hash_busy") rs in
  _ ← Metrics.get_metrics (metrics_after w);
  let result :=
    {| name := "Hash Concurrency Limiting";
       success := (0 <? hash_busy)%Z;
       duration := duration;
       details := pretty successes +:+ " succeeded, " +:+ pretty hash_busy
                  +:+ " hit hash_busy in " +:+ PyFmt.fixed 2 duration +:+ "s";
       metrics := None |} in
  Ok (results ++ [result]).

(** *** Test 3: replay detection *)

Definition test_replay_detection_with_ip (results : list TestResult)
  : result (list TestResult) :=
  reg ← replay_register w;
  if negb (status reg =? 200)%Z then Ok results
  else
    login ← replay_login w;
    login_result ← json login;
    refresh_token ← PyJson.get login_result "refresh_token";
    if negb (PyJson.truthy refresh_token) then Ok results
    else
      first ← replay_first w;
      let first_refresh := status first in
      second ← replay_second w;
      let replay_status := status second in
      let duration := replay_time w in
      logs ← log_file w;
      let has_replay_log := contains logs "refresh_replay_detected" in
      let has_client_ip :=
        contains logs "198.51.100.99" || contains logs "client_ip" in
      let has_user_agent :=
        contains logs "EvilClient" || contains logs "user_agent" in
      let result :=
        {| name := "Replay Detection with Client IP";
           success := (replay_status =? 401)%Z && has_replay_log && has_client_ip;
           duration := duration;
           details := "Replay "
                      +:+ (if (replay_status =? 401)%Z then "blocked" else "NOT blocked")
                      +:+ ", IP logged: " +:+ PyFmt.bool has_client_ip
                      +:+ ", UA logged: " +:+ PyFmt.bool has_user_agent;
           metrics := None |} in
      Ok (results ++ [result]).

(** *** Test 4: rate limiting *)

(** The loop of ten logins, one after the other. *)
Fixpoint login_statuses (attempts : list nat) : result (list Z) :=
  match attempts with
  | [] => Ok []
  | i :: rest =>
      r ← rate_login w i;
      statuses ← login_statuses rest;
      Ok (status r :: statuses)
  end.

Definition test_rate_limiting (results : list TestResult)
  : result (list TestResult) :=
  reg ← rate_register w;
  if negb (status reg =? 200)%Z then Ok results
  else
    statuses ← login_statuses (seq 0 10);
    let duration := rate_time w in
    let successes := count (fun s => (s =? 200)%Z) statuses in
    let rate_limited := count (fun s => (s =? 429)%Z) statuses in
    let result :=
      {| name := "Rate Limiting";
         success := (0 <? rate_limited)%Z;
         duration := duration;
         details := pretty successes +:+ " succeeded, " +:+ pretty rate_limited
                    +:+ " rate-limited (expected after 5th request)";
         metrics := None |} in
    Ok (results ++ [result]).

(** *** Test 5: metrics validation *)

Definition required_metrics : list string :=
  ["auth_register_total"; "auth_login_total"; "auth_refresh_total";
   "auth_http_request_duration_seconds"].

Definition found_among (all : gmap string metric) (required : list string)
  : gmap string metric :=
  fold_left (fun found m =>
               match all !! m with
               | Some v => <[m := v]> found
               | None => found
               end) required ∅.

Definition validate_metrics (results : list TestResult)
  : result (list TestResult) :=
  all ← Metrics.get_metrics (metrics_final w);
  let found_metrics := found_among all required_metrics in
  let result :=
    {| name := "Metrics Validation";
       success := bool_decide (3 <= size found_metrics);
       duration := PyFloat.zero;
       details := pretty (size found_metrics) +:+ "/"
                  +:+ pretty (length required_metrics)
                  +:+ " required metrics found";
       metrics := Some found_metrics |} in
  Ok (results ++ [result]).

(** *** The run *)

Definition run_scenarios (results : list TestResult) : result (list TestResult) :=
  results ← test_jwks_endpoint_load 100 results;
  results ← test_hash_concurrency_limit 60 results;
  results ← test_replay_detection_with_ip results;
  results ← test_rate_limiting results;
  validate_metrics results.

(** The summary: the report line divides [passed] by
    [total_tests]; the value returned is [passed == total_tests]. *)
Definition summary (results : list TestResult) : result bool :=
  let total_tests := Z.of_nat (length results) in
  let passed := count success results in
  if (total_tests =? 0)%Z then Raise ZeroDivisionError
  else Ok (passed =? total_tests)%Z.

Definition run_all_tests (results : list TestResult) : result bool :=
  results ← run_scenarios results;
  summary results.

(** The exit status of the process: [sys.exit(0 if success else 1)],
    and 1 when an exception reaches the top. *)
Definition main : Z :=
  match run_all_tests [] with
  | Ok true => 0
  | Ok false => 1
  | Raise _ => 1
  end.

End Scenarios.

End Harness.

(** ** [test-hash-concurrency-extreme.py] *)

Module Extreme.

Definition CONCURRENCY : nat := 200.

(** The body of [register_user] under [async with sem]. *)
Definition register_user (resp : result response) : result (Z * Json) :=
  match (r ← resp; body ← json r; Ok (status r, body)) with
  | Ok out => Ok out
  | Raise TimeoutError => Ok (0%Z, JObj [("error", JStr "timeout")])
  | Raise e =>
      if is_Exception e then Ok (0%Z, JObj [("error", JStr (exn_str e))])
      else Raise e
  end.

(** The POST it sends, with the same header derivation. *)
Definition register_request (key : PyHash.secret) (tenant_id uuid1 uuid2 : string)
  : Harness.request :=
  let email := "extreme-" +:+ uuid2 +:+ "@test.com" in
  {| Harness.path := "/api/auth/register";
     Harness.body := [("tenant_id", tenant_id); ("user_id", uuid1);
                      ("email", email); ("password", "SecurePass123!@#")];
     Harness.headers := [("X-Forwarded-For", Harness.forwarded_for key email)] |}.

Definition register_tasks (net : nat -> result response) (n : nat)
  : list (result (Z * Json)) :=
  map (fun i => register_user (net i)) (seq 0 n).

(** The batch of [main]. *)
Definition fan_out (net : nat -> result response) : result (list (Z * Json)) :=
  gather (register_tasks net CONCURRENCY).

End Extreme.

(** ** Scheduling a batch of requests

    The event loop runs one task at a time up to its next [await].
    A task of the batch is not yet started, parked on the semaphore,
    in flight (its POST is issued and unresolved) or done.  A schedule
    is the list of the turns the loop gives. *)

Module Dispatch.

Inductive phase : Type := Pending | Waiting | InFlight | Done.

#[global] Instance phase_eq_dec : EqDecision phase.
Proof. solve_decision. Defined.

Inductive turn : Type :=
| Start (i : nat)     (* task [i] runs for the first time *)
| Wake (i : nat)      (* a parked task is resumed *)
| Finish (i : nat).   (* the response of task [i] arrives *)

Record state : Type := {
  permits : nat;          (* the value of the semaphore *)
  tasks : list phase
}.

Definition init (c n : nat) : state :=
  {| permits := c; tasks := replicate n Pending |}.

Definition in_flight (s : state) : nat :=
  length (filter (fun p => p = InFlight) (tasks s)).

(** What a task adds to the requests in flight. *)
Definition weight (p : phase) : nat := if decide (p = InFlight) then 1 else 0.

Definition set_phase (i : nat) (p : phase) (s : state) (permits' : nat) : state :=
  {| permits := permits'; tasks := <[i := p]> (tasks s) |}.

(** [register_user(session, sem)] of [test-hash-concurrency-extreme.py]:
    [async with sem] takes a permit before the POST, or parks the
    task when none is left, and gives the permit back when the block
    is left, however it is left. *)
Definition step_gated (s : state) (t : turn) : option state :=
  match t with
  | Start i =>
      match tasks s !! i with
      | Some Pending =>
          match permits s with
          | O => Some (set_phase i Waiting s 0)
          | S k => Some (set_phase i InFlight s k)
          end
      | _ => None
      end
  | Wake i =>
      match tasks s !! i, permits s with
      | Some Waiting, S k => Some (set_phase i InFlight s k)
      | _, _ => None
      end
  | Finish i =>
      match tasks s !! i with
      | Some InFlight => Some (set_phase i Done s (S (permits s)))
      | _ => None
      end
  end.

(** [register_user()] of [pressure-test.py]: there is no semaphore;
    a started task issues its POST at once.  (The session is made
    with the default connector, whose pool admits 100 connections,
    more than the 60 tasks of the batch.) *)
Definition step_ungated (s : state) (t : turn) : option state :=
  match t with
  | Start i =>
      match tasks s !! i with
      | Some Pending => Some (set_phase i InFlight s (permits s))
      | _ => None
      end
  | Wake _ => None
  | Finish i =>
      match tasks s !! i with
      | Some InFlight => Some (set_phase i Done s (permits s))
      | _ => None
      end
  end.

Fixpoint run (step : state -> turn -> option state) (s : state) (schedule : list turn)
  : option state :=
  match schedule with
  | [] => Some s
  | t :: rest => s' ← step s t; run step s' rest
  end.

End Dispatch.

(** ** The report of [test-hash-concurrency-extreme.py]

    What [main] prints after the batch: the four counts, the verdict,
    and the lines of the metrics text that mention [hash_busy].  The
    counts are printed before the metrics are fetched; when that
    request raises, [main] ends with its exception. *)

Module ExtremeRun.

Import PyStr.

Record report : Type := {
  successes : Z;
  hash_busy : Z;
  rate_limited : Z;
  errors : Z;
  pass : bool;
  metric_lines : list string
}.

Section Main.

(** [str(body)] of a parsed JSON body. *)
Variable py_str : Json -> string.

(** [net i] is what the POST of task [i] gave, [metrics] what the GET
    of [/metrics] gave. *)
Definition main (net : nat -> result response) (metrics : result response)
  : result report :=
  results ← Extreme.fan_out net;
  let successes := count (fun '(st, _) => (st =? 200)%Z) results in
  let hash_busy :=
    count (fun '(st, body) => (st =? 503)%Z || contains (py_str body) "hash_busy")
          results in
  let rate_limited := count (fun '(st, _) => (st =? 429)%Z) results in
  let errors := count (fun '(st, _) => (st =? 0)%Z) results in
  resp ← metrics;
  let shown :=
    filter (fun line => contains line "hash_busy" && negb (startswith line "#") = true)
           (split_on newline (text resp)) in
  Ok {| successes := successes; hash_busy := hash_busy;
        rate_limited := rate_limited; errors := errors;
        pass := (0 <? hash_busy)%Z; metric_lines := shown |}.

End Main.

End ExtremeRun.

(** ** Base64 ([base64.urlsafe_b64decode])

    [urlsafe_b64decode] of a [str]: the string must be ASCII
    ([ValueError] otherwise), ['-'] and ['_'] are read as ['+'] and
    ['/'], and the bytes are decoded by [binascii.a2b_base64] in its
    lenient mode.  [binascii.Error] is a [ValueError]. *)

Module PyBase64.
Local Open Scope Z_scope.

(** The value of a character of the standard alphabet. *)
Definition value (c : ascii) : option Z :=
  let n := Z.of_nat (nat_of_ascii c) in
  if (65 <=? n) && (n <=? 90) then Some (n - 65)
  else if (97 <=? n) && (n <=? 122) then Some (n - 71)
  else if (48 <=? n) && (n <=? 57) then Some (n + 4)
  else if n =? 43 then Some 62
  else if n =? 47 then Some 63
  else None.

Definition translate (c : ascii) : ascii :=
  if Ascii.eqb c "-" then "+"%char
  else if Ascii.eqb c "_" then "/"%char
  else c.

(** The loop of [a2b_base64]: [quad_pos] is the position in the group
    of four characters, [leftchar] the bits not yet written, [pads]
    the ['='] seen since the last character of the alphabet.  A
    character outside the alphabet is skipped.  A ['='] that completes
    a group ends the decoding, whatever follows; elsewhere it is
    skipped.  A group left incomplete at the end is an error. *)
Fixpoint a2b (data : list ascii) (quad_pos : nat) (leftchar : Z) (pads : nat)
    (out : list Z) : result (list Z) :=
  match data with
  | [] => if (quad_pos =? 0)%nat then Ok out else Raise ValueError
  | c :: rest =>
      if Ascii.eqb c "=" then
        if (2 <=? quad_pos)%nat then
          if (4 <=? quad_pos + S pads)%nat then Ok out
          else a2b rest quad_pos leftchar (S pads) out
        else a2b rest quad_pos leftchar pads out
      else
        match value c with
        | None => a2b rest quad_pos leftchar pads out
        | Some v =>
            match quad_pos with
            | 0%nat => a2b rest 1 v 0 out
            | 1%nat =>
                a2b rest 2 (Z.land v 15) 0
                    (out ++ [Z.lor (Z.shiftl leftchar 2) (Z.shiftr v 4) mod 256])
            | 2%nat =>
                a2b rest 3 (Z.land v 3) 0
                    (out ++ [Z.lor (Z.shiftl leftchar 4) (Z.shiftr v 2) mod 256])
            | _ =>
                a2b rest 0 0 0 (out ++ [Z.lor (Z.shiftl leftchar 6) v mod 256])
            end
        end
  end.

Definition is_ascii (c : ascii) : bool := (nat_of_ascii c <? 128)%nat.

Definition urlsafe_b64decode (s : string) : result (list Z) :=
  let data := list_ascii_of_string s in
  if forallb is_ascii data then a2b (map translate data) 0 0 0 []
  else Raise ValueError.

(** [int.from_bytes(bs, 'big')] *)
Definition from_bytes (bs : list Z) : Z :=
  fold_left (fun acc b => acc * 256 + b) bs 0.

(** The string read as a numeral in base 64, most significant digit
    first; a character outside the alphabet counts for nothing. *)
Definition digit (c : ascii) : option Z := value (translate c).

Definition numeral (s : string) : Z :=
  fold_left (fun acc c => acc * 64 + default 0 (digit c))
            (list_ascii_of_string s) 0.

(** The number of bits that wait in [leftchar] at a position. *)
Definition waiting (quad_pos : nat) : Z :=
  match quad_pos with
  | 0%nat => 0
  | 1%nat => 6
  | 2%nat => 4
  | _ => 2
  end.

End PyBase64.

(** ** [test-external-validation.py]

    The script fetches the JWKS and a token, picks the key named by
    the [kid] of the token's header, rebuilds the public key from the
    [n] and [e] of that entry and checks the token with it. *)

Module Federation.

Import PyStr.

(** [j[key]] for a [str] key: only a dict has such items. *)
Definition subscript (j : Json) (key : string) : result Json :=
  match j with
  | JObj members =>
      match PyJson.lookup members key with
      | Some v => Ok v
      | None => Raise KeyError
      end
  | _ => Raise TypeError
  end.

(** [len(j)] *)
Definition py_len (j : Json) : result Z :=
  match j with
  | JStr s => Ok (Z.of_nat (String.length s))
  | JArr items => Ok (Z.of_nat (length items))
  | JObj members => Ok (Z.of_nat (length members))
  | _ => Raise TypeError
  end.

(** What [for key in j] goes through: the items of a list, the keys
    of a dict, the characters of a string. *)
Definition iterate (j : Json) : result (list Json) :=
  match j with
  | JArr items => Ok items
  | JObj members => Ok (map (fun m => JStr m.1) members)
  | JStr s => Ok (map (fun c => JStr (String c "")) (list_ascii_of_string s))
  | _ => Raise TypeError
  end.

(** ['=' * n] *)
Fixpoint equals (n : nat) : string :=
  match n with
  | O => ""
  | S k => String "=" (equals k)
  end.

(** The padding both decodings add: [4 - len(s) % 4] signs, unless
    that is 4. *)
Definition pad (s : string) : string :=
  let padding := (4 - Z.of_nat (String.length s) mod 4)%Z in
  if negb (padding =? 4)%Z then s +:+ equals (Z.to_nat padding) else s.

(** [b64_to_int] of [jwk_to_pem], on a string. *)
Definition b64_to_int (b64_str : string) : result Z :=
  bytes ← PyBase64.urlsafe_b64decode (pad b64_str);
  Ok (PyBase64.from_bytes bytes).

(** [b64_to_int(jwk[name])]: a member that is not a string fails with
    [TypeError], in [len], in [+=] or in the decoding. *)
Definition member_to_int (jwk : Json) (name : string) : result Z :=
  v ← subscript jwk name;
  match v with
  | JStr s => b64_to_int s
  | _ => Raise TypeError
  end.

(** What [jwt.decode] does with the token and the key. *)
Inductive jwt_outcome : Type :=
| Verified (claims : Json)
| Expired                      (* [jwt.ExpiredSignatureError] *)
| Invalid                      (* another [jwt.InvalidTokenError] *)
| Failed (e : exn).            (* any other exception *)

Section Script.

(** [a == b] on parsed JSON values. *)
Variable py_eq : Json -> Json -> bool.

(** [json.loads] on the decoded header. *)
Variable json_loads : list Z -> result Json.

(** The PEM text of the public key with exponent [e] and modulus
    [n], as [RSAPublicNumbers(e, n)] and [public_bytes] give it. *)
Variable pem_of : Z -> Z -> result string.

(** [jwt.decode(token, pem, algorithms=['RS256'], audience=...,
    issuer=..., options=...)]. *)
Variable jwt_decode : string -> string -> jwt_outcome.

(** What the two requests give, parsed: [jwks_response.json()] and
    [login_response.json()]. *)
Variable jwks_json : result Json.
Variable login_json : result Json.

(** The loop of step 4: the first key whose [kid] equals the
    token's. *)
Fixpoint find_key (keys : list Json) (kid : Json) : result (option Json) :=
  match keys with
  | [] => Ok None
  | key :: rest =>
      k ← subscript key "kid";
      if py_eq k kid then Ok (Some key) else find_key rest kid
  end.

Definition jwk_to_pem (jwk : Json) : result string :=
  n ← member_to_int jwk "n";
  e ← member_to_int jwk "e";
  pem_of e n.

(** [token[:50]] and [token.split('.')] need a string: a list can be
    sliced but has no [split], anything else cannot be sliced. *)
Definition token_text (token : Json) : result string :=
  match token with
  | JStr s => Ok s
  | JArr _ => Raise AttributeError
  | _ => Raise TypeError
  end.

(** The [kid] of the token's header. *)
Definition token_kid (token : string) : result Json :=
  let header_b64 := hd "" (split_on "." token) in
  bytes ← PyBase64.urlsafe_b64decode (pad header_b64);
  header ← json_loads bytes;
  subscript header "kid".

(** The script: the claims when it runs to its last line, [None] when
    it calls [exit(1)], the exception when one escapes. *)
Definition validate : result (option Json) :=
  jwks ← jwks_json;
  keys ← subscript jwks "keys";
  _ ← py_len keys;
  login ← login_json;
  token ← subscript login "access_token";
  token ← token_text token;
  kid ← token_kid token;
  items ← iterate keys;
  key_data ← find_key items kid;
  match key_data with
  | None => Ok None
  | Some key =>
      public_key_pem ← jwk_to_pem key;
      match jwt_decode token public_key_pem with
      | Verified decoded =>
          _ ← subscript decoded "sub";
          _ ← subscript decoded "tenant_id";
          _ ← subscript decoded "jti";
          Ok (Some decoded)
      | Expired | Invalid => Ok None
      | Failed e => Raise e
      end
  end.

(** The exit status of the process. *)
Definition exit_status : Z :=
  match validate with
  | Ok (Some _) => 0
  | _ => 1
  end.

End Script.

End Federation.

(** ** Reading a snapshot back

    What a line of the exposition text contributes to the dict of
    [get_metrics]: the name it is recorded under ([Metrics.line_name])
    and its value. *)

Module Family.

(** The value the loop records for a line, when it reads the line
    and the token is numeric. *)
Definition line_value (line : string) : option PyFloat.float :=
  tok ← Metrics.value_token line; PyFloat.of_string tok.

(** The lines recorded under [name], in input order. *)
Definition family (name : string) (lines : list string) : list string :=
  filter (fun line => Metrics.line_name line = Some name) lines.

(** What the dict holds after the loop has read [lines]: a name
    without a line is absent; a list holds the values of the lines of
    the name, which all have labels; a float is the value of the last
    line of the name, which has none. *)
Definition reads (lines : list string) (metrics : gmap string metric) : Prop :=
  forall name,
    match metrics !! name with
    | None => family name lines = []
    | Some (MList vs) =>
        Forall (fun line => PyStr.contains line "{" = true) (family name lines)
        /\ map line_value (family name lines) = map Some vs
    | Some (MFloat x) =>
        exists before line after,
          lines = before ++ line :: after
          /\ Metrics.line_name line = Some name
          /\ PyStr.contains line "{" = false
          /\ line_value line = Some x
          /\ family name after = []
    end.

End Family.

(** ** Sample inputs *)

Module Samples.

(** ["\n".join(lines)] *)
Definition join_lines (lines : list string) : string :=
  String.concat (String PyStr.newline "") lines.

Definition reply (st : Z) (txt : string) (j : result Json) : result response :=
  Ok {| status := st; text := txt; json := j |}.

Definition exposition : string :=
  join_lines ["# TYPE auth_login_total counter"; "foo bar baz";
              "auth_login_total 42"; "auth_h{le=1} 3"; "auth_h{le=2} 4.5";
              "auth_odd 1 2"; ""].

Definition exposition_metrics : gmap string metric :=
  {[ "auth_login_total" := MFloat (PyFloat.of_int 42);
     "auth_h" := MList [PyFloat.of_int 3; PyFloat.of_ratio false 9 2] ]}.

Definition replied (st : Z) (j : Json) : result response := reply st "" (Ok j).

Definition jwks_doc : Json :=
  JObj [("keys", JArr [JObj [("kid", JStr "abc"); ("kty", JStr "RSA");
                             ("alg", JStr "RS256")]])].

Definition empty_keys : Json := JObj [("keys", JArr [])].

Definition tokens : Json :=
  JObj [("access_token", JStr "a.b.c"); ("refresh_token", JStr "r-1")].

Definition replay_log : string :=
  "WARN refresh_replay_detected client_ip=198.51.100.99 user_agent=EvilClient/0.1".

Definition final_exposition : string :=
  join_lines ["auth_register_total 62"; "auth_login_total 11";
              "auth_refresh_total 2"].

(** [str] of a body, for the samples: the bodies below carry no
    text of interest. *)
Definition no_str (body : Json) : string := "".

(** A run against a service that answers every request; [keys] is
    the JWKS document, [reg] the status of the registration of the
    replay scenario, [login] the body of its login, [second] the
    status of the replayed refresh, [log] the log file and [final]
    the last metrics fetch. *)
Definition world (keys : Json) (reg : Z) (login : Json) (second : Z)
    (log : result string) (final : result response) : Harness.World :=
  {| Harness.jwks_resp := fun _ => replied 200 keys;
     Harness.jwks_time := PyFloat.of_int 1;
     Harness.metrics_before := reply 200 exposition (Raise (ContentError ""));
     Harness.register_resp := fun i =>
       if (i <? 50)%nat then replied 200 (JObj [])
       else replied 503 (JObj [("error", JStr "hash_busy")]);
     Harness.hash_time := PyFloat.of_int 2;
     Harness.metrics_after := reply 200 exposition (Raise (ContentError ""));
     Harness.replay_register := replied reg (JObj []);
     Harness.replay_login := replied 200 login;
     Harness.replay_first := replied 200 tokens;
     Harness.replay_second := replied second (JObj []);
     Harness.replay_time := PyFloat.of_int 1;
     Harness.log_file := log;
     Harness.rate_register := replied 200 (JObj []);
     Harness.rate_login := fun i =>
       if (i <? 5)%nat then replied 200 tokens else replied 429 (JObj []);
     Harness.rate_time := PyFloat.of_int 1;
     Harness.metrics_final := final |}.

(** The secrets CPython 3.11 derives for [PYTHONHASHSEED=1] and
    [PYTHONHASHSEED=2]. *)
Definition seed1 : PyHash.secret :=
  {| PyHash.rounds := (1, 3)%nat;
     PyHash.k0 := 0xaed66ce184be2329; PyHash.k1 := 0xebe9bbf1f1499052 |}.

Definition seed2 : PyHash.secret :=
  {| PyHash.rounds := (1, 3)%nat;
     PyHash.k0 := 0x3ffec22c8386202d; PyHash.k1 := 0xa5995e6c1db58cd1 |}.

Definition passing : Harness.World :=
  world jwks_doc 200 tokens 401 (Ok replay_log)
        (reply 200 final_exposition (Raise (ContentError ""))).

(** A batch in which every third request finds the server gone. *)
Definition flaky (i : nat) : result response :=
  if (i mod 3 =? 0)%nat then Raise (ClientError "connection reset")
  else if (i <? 50)%nat then replied 200 (JObj [])
  else replied 503 (JObj [("error", JStr "hash_busy")]).

(** A JWKS with one key, a token whose header names it, and a
    verifier that accepts the token. *)
Definition same_text (a b : Json) : bool :=
  match a, b with
  | JStr x, JStr y => String.eqb x y
  | _, _ => false
  end.

Definition published : Json :=
  JObj [("keys", JArr [JObj [("kty", JStr "RSA"); ("kid", JStr "key-1");
                             ("n", JStr "wJ3n"); ("e", JStr "AQAB")]])].

Definition issued : Json :=
  JObj [("access_token", JStr "aGVhZGVy.cGF5bG9hZA.c2ln")].

Definition header_of (bytes : list Z) : result Json :=
  Ok (JObj [("alg", JStr "RS256"); ("kid", JStr "key-1")]).

Definition accepted (token pem : string) : Federation.jwt_outcome :=
  Federation.Verified
    (JObj [("sub", JStr "user-1"); ("tenant_id", JStr "t-1"); ("jti", JStr "j-1")]).

(** A family written first without and then with labels. *)
Definition mixed_exposition : string :=
  join_lines ["auth_up 1"; "auth_up{zone=a} 1"].

End Samples.

(** * Properties *)

(** ** Facts on the basic operations *)

Lemma bind_Ok {A B} (m : result A) (f : A -> result B) (b : B) :
  m ≫= f = Ok b <-> exists a, m = Ok a /\ f a = Ok b.
Proof.
  destruct m as [a|e]; simpl; split.
  - intros Hf. exists a. auto.
  - intros (a' & Ha & Hf). congruence.
  - discriminate.
  - intros (a' & Ha & _). discriminate.
Qed.

Lemma returns_true {A} (m : result A) : returns m = true <-> exists a, m = Ok a.
Proof.
  destruct m; simpl; split; eauto; try discriminate.
  intros [a Ha]. discriminate.
Qed.

Module PyStrFacts.
Import PyStr.

Lemma split_on_nonempty sep s : split_on sep s <> [].
Proof.
  destruct s as [|c s]; simpl; [discriminate|].
  destruct (Ascii.eqb c sep); [discriminate|].
  destruct (split_on sep s); discriminate.
Qed.

(** A prefix without the separator is a prefix of the first piece. *)
Lemma split_on_prefix sep p : forall s,
  Forall (fun c => c <> sep) (list_ascii_of_string p) ->
  String.prefix p s = true ->
  exists w ws, split_on sep s = w :: ws /\ String.prefix p w = true.
Proof.
  induction p as [|c p IH]; intros s Hp Hs.
  - destruct (split_on sep s) as [|w ws] eqn:E.
    + now apply split_on_nonempty in E.
    + exists w, ws. split; [reflexivity|]. now destruct w.
  - destruct s as [|c' s]; simpl in Hs; [discriminate|].
    destruct (Ascii.ascii_dec c c') as [<-|]; [|discriminate].
    simpl in Hp. apply Forall_cons in Hp as [Hc Hp].
    destruct (IH s Hp Hs) as (w & ws & E & Hw).
    simpl. apply Ascii.eqb_neq in Hc. rewrite Hc, E.
    exists (String c w), ws. split; [reflexivity|].
    simpl. destruct (Ascii.ascii_dec c c); [assumption|contradiction].
Qed.

Lemma split_cons c s :
  split (String c s) =
  if is_space c then split s
  else match s with
       | EmptyString => [String c EmptyString]
       | String c' _ =>
           if is_space c' then String c EmptyString :: split s
           else match split s with
                | w :: ws => String c w :: ws
                | [] => [String c EmptyString]
                end
       end.
Proof. reflexivity. Qed.

Lemma prefix_cons c p w : String.prefix (String c p) (String c w) = String.prefix p w.
Proof. simpl. destruct (Ascii.ascii_dec c c); [reflexivity|contradiction]. Qed.

Lemma prefix_nil w : String.prefix EmptyString w = true.
Proof. now destruct w. Qed.

(** A non-empty prefix without whitespace is a prefix of the first
    token. *)
Lemma split_prefix p : forall s,
  p <> EmptyString ->
  Forall (fun c => is_space c = false) (list_ascii_of_string p) ->
  String.prefix p s = true ->
  exists w ws, split s = w :: ws /\ String.prefix p w = true.
Proof.
  induction p as [|c p IH]; intros s Hne Hp Hs; [contradiction|].
  destruct s as [|c' s]; simpl in Hs; [discriminate|].
  destruct (Ascii.ascii_dec c c') as [<-|]; [|discriminate].
  simpl in Hp. apply Forall_cons in Hp as [Hc Hp].
  rewrite split_cons, Hc.
  destruct p as [|c2 p].
  - destruct s as [|c3 s].
    + eexists _, _. split; [reflexivity|]. now rewrite prefix_cons.
    + destruct (is_space c3).
      * eexists _, _. split; [reflexivity|]. now rewrite prefix_cons.
      * destruct (split (String c3 s)); eexists _, _;
          (split; [reflexivity|]); rewrite prefix_cons; apply prefix_nil.
  - destruct (IH s ltac:(discriminate) Hp Hs) as (w & ws & E & Hw).
    destruct s as [|c3 s]; [discriminate|].
    assert (c2 = c3) as <-.
    { simpl in Hs. now destruct (Ascii.ascii_dec c2 c3). }
    apply Forall_cons in Hp as [Hc2 _].
    rewrite Hc2, E.
    exists (String c w), ws. split; [reflexivity|].
    now rewrite prefix_cons.
Qed.

End PyStrFacts.

Module MetricsFacts.
Import PyStr Metrics PyStrFacts.

Lemma label_name_auth line :
  startswith line "auth_" = true -> startswith (label_name line) "auth_" = true.
Proof.
  intros H. unfold label_name.
  destruct (split_on_prefix "{" "auth_" line) as (w & ws & -> & Hw); auto.
  repeat constructor; discriminate.
Qed.

Lemma first_token_auth line :
  startswith line "auth_" = true ->
  exists w ws, split line = w :: ws /\ startswith w "auth_" = true.
Proof.
  intros H. apply split_prefix; [discriminate | repeat constructor | exact H].
Qed.

Lemma line_name_auth line k :
  line_name line = Some k ->
  startswith line "auth_" = true /\ startswith k "auth_" = true.
Proof.
  unfold line_name. destruct (startswith line "auth_") eqn:Hl; [|discriminate].
  destruct (contains line "{").
  - intros [= <-]. split; [reflexivity|]. now apply label_name_auth.
  - destruct (first_token_auth line Hl) as (w & ws & -> & Hw).
    destruct ws as [|tok [|? ?]]; try discriminate.
    intros [= <-]. auto.
Qed.

(** A key of the dict after a line was there before, or is the
    name of the line. *)
Lemma parse_line_keys metrics line metrics' k :
  parse_line metrics line = Ok metrics' ->
  is_Some (metrics' !! k) ->
  is_Some (metrics !! k) \/ line_name line = Some k.
Proof.
  unfold parse_line, line_name.
  destruct (startswith line "auth_"); [|intros [= <-]; auto].
  destruct (contains line "{").
  - intros H. apply bind_Ok in H as (tok & _ & H).
    apply bind_Ok in H as (value & _ & H).
    destruct (metrics !! label_name line) as [[values|v]|] eqn:E;
      try discriminate; injection H as <-;
      (destruct (decide (label_name line = k)) as [->|Hne];
       [auto | rewrite lookup_insert_ne by assumption; auto]).
  - destruct (negb (startswith line "#")); [|intros [= <-]; auto].
    destruct (split line) as [|name [|tok [|? ?]]];
      try (intros [= <-]; auto).
    intros H. apply bind_Ok in H as (value & _ & H). injection H as <-.
    destruct (decide (name = k)) as [->|Hne];
      [auto | rewrite lookup_insert_ne by assumption; auto].
Qed.

Lemma parse_lines_keys lines : forall metrics metrics' k,
  parse_lines metrics lines = Ok metrics' ->
  is_Some (metrics' !! k) ->
  is_Some (metrics !! k) \/ exists line, line ∈ lines /\ line_name line = Some k.
Proof.
  induction lines as [|line rest IH]; intros metrics metrics' k H Hk.
  - injection H as <-. auto.
  - simpl in H. apply bind_Ok in H as (m1 & H1 & H2).
    destruct (IH _ _ _ H2 Hk) as [Hm1|(l & Hl & Hn)].
    + destruct (parse_line_keys _ _ _ _ H1 Hm1) as [?|?]; [auto|].
      right. exists line. split; [constructor|assumption].
    + right. exists l. split; [now constructor|assumption].
Qed.

Lemma auth_not_comment line :
  startswith line "auth_" = true -> startswith line "#" = false.
Proof.
  unfold startswith. intros H.
  destruct line as [|c line]; [discriminate|].
  cbn [String.prefix] in *.
  destruct (Ascii.ascii_dec "a" c) as [<-|]; [|discriminate].
  now destruct (Ascii.ascii_dec "#" "a").
Qed.

Lemma getitem_last {A} (l : list A) :
  py_getitem l (-1) = match last l with Some x => Ok x | None => Raise IndexError end.
Proof.
  unfold py_getitem. rewrite last_lookup.
  destruct l as [|x l]; [reflexivity|].
  cbn [length Nat.pred].
  replace (if (-1 <? 0)%Z then (Z.of_nat (S (length l)) + -1)%Z else (-1)%Z)
    with (Z.of_nat (length l)) by (cbn [Z.ltb Z.compare]; lia).
  rewrite Nat2Z.id.
  destruct ((0 <=? Z.of_nat (length l))%Z && (Z.of_nat (length l) <? Z.of_nat (S (length l)))%Z) eqn:E.
  - reflexivity.
  - apply andb_false_iff in E as [E|E]; [apply Z.leb_gt in E|apply Z.ltb_ge in E]; lia.
Qed.

(** What one turn of the loop does, by the shape of the line. *)
Lemma parse_line_skip metrics line :
  value_token line = None -> parse_line metrics line = Ok metrics.
Proof.
  unfold value_token, parse_line.
  destruct (startswith line "auth_") eqn:Hl; [|reflexivity].
  destruct (contains line "{").
  - destruct (first_token_auth line Hl) as (w & ws & E & _).
    rewrite E, last_cons. destruct (last ws); discriminate.
  - rewrite (auth_not_comment line Hl). simpl.
    now destruct (split line) as [|? [|? [|? ?]]].
Qed.

Lemma parse_line_value_error metrics line tok :
  value_token line = Some tok -> PyFloat.of_string tok = None ->
  parse_line metrics line = Raise ValueError.
Proof.
  unfold value_token, parse_line, to_float.
  destruct (startswith line "auth_") eqn:Hl; [|discriminate].
  destruct (contains line "{").
  - intros Ht Hf. rewrite getitem_last, Ht. simpl. now rewrite Hf.
  - rewrite (auth_not_comment line Hl). simpl.
    destruct (split line) as [|? [|? [|? ?]]]; try discriminate.
    intros [= ->] ->. reflexivity.
Qed.

(** The keys bound to a plain float after a line. *)
Lemma parse_line_ok metrics line tok v :
  value_token line = Some tok -> PyFloat.of_string tok = Some v ->
  (forall name x, contains line "{" = true -> line_name line = Some name ->
                  metrics !! name <> Some (MFloat x)) ->
  exists metrics', parse_line metrics line = Ok metrics' /\
    forall k x, metrics' !! k = Some (MFloat x) ->
      metrics !! k = Some (MFloat x) \/
      (contains line "{" = false /\ line_name line = Some k).
Proof.
  unfold value_token, parse_line, line_name, to_float.
  destruct (startswith line "auth_") eqn:Hl; [|discriminate].
  destruct (contains line "{").
  - intros Ht Hf Hno. rewrite getitem_last, Ht. simpl. rewrite Hf. simpl.
    destruct (metrics !! label_name line) as [[values|x]|] eqn:E.
    + eexists. split; [reflexivity|]. intros k x Hk.
      destruct (decide (label_name line = k)) as [<-|Hne].
      * rewrite lookup_insert_eq in Hk. discriminate.
      * rewrite lookup_insert_ne in Hk by assumption. auto.
    + now destruct (Hno (label_name line) x).
    + eexists. split; [reflexivity|]. intros k x Hk.
      destruct (decide (label_name line = k)) as [<-|Hne].
      * rewrite lookup_insert_eq in Hk. discriminate.
      * rewrite lookup_insert_ne in Hk by assumption. auto.
  - rewrite (auth_not_comment line Hl). simpl.
    destruct (split line) as [|name [|tok' [|? ?]]]; try discriminate.
    intros [= ->] Hf _. rewrite Hf. simpl.
    eexists. split; [reflexivity|]. intros k x Hk.
    destruct (decide (name = k)) as [<-|Hne]; [auto|].
    rewrite lookup_insert_ne in Hk by assumption. auto.
Qed.

Lemma parse_lines_returns lines : forall metrics,
  numeric lines -> unmixed lines ->
  (forall k x l, metrics !! k = Some (MFloat x) -> l ∈ lines ->
                 contains l "{" = true -> line_name l <> Some k) ->
  returns (parse_lines metrics lines) = true.
Proof.
  induction lines as [|line rest IH]; intros metrics Hnum Hmix Hinv;
    [reflexivity|].
  simpl.
  assert (Hnum' : numeric rest).
  { intros l tok Hl. apply Hnum. now constructor. }
  assert (Hmix' : unmixed rest).
  { intros l1 l2 n H1 H2. apply Hmix; now constructor. }
  destruct (value_token line) as [tok|] eqn:Ht.
  - destruct (Hnum line tok ltac:(constructor) Ht) as [v Hv].
    destruct (parse_line_ok metrics line tok v Ht Hv) as (m1 & -> & Hm1).
    { intros name x Hb Hn Hx.
      exact (Hinv name x line Hx ltac:(constructor) Hb Hn). }
    simpl. apply IH; [assumption..|].
    intros k x l Hk Hl Hb.
    destruct (Hm1 k x Hk) as [Hk'|[Hb' Hn']].
    + apply (Hinv k x l Hk'); [now constructor|assumption].
    + intros Hn. eapply (Hmix l line k); try eassumption;
        [now constructor|constructor].
  - rewrite (parse_line_skip metrics line Ht). simpl.
    apply IH; [assumption..|].
    intros k x l Hk Hl. apply (Hinv k x l Hk). now constructor.
Qed.

Lemma numericb_numeric lines : numericb lines = true -> numeric lines.
Proof.
  unfold numericb. rewrite forallb_forall.
  intros H line tok Hin Ht. apply list_elem_of_In in Hin.
  specialize (H line Hin). rewrite Ht in H.
  now apply bool_decide_eq_true in H.
Qed.

Lemma unmixedb_unmixed lines : unmixedb lines = true -> unmixed lines.
Proof.
  unfold unmixedb. rewrite forallb_forall.
  intros H l1 l2 name H1 H2 Hb1 Hb2 Hn1 Hn2.
  apply list_elem_of_In in H1, H2.
  specialize (H l1 H1). rewrite forallb_forall in H.
  specialize (H l2 H2). rewrite Hb1, Hb2, Hn1, Hn2 in H. simpl in H.
  now rewrite String.eqb_refl in H.
Qed.

End MetricsFacts.

(** ** The metrics parser *)

(** C10: every key of the snapshot that [get_metrics] returns starts
    with [auth_] and is the name of a line of the input that starts
    with [auth_]; a name that does not start with [auth_] is absent. *)
Theorem get_metrics_keys_auth_prefixed resp metrics :
  Metrics.get_metrics resp = Ok metrics ->
  exists r, resp = Ok r /\
    (forall k, k ∈ dom metrics ->
       PyStr.startswith k "auth_" = true /\
       exists line, line ∈ PyStr.split_on PyStr.newline (text r) /\
                    PyStr.startswith line "auth_" = true /\
                    Metrics.line_name line = Some k) /\
    (forall k, PyStr.startswith k "auth_" = false -> metrics !! k = None).
Proof.
  intros H. apply bind_Ok in H as (r & -> & H). exists r.
  split; [reflexivity|].
  assert (Hkeys : forall k, is_Some (metrics !! k) ->
            exists line, line ∈ PyStr.split_on PyStr.newline (text r) /\
                         Metrics.line_name line = Some k).
  { intros k Hk.
    destruct (MetricsFacts.parse_lines_keys _ _ _ k H Hk) as [Hin|Hl]; [|exact Hl].
    rewrite lookup_empty in Hin. now destruct Hin. }
  split.
  - intros k Hk. apply elem_of_dom in Hk.
    destruct (Hkeys k Hk) as (line & Hin & Hn).
    destruct (MetricsFacts.line_name_auth line k Hn) as [Hl Hk'].
    split; [exact Hk'|]. exists line. auto.
  - intros k Hk. destruct (metrics !! k) as [v|] eqn:E; [|reflexivity].
    destruct (Hkeys k) as (line & _ & Hn); [rewrite E; eauto|].
    apply MetricsFacts.line_name_auth in Hn as [_ Hn]. congruence.
Qed.

Lemma get_metrics_keys_sample :
  exists r, Samples.reply 200 Samples.exposition (Raise (ContentError "")) = Ok r /\
    (forall k, k ∈ dom Samples.exposition_metrics ->
       PyStr.startswith k "auth_" = true /\
       exists line, line ∈ PyStr.split_on PyStr.newline (text r) /\
                    PyStr.startswith line "auth_" = true /\
                    Metrics.line_name line = Some k) /\
    (forall k, PyStr.startswith k "auth_" = false ->
               Samples.exposition_metrics !! k = None).
Proof.
  apply get_metrics_keys_auth_prefixed. vm_compute. reflexivity.
Defined.

(** C4, as stated, fails: a line that starts with [auth_] and whose
    value is not numeric makes [float] raise [ValueError] out of
    [get_metrics], with or without braces on the line; and a line with
    braces and one token too many is not skipped: its last token is
    recorded. *)
Lemma get_metrics_raises_on_non_numeric :
  Metrics.get_metrics (Samples.reply 200 "auth_login_total abc" (Raise (ContentError "")))
  = Raise ValueError
  /\ Metrics.get_metrics (Samples.reply 200 "auth_h{le=1} abc" (Raise (ContentError "")))
     = Raise ValueError
  /\ Metrics.get_metrics (Samples.reply 200 "auth_h{le=1} 3 4" (Raise (ContentError "")))
     = Ok {[ "auth_h" := MList [PyFloat.of_int 4] ]}.
Proof. repeat split; vm_compute; reflexivity. Qed.

(** C4, as the code behaves: the loop skips a line that does not start
    with [auth_], and a line without braces that has not exactly two
    tokens; of a line with braces it records the last token, however
    many tokens there are; a value that is not numeric raises
    [ValueError]; the parse completes when every value read is numeric
    and no name is used both with and without labels.  The line
    [foo bar baz] is skipped, and [auth_login_total 42] gives the
    simple value 42.0. *)
Theorem parse_skips_or_raises :
  (forall metrics line,
     PyStr.startswith line "auth_" = false ->
     Metrics.parse_line metrics line = Ok metrics)
  /\ (forall metrics line,
        PyStr.contains line "{" = false ->
        length (PyStr.split line) <> 2 ->
        Metrics.parse_line metrics line = Ok metrics)
  /\ (forall metrics line tok v,
        PyStr.startswith line "auth_" = true ->
        PyStr.contains line "{" = true ->
        last (PyStr.split line) = Some tok ->
        PyFloat.of_string tok = Some v ->
        Metrics.parse_line metrics line
        = match metrics !! Metrics.label_name line with
          | None => Ok (<[Metrics.label_name line := MList [v]]> metrics)
          | Some (MList values) =>
              Ok (<[Metrics.label_name line := MList (values ++ [v])]> metrics)
          | Some (MFloat _) => Raise AttributeError
          end)
  /\ (forall metrics line tok,
        Metrics.value_token line = Some tok -> PyFloat.of_string tok = None ->
        Metrics.parse_line metrics line = Raise ValueError)
  /\ (forall text,
        Metrics.numeric (PyStr.split_on PyStr.newline text) ->
        Metrics.unmixed (PyStr.split_on PyStr.newline text) ->
        returns (Metrics.parse text) = true)
  /\ Metrics.parse "foo bar baz" = Ok ∅
  /\ Metrics.parse "auth_login_total 42"
     = Ok {[ "auth_login_total" := MFloat (PyFloat.of_int 42) ]}.
Proof.
  repeat apply conj.
  - intros metrics line H. apply MetricsFacts.parse_line_skip.
    unfold Metrics.value_token. now rewrite H.
  - intros metrics line Hb Hn. apply MetricsFacts.parse_line_skip.
    unfold Metrics.value_token. rewrite Hb.
    destruct (PyStr.startswith line "auth_"); [|reflexivity].
    destruct (PyStr.split line) as [|? [|? [|? ?]]]; try reflexivity.
    now destruct Hn.
  - intros metrics line tok v Hl Hb Ht Hv. unfold Metrics.parse_line.
    rewrite Hl, Hb, MetricsFacts.getitem_last, Ht. simpl.
    unfold Metrics.to_float. rewrite Hv. reflexivity.
  - apply MetricsFacts.parse_line_value_error.
  - intros text Hnum Hmix. apply MetricsFacts.parse_lines_returns; [assumption..|].
    intros k x l Hk. now rewrite lookup_empty in Hk.
  - vm_compute. reflexivity.
  - vm_compute. reflexivity.
Qed.

Lemma parse_sample_returns : returns (Metrics.parse Samples.exposition) = true.
Proof.
  apply parse_skips_or_raises.
  - apply MetricsFacts.numericb_numeric. vm_compute. reflexivity.
  - apply MetricsFacts.unmixedb_unmixed. vm_compute. reflexivity.
Defined.

(** ** Percentiles *)

Module LatencyFacts.
Import Latency.

(** *** What the order of the floats gives *)

Section Ordered.
Context {F : Type} {ops : FloatOps F} {order : FloatOrder F}.

Notation "x ⊑ y" := (f_leb x y = true) (at level 70).

Lemma insert_perm x l : Permutation (insert x l) (x :: l).
Proof.
  induction l as [|y l IH]; simpl; [reflexivity|].
  destruct (f_ltb y x); [|reflexivity].
  rewrite IH. apply perm_swap.
Qed.

Lemma sorted_perm l : Permutation (sorted l) l.
Proof.
  induction l as [|x l IH]; simpl; [reflexivity|].
  rewrite insert_perm. now constructor.
Qed.

Lemma sorted_length l : length (sorted l) = length l.
Proof. apply Permutation_length, sorted_perm. Qed.

Lemma insert_ascending x l :
  ordered x -> Forall ordered l ->
  StronglySorted (fun a b => a ⊑ b) l ->
  StronglySorted (fun a b => a ⊑ b) (insert x l).
Proof.
  intros Hx Hl Hs. induction Hs as [|y l Hs IH Hy]; simpl.
  - repeat constructor.
  - apply Forall_cons in Hl as [Hoy Hl].
    rewrite (ltb_leb y x Hoy Hx).
    destruct (f_leb x y) eqn:Hxy; simpl.
    + constructor; [now constructor|].
      constructor; [assumption|].
      eapply Forall_impl; [exact Hy|].
      intros z Hz. simpl in Hz. now apply (leb_trans x y z).
    + constructor; [now apply IH|].
      rewrite insert_perm. constructor; [|assumption].
      destruct (leb_total x y Hx Hoy); congruence.
Qed.

Lemma sorted_ascending l :
  Forall ordered l -> StronglySorted (fun a b => a ⊑ b) (sorted l).
Proof.
  induction l as [|x l IH]; intros Hl; simpl; [constructor|].
  apply Forall_cons in Hl as [Hx Hl].
  apply insert_ascending; [assumption| |now apply IH].
  now rewrite sorted_perm.
Qed.

Lemma getitem_in_range {A} (l : list A) (k : Z) :
  (0 <= k < Z.of_nat (length l))%Z ->
  exists v, l !! Z.to_nat k = Some v /\ py_getitem l k = Ok v.
Proof.
  intros Hk. unfold py_getitem.
  destruct (k <? 0)%Z eqn:E; [apply Z.ltb_lt in E; lia|].
  destruct ((0 <=? k)%Z && (k <? Z.of_nat (length l))%Z) eqn:E2.
  - destruct (l !! Z.to_nat k) as [v|] eqn:Hv; [eauto|].
    apply lookup_ge_None in Hv. lia.
  - apply andb_false_iff in E2 as [E2|E2];
      [apply Z.leb_gt in E2|apply Z.ltb_ge in E2]; lia.
Qed.

(** In an ascending list an earlier element is below a later one. *)
Lemma ascending_lookup l i j a b :
  StronglySorted (fun a b => a ⊑ b) l -> Forall ordered l ->
  l !! i = Some a -> l !! j = Some b -> (i <= j)%nat -> a ⊑ b.
Proof.
  intros Hs. revert i j. induction Hs as [|x l Hs IH Hx];
    intros i j Ho Hi Hj Hij; [now rewrite lookup_nil in Hi|].
  apply Forall_cons in Ho as [Hox Ho].
  destruct i as [|i], j as [|j]; simpl in *; try lia.
  - injection Hi as <-. injection Hj as <-. exact Hox.
  - injection Hi as <-. rewrite Forall_forall in Hx.
    apply Hx. eapply list_elem_of_lookup_2, Hj.
  - apply (IH i j); [assumption..|lia].
Qed.

(** [min] gives an element below all, [max] one above all. *)
Lemma fold_min l : forall x,
  ordered x -> Forall ordered l ->
  let m := fold_left (fun m y => if f_ltb y m then y else m) l x in
  (m = x \/ m ∈ l) /\ m ⊑ x /\ Forall (fun z => m ⊑ z) l.
Proof.
  induction l as [|y l IH]; intros x Hx Hl; simpl.
  - auto.
  - apply Forall_cons in Hl as [Hy Hl].
    rewrite (ltb_leb y x Hy Hx).
    destruct (f_leb x y) eqn:Hxy; simpl.
    + destruct (IH x Hx Hl) as (Hm & Hmx & Hall).
      split; [destruct Hm; [auto|right; now constructor]|].
      split; [assumption|].
      constructor; [|assumption]. now apply (leb_trans _ x).
    + destruct (IH y Hy Hl) as (Hm & Hmy & Hall).
      assert (y ⊑ x) by (destruct (leb_total x y Hx Hy); congruence).
      split; [right; destruct Hm as [->|]; now constructor|].
      split; [now apply (leb_trans _ y)|].
      constructor; assumption.
Qed.

Lemma fold_max l : forall x,
  ordered x -> Forall ordered l ->
  let m := fold_left (fun m y => if f_ltb m y then y else m) l x in
  (m = x \/ m ∈ l) /\ x ⊑ m /\ Forall (fun z => z ⊑ m) l.
Proof.
  induction l as [|y l IH]; intros x Hx Hl; simpl.
  - auto.
  - apply Forall_cons in Hl as [Hy Hl].
    rewrite (ltb_leb x y Hx Hy).
    destruct (f_leb y x) eqn:Hyx; simpl.
    + destruct (IH x Hx Hl) as (Hm & Hmx & Hall).
      split; [destruct Hm; [auto|right; now constructor]|].
      split; [assumption|].
      constructor; [|assumption]. now apply (leb_trans _ x).
    + destruct (IH y Hy Hl) as (Hm & Hmy & Hall).
      assert (x ⊑ y) by (destruct (leb_total x y Hx Hy); congruence).
      split; [right; destruct Hm as [->|]; now constructor|].
      split; [now apply (leb_trans _ y)|].
      constructor; assumption.
Qed.

Lemma py_min_least l :
  l <> [] -> Forall ordered l ->
  exists m, py_min l = Ok m /\ m ∈ l /\ Forall (fun z => m ⊑ z) l.
Proof.
  intros Hne Hl. destruct l as [|x l]; [contradiction|].
  apply Forall_cons in Hl as [Hx Hl].
  destruct (fold_min l x Hx Hl) as (Hm & Hmx & Hall).
  eexists. split; [reflexivity|]. split.
  - destruct Hm as [->|]; now constructor.
  - now constructor.
Qed.

Lemma py_max_greatest l :
  l <> [] -> Forall ordered l ->
  exists m, py_max l = Ok m /\ m ∈ l /\ Forall (fun z => z ⊑ m) l.
Proof.
  intros Hne Hl. destruct l as [|x l]; [contradiction|].
  apply Forall_cons in Hl as [Hx Hl].
  destruct (fold_max l x Hx Hl) as (Hm & Hmx & Hall).
  eexists. split; [reflexivity|]. split.
  - destruct Hm as [->|]; now constructor.
  - now constructor.
Qed.

Lemma pct_at samples p k :
  rank p (length samples) = Ok k ->
  (0 <= k < Z.of_nat (length samples))%Z ->
  exists v, sorted samples !! Z.to_nat k = Some v /\ pct samples p = Ok v.
Proof.
  intros Hr Hk. unfold pct. rewrite sorted_length, Hr. simpl.
  apply getitem_in_range. now rewrite sorted_length.
Qed.

(** Once the two extreme indices are 0 and [len - 1], the extreme
    percentiles are the least and the greatest sample. *)
Lemma pct_extremes samples :
  samples <> [] -> Forall ordered samples ->
  rank (f_of_int 0) (length samples) = Ok 0%Z ->
  rank (f_of_int 100) (length samples) = Ok (Z.of_nat (length samples) - 1)%Z ->
  (exists v m,
     pct samples (f_of_int 0) = Ok v /\ py_min samples = Ok m /\ f_eqv v m)
  /\ (exists v m,
        pct samples (f_of_int 100) = Ok v /\ py_max samples = Ok m /\ f_eqv v m).
Proof.
  intros Hne Hord Hr0 Hr100.
  assert (Hn : (0 < length samples)%nat)
    by (destruct samples; [contradiction|simpl; lia]).
  pose proof (sorted_perm samples) as Hperm.
  pose proof (sorted_ascending samples Hord) as Hasc.
  assert (Hord' : Forall ordered (sorted samples)) by now rewrite Hperm.
  split.
  - destruct (pct_at samples (f_of_int 0) 0 Hr0 ltac:(lia)) as (v & Hv & Hp).
    destruct (py_min_least samples Hne Hord) as (m & Hm & Hin & Hall).
    exists v, m. repeat split; try assumption.
    + rewrite <- Hperm in Hin.
      apply list_elem_of_lookup_1 in Hin as [j Hj].
      apply (ascending_lookup (sorted samples) 0 j); auto. simpl. lia.
    + rewrite Forall_forall in Hall. apply Hall.
      rewrite <- Hperm. eapply list_elem_of_lookup_2, Hv.
  - destruct (pct_at samples (f_of_int 100) _ Hr100 ltac:(lia)) as (v & Hv & Hp).
    destruct (py_max_greatest samples Hne Hord) as (m & Hm & Hin & Hall).
    exists v, m. repeat split; try assumption.
    + rewrite Forall_forall in Hall. apply Hall.
      rewrite <- Hperm. eapply list_elem_of_lookup_2, Hv.
    + rewrite <- Hperm in Hin.
      apply list_elem_of_lookup_1 in Hin as [j Hj].
      apply (ascending_lookup (sorted samples) j
               (Z.to_nat (Z.of_nat (length samples) - 1))); auto.
      apply lookup_lt_Some in Hj. rewrite sorted_length in Hj. lia.
Qed.

End Ordered.

End LatencyFacts.

(** ** Python's floats

    The comparisons of binary64 order the values that are not NaN; an
    [int] below [2^53] converts exactly, [round] gives it back, and
    multiplying it by 1.0 changes nothing.  Division and
    multiplication round to nearest: a result is never above a float
    that the exact value does not exceed, which keeps the index of a
    percentile in range. *)

Module Binary64.
Import Latency.
Local Open Scope Z_scope.

Ltac cmp_cases :=
  repeat match goal with
  | |- context [Z.compare ?a ?b] => destruct (Z.compare_spec a b); subst
  | H : context [Z.compare ?a ?b] |- _ => destruct (Z.compare_spec a b); subst
  | |- context [Pos.compare_cont Eq ?a ?b] => change (Pos.compare_cont Eq a b) with (Pos.compare a b); destruct (Pos.compare_spec a b); subst
  | H : context [Pos.compare_cont Eq ?a ?b] |- _ => change (Pos.compare_cont Eq a b) with (Pos.compare a b) in H; destruct (Pos.compare_spec a b); subst
  end.

Lemma SFleb_trans x y z : SFleb x y = true -> SFleb y z = true -> SFleb x z = true.
Proof.
  unfold SFleb, SFcompare.
  destruct x as [sx|sx| |sx mx ex], y as [sy|sy| |sy my ey], z as [sz|sz| |sz mz ez];
    try discriminate; try reflexivity;
    try destruct sx; try destruct sy; try destruct sz; try discriminate; try reflexivity;
    intros H1 H2; cmp_cases; simpl in *; try discriminate; try reflexivity; try lia.
Qed.

Lemma SFleb_total x y : SFleb x x = true -> SFleb y y = true -> SFleb x y = true \/ SFleb y x = true.
Proof.
  unfold SFleb, SFcompare.
  destruct x as [sx|sx| |sx mx ex], y as [sy|sy| |sy my ey];
    try discriminate; auto;
    try destruct sx; try destruct sy; auto; intros _ _;
    cmp_cases; simpl in *; auto; try lia.
Qed.

Lemma SFltb_leb x y : SFleb x x = true -> SFleb y y = true -> SFltb x y = negb (SFleb y x).
Proof.
  unfold SFleb, SFltb, SFcompare.
  destruct x as [sx|sx| |sx mx ex], y as [sy|sy| |sy my ey];
    try discriminate; auto;
    try destruct sx; try destruct sy; auto; intros _ _;
    cmp_cases; simpl in *; auto; try lia.
Qed.

Lemma binary64_order : FloatOrder PyFloat.float.
Proof.
  split; [exact SFleb_trans|exact SFleb_total|exact SFltb_leb].
Qed.

Lemma ordered_not_nan (x : PyFloat.float) : ordered x <-> x <> S754_nan.
Proof.
  unfold ordered. simpl. unfold PyFloat.leb, SFleb, SFcompare.
  destruct x as [s|s| |s m e]; try destruct s; simpl; split;
    try discriminate; try reflexivity; try congruence.
  - intros _. change (Pos.compare_cont Eq m m) with (Pos.compare m m).
    now rewrite Z.compare_refl, Pos.compare_refl.
  - intros _. change (Pos.compare_cont Eq m m) with (Pos.compare m m).
    now rewrite Z.compare_refl, Pos.compare_refl.
Qed.

(** [x == y] is [x <= y and y <= x]. *)
Lemma eqb_eqv (x y : PyFloat.float) : PyFloat.eqb x y = true <-> f_eqv x y.
Proof.
  unfold f_eqv. simpl. unfold PyFloat.eqb, PyFloat.leb, SFeqb, SFleb, SFcompare.
  destruct x as [sx|sx| |sx mx ex], y as [sy|sy| |sy my ey];
    try destruct sx; try destruct sy; simpl;
    try (split; [intros; (discriminate || (split; reflexivity))
                |intros [? ?]; (discriminate || reflexivity)]);
    cmp_cases; simpl; split; try intros [? ?]; try discriminate; auto; lia.
Qed.

Lemma digits2_shift p k : digits2_pos (Pos.iter xO p k) = (digits2_pos p + k)%positive.
Proof.
  induction k as [|k IH] using Pos.peano_ind.
  - simpl. lia.
  - rewrite Pos.iter_succ. simpl. rewrite IH. lia.
Qed.

Lemma shift_value p k : Zpos (Pos.iter xO p k) = Zpos p * 2 ^ Zpos k.
Proof.
  induction k as [|k IH] using Pos.peano_ind.
  - simpl. lia.
  - rewrite Pos.iter_succ, Pos2Z.inj_succ, Z.pow_succ_r by lia.
    rewrite Pos2Z.inj_xO, IH. lia.
Qed.

(** A 53-bit mantissa is not shifted, and rounding it changes
    nothing. *)
Lemma shr_fexp_canonical M E :
  digits2_pos M = 53%positive -> -1074 <= E <= 971 ->
  shr_fexp 53 1024 (Zpos M) E loc_Exact
  = ({| shr_m := Zpos M; shr_r := false; shr_s := false |}, E).
Proof.
  intros HM HE. unfold shr_fexp, fexp, emin.
  cbv beta iota delta [Zdigits2]. rewrite HM.
  replace (Z.max (53 + E - 53) (3 - 1024 - 53) - E) with 0 by lia.
  reflexivity.
Qed.

Lemma round_aux_canonical s M E :
  digits2_pos M = 53%positive -> -1074 <= E <= 971 ->
  binary_round_aux 53 1024 s (Zpos M) E loc_Exact = S754_finite s M E.
Proof.
  intros HM HE. unfold binary_round_aux.
  rewrite (shr_fexp_canonical M E HM HE). simpl.
  rewrite (shr_fexp_canonical M E HM HE). simpl.
  destruct (Z.leb_spec E (1024 - 53)); [reflexivity|lia].
Qed.

Lemma digits2_size p : digits2_pos p = Pos.size p.
Proof. induction p; simpl; congruence. Qed.

Lemma digits2_small p : Zpos p < 2 ^ 53 -> (digits2_pos p <= 53)%positive.
Proof.
  intros Hp. rewrite digits2_size.
  pose proof (Pos.size_le p) as Hle.
  destruct (Pos.leb_spec (Pos.size p) 53) as [|Hgt]; [assumption|exfalso].
  apply Pos2Z.pos_le_pos in Hle. rewrite Pos2Z.inj_pow in Hle.
  assert (H54 : 2 ^ 54 <= 2 ^ Zpos (Pos.size p))
    by (apply Z.pow_le_mono_r; lia).
  lia.
Qed.

(** An [int] below [2^53] converts to a 53-bit mantissa with the
    same value. *)
Lemma of_int_canonical p :
  Zpos p < 2 ^ 53 ->
  exists M k,
    PyFloat.of_int (Zpos p) = S754_finite false M (- k)
    /\ digits2_pos M = 53%positive /\ 0 <= k <= 52
    /\ Zpos M = Zpos p * 2 ^ k.
Proof.
  intros Hp. pose proof (digits2_small p Hp) as Hd.
  unfold PyFloat.of_int, binary_normalize, binary_round, PyFloat.prec, PyFloat.emax.
  unfold fexp, emin.
  replace (Z.max (Zpos (digits2_pos p) + 0 - 53) (3 - 1024 - 53))
    with (Zpos (digits2_pos p) - 53) by lia.
  unfold shl_align.
  destruct (Zpos (digits2_pos p) - 53 - 0) as [|q|q] eqn:E; try lia.
  - exists p, 0. assert (Hd53 : digits2_pos p = 53%positive) by lia.
    split; [apply round_aux_canonical; [assumption|lia]|].
    split; [assumption|]. split; lia.
  - exists (Pos.iter xO p q), (Zpos q).
    assert (Hq : digits2_pos (Pos.iter xO p q) = 53%positive)
      by (rewrite digits2_shift; lia).
    replace (Zpos (digits2_pos p) - 53) with (- Zpos q) by lia.
    split; [apply round_aux_canonical; [assumption|lia]|].
    split; [assumption|]. split; [lia|].
    apply shift_value.
Qed.

Lemma round_half_even_exact n d : 0 < d -> PyFloat.round_half_even (n * d) d = n.
Proof.
  intros Hd. unfold PyFloat.round_half_even.
  rewrite Z.div_mul, Z.mod_mul by lia. simpl.
  destruct d; try lia.
Qed.

Lemma round_of_int_exact m : 0 <= m < 2 ^ 53 -> PyFloat.round (PyFloat.of_int m) = Ok m.
Proof.
  intros Hm. destruct m as [|p|p]; [reflexivity| |lia].
  destruct (of_int_canonical p) as (M & k & -> & _ & Hk & HM); [lia|].
  unfold PyFloat.round. destruct k as [|k|k]; try lia; simpl.
  - f_equal. lia.
  - f_equal. rewrite HM. rewrite Pos2Z.inj_pow.
    apply round_half_even_exact. lia.
Qed.

Lemma mul_one_canonical M E :
  digits2_pos M = 53%positive -> -1074 <= E <= 971 ->
  PyFloat.mul PyFloat.one (S754_finite false M E) = S754_finite false M E.
Proof.
  intros HM HE. unfold PyFloat.mul, PyFloat.one, SFmul, PyFloat.prec, PyFloat.emax.
  change (xorb false false) with false.
  assert (Hmul : (4503599627370496 * M)%positive = Pos.iter xO M 52) by reflexivity.
  rewrite Hmul.
  assert (Hsh : shr_fexp 53 1024 (Zpos (Pos.iter xO M 52)) (-52 + E) loc_Exact
                = ({| shr_m := Zpos M; shr_r := false; shr_s := false |}, E)).
  { assert (Hdig : Zdigits2 (Zpos (Pos.iter xO M 52)) = 105).
    { cbv beta iota delta [Zdigits2]. now rewrite digits2_shift, HM. }
    unfold shr_fexp, fexp, emin. rewrite Hdig.
    replace (Z.max (105 + (-52 + E) - 53) (3 - 1024 - 53) - (-52 + E))
      with 52 by lia.
    unfold shr. replace (-52 + E + 52) with E by lia. reflexivity. }
  unfold binary_round_aux. rewrite Hsh.
  change (round_nearest_even (shr_m {| shr_m := Zpos M; shr_r := false; shr_s := false |})
            (loc_of_shr_record {| shr_m := Zpos M; shr_r := false; shr_s := false |}))
    with (Zpos M).
  rewrite (shr_fexp_canonical M E HM HE). simpl.
  destruct (Z.leb_spec E (1024 - 53)); [reflexivity|lia].
Qed.

Lemma of_int_finite m :
  0 <= m < 2 ^ 53 ->
  PyFloat.of_int m = S754_zero false
  \/ exists M E, PyFloat.of_int m = S754_finite false M E
                 /\ digits2_pos M = 53%positive /\ -1074 <= E <= 971.
Proof.
  intros Hm. destruct m as [|p|p]; [now left| |lia]. right.
  destruct (of_int_canonical p) as (M & k & HM & Hd & Hk & _); [lia|].
  exists M, (- k). repeat split; [assumption..|lia|lia].
Qed.

Lemma rank_0_binary64 n :
  (0 < n)%nat -> Z.of_nat n - 1 < 2 ^ 53 ->
  rank (PyFloat.of_int 0) n = Ok 0.
Proof.
  intros Hn Hbig. unfold rank. cbn [f_round f_mul f_div f_of_int binary64].
  assert (Hzero : SFdiv PyFloat.prec PyFloat.emax (PyFloat.of_int 0) (PyFloat.of_int 100)
                  = S754_zero false) by (vm_compute; reflexivity).
  rewrite Hzero.
  destruct (of_int_finite (Z.of_nat n - 1)) as [->|(M & E & -> & _)];
    [lia|reflexivity|reflexivity].
Qed.

Lemma rank_100_binary64 n :
  (0 < n)%nat -> Z.of_nat n - 1 < 2 ^ 53 ->
  rank (PyFloat.of_int 100) n = Ok (Z.of_nat n - 1).
Proof.
  intros Hn Hbig. unfold rank. cbn [f_round f_mul f_div f_of_int binary64].
  assert (Hone : SFdiv PyFloat.prec PyFloat.emax (PyFloat.of_int 100) (PyFloat.of_int 100)
                 = PyFloat.one) by (vm_compute; reflexivity).
  rewrite Hone.
  pose proof (round_of_int_exact (Z.of_nat n - 1) ltac:(lia)) as Hr.
  destruct (of_int_finite (Z.of_nat n - 1)) as [E0|(M & E & EM & HM & HE)]; [lia| |].
  - rewrite E0 in *. exact Hr.
  - rewrite EM in *. now rewrite mul_one_canonical.
Qed.

(** *** The number of bits of a mantissa *)

Lemma Zdigits2_log2 m : 0 < m -> Zdigits2 m = Z.log2 m + 1.
Proof.
  destruct m as [|p|p]; try lia. intros _. simpl.
  rewrite digits2_size.
  destruct p; simpl; lia.
Qed.

Lemma Zdigits2_le a b : 0 <= a <= b -> Zdigits2 a <= Zdigits2 b.
Proof.
  intros [Ha Hab]. destruct (Z.eq_dec a 0) as [->|Hne].
  - destruct b; simpl; lia.
  - rewrite !Zdigits2_log2 by lia.
    pose proof (Z.log2_le_mono a b Hab). lia.
Qed.

Lemma Zdigits2_mul_pow2 b k : 0 < b -> 0 <= k -> Zdigits2 (b * 2 ^ k) = Zdigits2 b + k.
Proof.
  intros Hb Hk. rewrite !Zdigits2_log2 by nia.
  rewrite Z.log2_mul_pow2 by lia. lia.
Qed.

(** *** Shifting a mantissa right

    [n] shifts divide the mantissa by [2^n]; the bits that fall off
    are recorded, and nothing is recorded when they are all zero. *)

Lemma iter_pos_iter {A} (f : A -> A) p : forall x, SpecFloat.iter_pos f p x = Pos.iter f x p.
Proof.
  induction p as [p IH|p IH|]; intros x; simpl.
  - rewrite !IH. now rewrite <- !Pos.iter_swap.
  - now rewrite !IH.
  - reflexivity.
Qed.

Lemma mod_pow_split m a b :
  0 <= a -> 0 <= b -> m mod 2 ^ (a + b) = 0 ->
  m mod 2 ^ a = 0 /\ (m / 2 ^ a) mod 2 ^ b = 0.
Proof.
  intros Ha Hb Hm.
  assert (Hpa : 0 < 2 ^ a) by (apply Z.pow_pos_nonneg; lia).
  assert (Hpb : 0 < 2 ^ b) by (apply Z.pow_pos_nonneg; lia).
  apply Z.div_exact in Hm; [|rewrite Z.pow_add_r by lia; nia].
  rewrite Z.pow_add_r in Hm by lia.
  set (t := m / (2 ^ a * 2 ^ b)) in Hm.
  assert (E : m = (2 ^ b * t) * 2 ^ a) by lia.
  rewrite E. rewrite Z.mod_mul, Z.div_mul by lia.
  split; [reflexivity|]. rewrite Z.mul_comm. apply Z.mod_mul. lia.
Qed.

Lemma shr_1_spec mrs :
  0 <= shr_m mrs ->
  shr_m (shr_1 mrs) = shr_m mrs / 2
  /\ (shr_r mrs = false -> shr_s mrs = false -> shr_m mrs mod 2 = 0 ->
      shr_r (shr_1 mrs) = false /\ shr_s (shr_1 mrs) = false).
Proof.
  destruct mrs as [m r s]. simpl. intros Hm.
  destruct m as [|[p|p|]|p]; cbn [shr_m shr_r shr_s]; try lia.
  - split; [reflexivity|]. intros -> -> _. auto.
  - split.
    + rewrite Pos2Z.inj_xI. apply (Z.div_unique _ _ _ 1); lia.
    + intros _ _ Hodd. rewrite Pos2Z.inj_xI in Hodd.
      rewrite Z.add_comm, Z.mul_comm, Z.mod_add in Hodd by lia. discriminate.
  - split.
    + rewrite Pos2Z.inj_xO. apply (Z.div_unique _ _ _ 0); lia.
    + intros -> -> _. auto.
  - split; [reflexivity|]. intros _ _ Hodd. discriminate.
Qed.

Lemma iter_shr_spec p : forall mrs,
  0 <= shr_m mrs ->
  shr_m (SpecFloat.iter_pos shr_1 p mrs) = shr_m mrs / 2 ^ Zpos p
  /\ (shr_r mrs = false -> shr_s mrs = false -> shr_m mrs mod 2 ^ Zpos p = 0 ->
      shr_r (SpecFloat.iter_pos shr_1 p mrs) = false /\ shr_s (SpecFloat.iter_pos shr_1 p mrs) = false).
Proof.
  intros mrs Hm. rewrite iter_pos_iter.
  induction p as [|p IH] using Pos.peano_ind.
  - simpl Pos.iter. change (2 ^ 1) with 2. now apply shr_1_spec.
  - rewrite Pos.iter_succ. destruct IH as [IHm IHx].
    assert (Hpos : 0 < 2 ^ Zpos p) by (apply Z.pow_pos_nonneg; lia).
    assert (Hnn : 0 <= shr_m (Pos.iter shr_1 mrs p))
      by (rewrite IHm; apply Z.div_pos; lia).
    destruct (shr_1_spec _ Hnn) as [Sm Sx].
    rewrite Pos2Z.inj_succ, <- Z.add_1_r.
    split.
    + rewrite Sm, IHm, Z.div_div by lia.
      now rewrite Z.pow_add_r by lia.
    + intros Hr Hs Hmod.
      destruct (mod_pow_split _ (Zpos p) 1 ltac:(lia) ltac:(lia) Hmod) as [H1 H2].
      destruct (IHx Hr Hs H1) as [Hr' Hs'].
      apply Sx; try assumption. rewrite IHm. exact H2.
Qed.

(** *** Rounding stays below a float above the exact value

    When the value [mx * 2^ex] to round is at most the float
    [mb * 2^eb], and is that float only when nothing was left out of
    [mx], the rounded result is at most the float: the shift leaves the
    mantissa at most the bound in the new unit, and the mantissa is
    rounded up only from strictly below it. *)

Lemma fexp_le x y : x <= y -> fexp 53 1024 x <= fexp 53 1024 y.
Proof. unfold fexp, emin. lia. Qed.

Lemma shr_record_of_loc_m M l : shr_m (shr_record_of_loc M l) = M.
Proof. destruct l as [|[]]; reflexivity. Qed.

Lemma round_nearest_even_bounds m l :
  m <= round_nearest_even m l <= m + 1
  /\ (l = loc_Exact -> round_nearest_even m l = m).
Proof.
  destruct l as [|[]]; simpl; try destruct (Z.even m); split; try lia;
    try reflexivity; discriminate.
Qed.

Lemma shr_fexp_below M e l mb eb :
  0 <= M -> canonical_mantissa 53 1024 mb eb = true ->
  e <= eb -> M <= Zpos mb * 2 ^ (eb - e) ->
  exists mrs e2,
    shr_fexp 53 1024 M e l = (mrs, e2)
    /\ e <= e2 <= eb
    /\ shr_m mrs = M / 2 ^ (e2 - e)
    /\ (l = loc_Exact -> M mod 2 ^ (e2 - e) = 0 ->
        loc_of_shr_record mrs = loc_Exact).
Proof.
  intros HM Hcan He Hle. unfold shr_fexp.
  assert (Hf : fexp 53 1024 (Zdigits2 M + e) <= eb).
  { unfold canonical_mantissa in Hcan. apply Z.eqb_eq in Hcan.
    etransitivity; [|apply Z.eq_le_incl, Hcan]. apply fexp_le.
    pose proof (Zdigits2_le M (Zpos mb * 2 ^ (eb - e)) (conj HM Hle)) as Hd.
    rewrite Zdigits2_mul_pow2 in Hd by lia. simpl Zdigits2 in Hd. lia. }
  unfold shr.
  destruct (fexp 53 1024 (Zdigits2 M + e) - e) as [|p|p] eqn:En.
  - exists (shr_record_of_loc M l), e. split; [reflexivity|]. split; [lia|].
    rewrite Z.sub_diag, shr_record_of_loc_m. simpl. rewrite Z.div_1_r.
    split; [reflexivity|]. now intros ->.
  - exists (SpecFloat.iter_pos shr_1 p (shr_record_of_loc M l)), (e + Zpos p).
    split; [reflexivity|]. split; [lia|].
    replace (e + Zpos p - e) with (Zpos p) by lia.
    destruct (iter_shr_spec p (shr_record_of_loc M l)) as [Hm Hx];
      [now rewrite shr_record_of_loc_m|].
    rewrite shr_record_of_loc_m in Hm, Hx. split; [exact Hm|].
    intros -> Hmod. destruct (Hx eq_refl eq_refl Hmod) as [Hr Hs].
    destruct (SpecFloat.iter_pos shr_1 p (shr_record_of_loc M loc_Exact)) as [m r s].
    simpl in Hr, Hs. subst. reflexivity.
  - exists (shr_record_of_loc M l), e. split; [reflexivity|]. split; [lia|].
    rewrite Z.sub_diag, shr_record_of_loc_m. simpl. rewrite Z.div_1_r.
    split; [reflexivity|]. now intros ->.
Qed.

Lemma round_aux_below mx ex lx mb eb :
  0 <= mx -> bounded 53 1024 mb eb = true ->
  ex <= eb -> mx <= Zpos mb * 2 ^ (eb - ex) ->
  (mx = Zpos mb * 2 ^ (eb - ex) -> lx = loc_Exact) ->
  PyFloat.below (binary_round_aux 53 1024 false mx ex lx) mb eb.
Proof.
  intros Hmx Hb Hex Hle Hexact.
  unfold bounded in Hb. apply andb_true_iff in Hb as [Hcan Hmax].
  apply Z.leb_le in Hmax.
  unfold binary_round_aux.
  destruct (shr_fexp_below mx ex lx mb eb Hmx Hcan Hex Hle)
    as (mrs1 & e1 & -> & He1 & Hm1 & Hx1).
  set (K := Zpos mb * 2 ^ (eb - e1)).
  assert (Hp1 : 0 < 2 ^ (e1 - ex)) by (apply Z.pow_pos_nonneg; lia).
  assert (HK : Zpos mb * 2 ^ (eb - ex) = K * 2 ^ (e1 - ex)).
  { unfold K. rewrite <- Z.mul_assoc, <- Z.pow_add_r by lia. f_equal. f_equal. lia. }
  assert (H1 : 0 <= shr_m mrs1 <= K).
  { rewrite Hm1. split; [apply Z.div_pos; lia|].
    apply Z.div_le_upper_bound; lia. }
  set (M2 := round_nearest_even (shr_m mrs1) (loc_of_shr_record mrs1)).
  assert (HM2 : 0 <= M2 <= K).
  { destruct (round_nearest_even_bounds (shr_m mrs1) (loc_of_shr_record mrs1))
      as [Hb2 Hx2]. fold M2 in Hb2, Hx2.
    destruct (Z.eq_dec (shr_m mrs1) K) as [EK|NK]; [|lia].
    assert (Hge : K * 2 ^ (e1 - ex) <= mx).
    { rewrite <- EK, Hm1, Z.mul_comm. apply Z.mul_div_le. lia. }
    assert (Emx : mx = Zpos mb * 2 ^ (eb - ex)) by lia.
    rewrite Hx2; [lia|]. apply Hx1; [now apply Hexact|].
    rewrite Emx, HK. apply Z.mod_mul. lia. }
  destruct (shr_fexp_below M2 e1 loc_Exact mb eb (proj1 HM2) Hcan (proj2 He1) (proj2 HM2))
    as (mrs2 & e2 & -> & He2 & Hm2 & _).
  assert (Hp2 : 0 < 2 ^ (e2 - e1)) by (apply Z.pow_pos_nonneg; lia).
  assert (HK2 : K = Zpos mb * 2 ^ (eb - e2) * 2 ^ (e2 - e1)).
  { unfold K. rewrite <- Z.mul_assoc, <- Z.pow_add_r by lia. f_equal. f_equal. lia. }
  assert (H2 : 0 <= shr_m mrs2 <= Zpos mb * 2 ^ (eb - e2)).
  { rewrite Hm2. split; [apply Z.div_pos; lia|].
    apply Z.div_le_upper_bound; lia. }
  destruct (shr_m mrs2) as [|m|m]; [exact I| |lia].
  destruct (Z.leb_spec e2 (1024 - 53)); [|lia].
  simpl. split; [lia|exact (proj2 H2)].
Qed.

(** *** The quotient [p / 100.0] is at most 1.0 *)

Lemma new_location_0 n : new_location n 0 = loc_Exact.
Proof.
  unfold new_location, new_location_even, new_location_odd.
  destruct (Z.even n); reflexivity.
Qed.

Lemma div_core_spec m1 e1 m2 e2 :
  exists q l r,
    let e' := Z.min (fexp 53 1024 (Zpos (digits2_pos m1) + e1 - (Zpos (digits2_pos m2) + e2)))
                    (e1 - e2) in
    SFdiv_core_binary 53 1024 (Zpos m1) e1 (Zpos m2) e2 = (q, e', l)
    /\ Zpos m1 * 2 ^ (e1 - e2 - e') = Zpos m2 * q + r
    /\ 0 <= r < Zpos m2 /\ 0 <= q /\ (r = 0 -> l = loc_Exact).
Proof.
  unfold SFdiv_core_binary. cbn [Zdigits2].
  set (e' := Z.min _ _). set (s := e1 - e2 - e').
  assert (Hs : 0 <= s) by (unfold s, e'; lia).
  set (m' := match s with Z0 => Zpos m1 | Zpos _ => Z.shiftl (Zpos m1) s | Zneg _ => 0 end).
  assert (Hm' : m' = Zpos m1 * 2 ^ s).
  { unfold m'. destruct s as [|p|p] eqn:Es; [simpl; lia| |lia].
    apply Z.shiftl_mul_pow2. lia. }
  pose proof (Z_div_mod m' (Zpos m2) ltac:(lia)) as Hdm.
  destruct (Z.div_eucl m' (Zpos m2)) as [q r]. destruct Hdm as [Hdm Hr].
  exists q, (new_location (Zpos m2) r), r. cbn zeta.
  split; [reflexivity|]. split; [lia|]. split; [exact Hr|]. split.
  - assert (0 <= m') by (rewrite Hm'; apply Z.mul_nonneg_nonneg; [lia|apply Z.pow_nonneg; lia]).
    nia.
  - intros ->. apply new_location_0.
Qed.

Lemma digits2_gt p : Zpos p < 2 ^ Zpos (digits2_pos p).
Proof.
  rewrite digits2_size. pose proof (Pos.size_gt p) as H.
  apply Pos2Z.pos_lt_pos in H. now rewrite Pos2Z.inj_pow in H.
Qed.

Lemma SFleb_finite m1 e1 m2 e2 :
  SFleb (S754_finite false m1 e1) (S754_finite false m2 e2) = true
  <-> e1 < e2 \/ (e1 = e2 /\ Zpos m1 <= Zpos m2).
Proof.
  unfold SFleb, SFcompare.
  change (Pos.compare_cont Eq m1 m2) with (Pos.compare m1 m2).
  destruct (Z.compare_spec e1 e2); [destruct (Pos.compare_spec m1 m2)|..];
    split; intros; try discriminate; try reflexivity; try lia.
Qed.

Lemma div_100_below p :
  valid_binary 53 1024 p = true ->
  SFleb (S754_zero false) p = true ->
  SFleb p (PyFloat.of_int 100) = true ->
  PyFloat.below (SFdiv 53 1024 p (PyFloat.of_int 100)) 4503599627370496 (-52).
Proof.
  assert (E100 : PyFloat.of_int 100 = S754_finite false 7036874417766400 (-46))
    by (vm_compute; reflexivity).
  rewrite E100. intros Hv H0 H100.
  destruct p as [s|s| |s mp ep]; try discriminate.
  - exact I.
  - destruct s; discriminate.
  - destruct s; [discriminate|]. clear H0.
    cbn [valid_binary] in Hv. unfold bounded, canonical_mantissa in Hv.
    apply andb_true_iff in Hv as [Hcan _]. apply Z.eqb_eq in Hcan.
    unfold fexp, emin in Hcan.
    pose proof (digits2_gt mp) as Hsize.
    set (d1 := Zpos (digits2_pos mp)) in *.
    assert (Hd1 : 0 < d1) by (unfold d1; lia).
    assert (Hlex : ep < -46 \/ (ep = -46 /\ Zpos mp <= 7036874417766400)).
    { now apply SFleb_finite in H100. }
    assert (Hmp : Zpos mp < 2 ^ 53).
    { eapply Z.lt_le_trans; [exact Hsize|]. apply Z.pow_le_mono_r; lia. }
    assert (Hval : Zpos mp <= 7036874417766400 * 2 ^ (-46 - ep)).
    { destruct Hlex as [Hlt|[-> Hle]]; [|simpl; lia].
      assert (2 ^ 1 <= 2 ^ (-46 - ep)) by (apply Z.pow_le_mono_r; lia).
      change (2 ^ 53) with 9007199254740992 in Hmp. change (2 ^ 1) with 2 in *. lia. }
    unfold SFdiv. change (xorb false false) with false.
    destruct (div_core_spec mp ep 7036874417766400 (-46))
      as (q & l & r & Hcore & Hqr & Hr & Hq & Hl).
    cbn zeta in Hcore, Hqr. change (Zpos (digits2_pos 7036874417766400)) with 53 in *.
    fold d1 in Hcore, Hqr.
    set (e' := Z.min (fexp 53 1024 (d1 + ep - (53 + -46))) (ep - -46)) in *.
    rewrite Hcore.
    assert (He' : e' <= -53) by (unfold e', fexp, emin; lia).
    assert (Hpow : 2 ^ (-46 - ep) * 2 ^ (ep - -46 - e') = 2 ^ (- e')).
    { rewrite <- Z.pow_add_r by (unfold e'; lia). f_equal. lia. }
    assert (Hone : 4503599627370496 * 2 ^ (-52 - e') = 2 ^ (- e')).
    { change 4503599627370496 with (2 ^ 52).
      rewrite <- Z.pow_add_r by lia. f_equal. lia. }
    assert (Hps : 0 < 2 ^ (ep - -46 - e')) by (apply Z.pow_pos_nonneg; unfold e'; lia).
    assert (Hbound : 7036874417766400 * q + r <= 7036874417766400 * 2 ^ (- e')).
    { rewrite <- Hqr, <- Hpow. nia. }
    apply round_aux_below; try assumption.
    + reflexivity.
    + lia.
    + rewrite Hone. nia.
    + rewrite Hone. intros Eq. apply Hl. nia.
Qed.

(** *** The product with [len - 1] rounds to an index in range *)

Lemma round_half_even_below a d N :
  0 < d -> 0 <= a <= N * d -> 0 <= PyFloat.round_half_even a d <= N.
Proof.
  intros Hd [Ha HN]. unfold PyFloat.round_half_even.
  pose proof (Z.div_mod a d ltac:(lia)) as Hdm.
  pose proof (Z.mod_pos_bound a d Hd) as Hr.
  assert (Hq : 0 <= a / d) by (apply Z.div_pos; lia).
  assert (HqN : a / d <= N) by (apply Z.div_le_upper_bound; lia).
  destruct (Z.eq_dec (a / d) N) as [E|NE].
  - assert (Hr0 : a mod d = 0) by nia. rewrite Hr0.
    destruct (Z.compare_spec (2 * 0) d); try lia.
  - destruct (Z.compare_spec (2 * (a mod d)) d); try destruct (Z.even (a / d)); lia.
Qed.

Lemma bounded_53 M k :
  digits2_pos M = 53%positive -> 0 <= k <= 52 -> bounded 53 1024 M (- k) = true.
Proof.
  intros HM Hk. unfold bounded, canonical_mantissa, fexp, emin. rewrite HM.
  apply andb_true_iff. split; [apply Z.eqb_eq|apply Z.leb_le]; lia.
Qed.

Lemma mul_round_below c N :
  PyFloat.below c 4503599627370496 (-52) -> 0 <= N < 2 ^ 53 ->
  exists k, PyFloat.round (PyFloat.mul c (PyFloat.of_int N)) = Ok k /\ 0 <= k <= N.
Proof.
  intros Hc HN. destruct N as [|pp|pp]; [| |lia].
  - change (PyFloat.of_int 0) with (S754_zero false).
    exists 0. split; [|lia].
    destruct c as [s|s| |s m e]; try contradiction; reflexivity.
  - destruct (of_int_canonical pp) as (M & k & -> & HdM & Hk & HM); [lia|].
    destruct c as [s|s| |s mc ec]; try contradiction.
    + exists 0. split; [reflexivity|lia].
    + destruct s; [contradiction|]. destruct Hc as [Hec Hmc].
      unfold PyFloat.mul, SFmul, PyFloat.prec, PyFloat.emax.
      change (xorb false false) with false.
      assert (Hone : 4503599627370496 * 2 ^ (-52 - ec) = 2 ^ (- ec)).
      { change 4503599627370496 with (2 ^ 52).
        rewrite <- Z.pow_add_r by lia. f_equal. lia. }
      assert (Hb : PyFloat.below (binary_round_aux 53 1024 false (Zpos (mc * M)) (ec + - k) loc_Exact)
                         M (- k)).
      { apply round_aux_below.
        - lia.
        - now apply bounded_53.
        - lia.
        - replace (- k - (ec + - k)) with (- ec) by lia.
          rewrite Pos2Z.inj_mul. rewrite Hone in Hmc. nia.
        - reflexivity. }
      destruct (binary_round_aux 53 1024 false (Zpos (mc * M)) (ec + - k) loc_Exact)
        as [s|s| |s mr er]; try contradiction.
      * exists 0. split; [reflexivity|lia].
      * destruct s; [contradiction|]. destruct Hb as [Her Hmr].
        unfold PyFloat.round.
        destruct er as [|j|j]; [|lia|].
        -- assert (k = 0) by lia. subst k.
           exists (Zpos mr * 2 ^ 0). split; [reflexivity|].
           change (- 0 - 0) with 0 in Hmr. change (2 ^ 0) with 1 in *. lia.
        -- exists (PyFloat.round_half_even (Zpos mr) (Zpos (2 ^ j))).
           split; [reflexivity|].
           apply round_half_even_below; [lia|]. split; [lia|].
           rewrite Pos2Z.inj_pow.
           replace (- k - Zneg j) with (Zpos j - k) in Hmr by lia.
           assert (Hsplit : 2 ^ Zpos j = 2 ^ k * 2 ^ (Zpos j - k)).
           { rewrite <- Z.pow_add_r by lia. f_equal. lia. }
           rewrite Hsplit, Z.mul_assoc, <- HM. exact Hmr.
Qed.

(** The index of a percentile between 0 and 100 is in range. *)
Lemma rank_in_range_binary64 (p : PyFloat.float) n :
  valid_binary 53 1024 p = true ->
  f_leb (f_of_int 0) p = true -> f_leb p (f_of_int 100) = true ->
  (0 < n)%nat -> Z.of_nat n - 1 < 2 ^ 53 ->
  exists k, rank p n = Ok k /\ 0 <= k < Z.of_nat n.
Proof.
  intros Hv H0 H100 Hn Hbig.
  pose proof (div_100_below p Hv H0 H100) as Hc.
  destruct (mul_round_below _ (Z.of_nat n - 1) Hc ltac:(lia)) as (k & Hk & Hr).
  exists k. split; [exact Hk|lia].
Qed.

End Binary64.

(** C3, for samples without NaN: [pct] returns the element of the
    ascending sort of the samples at the index
    [round(p/100 * (len(samples)-1))], which is in range for
    every float [p] from 0 to 100; [pct(samples, 0) == min(samples)]
    and [pct(samples, 100) == max(samples)].  The list is not empty
    and has at most [2^53] elements. *)
Theorem pct_nearest_rank (samples : list PyFloat.float) (p : PyFloat.float) :
  samples <> [] ->
  Forall (fun x => x <> S754_nan) samples ->
  (Z.of_nat (length samples) <= 2 ^ 53)%Z ->
  PyFloat.valid p = true ->
  PyFloat.leb (PyFloat.of_int 0) p = true ->
  PyFloat.leb p (PyFloat.of_int 100) = true ->
  Permutation (Latency.sorted samples) samples
  /\ StronglySorted (fun a b => PyFloat.leb a b = true) (Latency.sorted samples)
  /\ (exists k v,
        Latency.rank p (length samples) = Ok k
        /\ (0 <= k < Z.of_nat (length samples))%Z
        /\ Latency.sorted samples !! Z.to_nat k = Some v
        /\ Latency.pct samples p = Ok v)
  /\ (exists v m,
        Latency.pct samples (PyFloat.of_int 0) = Ok v
        /\ Latency.py_min samples = Ok m /\ PyFloat.eqb v m = true)
  /\ (exists v m,
        Latency.pct samples (PyFloat.of_int 100) = Ok v
        /\ Latency.py_max samples = Ok m /\ PyFloat.eqb v m = true).
Proof.
  intros Hne Hnan Hbig Hv H0 H100.
  assert (Hord : Forall Latency.ordered samples).
  { eapply Forall_impl; [exact Hnan|]. intros x. apply Binary64.ordered_not_nan. }
  assert (Hn : (0 < length samples)%nat)
    by (destruct samples; [contradiction|simpl; lia]).
  pose proof Binary64.binary64_order as Hlaws.
  split; [apply LatencyFacts.sorted_perm|].
  split; [exact (LatencyFacts.sorted_ascending samples Hord)|].
  split.
  - destruct (Binary64.rank_in_range_binary64 p (length samples) Hv H0 H100 Hn)
      as (k & Hr & Hk); [lia|].
    destruct (LatencyFacts.pct_at samples p k Hr Hk) as (v & Hlook & Hp).
    now exists k, v.
  - destruct (LatencyFacts.pct_extremes samples Hne Hord) as [Hmin Hmax].
    + apply Binary64.rank_0_binary64; [assumption|lia].
    + apply Binary64.rank_100_binary64; [assumption|lia].
    + split.
      * destruct Hmin as (v & m & Ev & Em & He). exists v, m.
        repeat split; try assumption. now apply Binary64.eqb_eqv.
      * destruct Hmax as (v & m & Ev & Em & He). exists v, m.
        repeat split; try assumption. now apply Binary64.eqb_eqv.
Qed.

Lemma pct_nearest_rank_sample :
  let samples := [PyFloat.of_int 30; PyFloat.of_int 10; PyFloat.of_int 20] in
  exists k v,
    Latency.rank (PyFloat.of_int 95) (length samples) = Ok k
    /\ (0 <= k < Z.of_nat (length samples))%Z
    /\ Latency.sorted samples !! Z.to_nat k = Some v
    /\ Latency.pct samples (PyFloat.of_int 95) = Ok v.
Proof.
  apply (pct_nearest_rank [PyFloat.of_int 30; PyFloat.of_int 10; PyFloat.of_int 20]
           (PyFloat.of_int 95)).
  - discriminate.
  - repeat constructor; discriminate.
  - simpl. lia.
  - vm_compute. reflexivity.
  - vm_compute. reflexivity.
  - vm_compute. reflexivity.
Defined.

(** C3, as stated, fails on a list with a NaN: the sort by [<] leaves
    [[1.0, nan]] as it is, so [pct(samples, 100)] is the NaN while
    [max(samples)] is 1.0. *)
Lemma pct_nan_is_not_max :
  let samples := [PyFloat.of_int 1; S754_nan] in
  Latency.pct samples (PyFloat.of_int 100) = Ok S754_nan
  /\ Latency.py_max samples = Ok (PyFloat.of_int 1)
  /\ PyFloat.eqb S754_nan (PyFloat.of_int 1) = false
  /\ ~ Latency.f_eqv S754_nan (PyFloat.of_int 1).
Proof.
  repeat split; try (vm_compute; reflexivity).
  intros [H _]. vm_compute in H. discriminate.
Qed.

(** ** Batches *)

Lemma gather_return_exceptions_id {A} (tasks : list (result A)) :
  gather_return_exceptions tasks = tasks.
Proof.
  induction tasks as [|[a|e] tasks IH]; simpl; congruence.
Qed.

Lemma gather_length {A} (tasks : list (result A)) : forall values,
  gather tasks = Ok values -> length values = length tasks.
Proof.
  induction tasks as [|task tasks IH]; intros values H; simpl in H.
  - injection H as <-. reflexivity.
  - apply bind_Ok in H as (a & _ & H).
    apply bind_Ok in H as (vs & Hvs & H).
    injection H as <-. simpl. f_equal. now apply IH.
Qed.

Lemma gather_returns {A} (tasks : list (result A)) :
  Forall (fun task => returns task = true) tasks ->
  returns (gather tasks) = true.
Proof.
  induction 1 as [|task tasks Ht _ IH]; [reflexivity|].
  simpl. destruct task as [a|e]; [|discriminate]. simpl.
  destruct (gather tasks); [reflexivity|discriminate].
Qed.

Lemma gather_lookup {A} (tasks : list (result A)) : forall values i a,
  gather tasks = Ok values -> values !! i = Some a -> tasks !! i = Some (Ok a).
Proof.
  induction tasks as [|task tasks IH]; intros values i a H Hi; simpl in H.
  - injection H as <-. now rewrite lookup_nil in Hi.
  - apply bind_Ok in H as (a0 & -> & H).
    apply bind_Ok in H as (vs & Hvs & H).
    injection H as <-. destruct i as [|i]; simpl in *.
    + congruence.
    + now apply (IH vs).
Qed.

(** A registration task fails only when it is cancelled. *)
Lemma register_user_returns resp :
  (forall r, resp = Ok r -> json r <> Raise CancelledError) ->
  resp <> Raise CancelledError ->
  returns (Harness.register_user resp) = true
  /\ returns (Extreme.register_user resp) = true.
Proof.
  intros Hj Hr. unfold Harness.register_user, Extreme.register_user.
  destruct resp as [r|e]; simpl.
  - specialize (Hj r eq_refl).
    destruct (json r) as [j|e]; simpl; [auto|].
    destruct e; simpl; auto; contradiction.
  - destruct e; simpl; auto; contradiction.
Qed.

Lemma count_bounds {A} (f : A -> bool) (l : list A) :
  (0 <= count f l <= Z.of_nat (length l))%Z.
Proof.
  unfold count. pose proof (length_filter (fun x => f x = true) l). lia.
Qed.

Lemma count_all {A} (f : A -> bool) (l : list A) :
  count f l = Z.of_nat (length l) <-> Forall (fun x => f x = true) l.
Proof.
  unfold count. rewrite Nat2Z.inj_iff. split.
  - induction l as [|x l IH]; [constructor|].
    rewrite filter_cons. pose proof (length_filter (fun x => f x = true) l) as Hle.
    destruct (decide (f x = true)); simpl; intros Hlen.
    + constructor; [assumption|]. apply IH. lia.
    + lia.
  - induction 1 as [|x l Hx _ IH]; [reflexivity|].
    rewrite filter_cons. destruct (decide (f x = true)); [|contradiction].
    simpl. now rewrite IH.
Qed.

(** C2: a batch returns one outcome per task.  The JWKS batch keeps
    the exception of a failed fetch as its entry; a registration task
    turns every [Exception] into a status-0 outcome, so its batch
    returns whenever it is not cancelled, with one pair per task. *)
Theorem batch_outcomes_match_specs :
  (forall A (tasks : list (result A)),
     length (gather_return_exceptions tasks) = length tasks)
  /\ (forall A (tasks : list (result A)) values,
        gather tasks = Ok values -> length values = length tasks)
  /\ (forall w concurrency,
        length (gather_return_exceptions (Harness.jwks_tasks w concurrency))
        = Z.to_nat concurrency)
  /\ (forall w beyond_limit values,
        gather (Harness.register_tasks w beyond_limit) = Ok values ->
        length values = Z.to_nat beyond_limit)
  /\ (forall net values,
        Extreme.fan_out net = Ok values -> length values = Extreme.CONCURRENCY)
  /\ (forall w beyond_limit,
        (forall i, Harness.register_resp w i <> Raise CancelledError) ->
        (forall i r, Harness.register_resp w i = Ok r -> json r <> Raise CancelledError) ->
        returns (gather (Harness.register_tasks w beyond_limit)) = true)
  /\ (forall net,
        (forall i, net i <> Raise CancelledError) ->
        (forall i r, net i = Ok r -> json r <> Raise CancelledError) ->
        returns (Extreme.fan_out net) = true).
Proof.
  split; [|split; [|split; [|split; [|split; [|split]]]]].
  - intros A tasks. now rewrite gather_return_exceptions_id.
  - intros A tasks values. apply gather_length.
  - intros w c. rewrite gather_return_exceptions_id.
    unfold Harness.jwks_tasks. now rewrite length_map, length_seq.
  - intros w n values H. apply gather_length in H. rewrite H.
    unfold Harness.register_tasks. now rewrite length_map, length_seq.
  - intros net values H. apply gather_length in H. rewrite H.
    unfold Extreme.register_tasks. now rewrite length_map, length_seq.
  - intros w n Hr Hj. apply gather_returns.
    unfold Harness.register_tasks. apply Forall_map, Forall_forall.
    intros i _. simpl.
    apply register_user_returns; [intros r; apply Hj | apply Hr].
  - intros net Hr Hj. apply gather_returns.
    unfold Extreme.register_tasks. apply Forall_map, Forall_forall.
    intros i _. simpl.
    apply register_user_returns; [intros r; apply Hj | apply Hr].
Qed.

Lemma batch_outcomes_sample :
  exists values,
    gather (Harness.register_tasks Samples.passing 60) = Ok values
    /\ length values = 60%nat.
Proof.
  destruct (gather (Harness.register_tasks Samples.passing 60)) as [values|e] eqn:E.
  - exists values. split; [reflexivity|].
    exact (proj1 (proj2 (proj2 (proj2 batch_outcomes_match_specs)))
             Samples.passing 60%Z values E).
  - vm_compute in E. discriminate.
Defined.

(** ** The scenarios *)

Module HarnessFacts.
Import Harness.

Ltac bind_inv H :=
  let x := fresh "x" in
  let Hx := fresh "Hx" in
  apply bind_Ok in H as (x & Hx & H).

Lemma jwks_ok_spec r :
  jwks_ok r = true <->
  exists members v, r = Ok (JObj members) /\ PyJson.lookup members "keys" = Some v.
Proof.
  unfold jwks_ok, PyJson.has_key. split.
  - destruct r as [[| | | | | |members]|]; try discriminate.
    intros H. apply bool_decide_eq_true in H as [v Hv]. eauto.
  - intros (members & v & -> & Hv). apply bool_decide_eq_true. eauto.
Qed.

(** What each scenario leaves in [results] when it returns. *)
Lemma jwks_appends w concurrency results results' :
  test_jwks_endpoint_load w concurrency results = Ok results' ->
  exists r, results' = results ++ [r]
    /\ success r = (count jwks_ok (jwks_tasks w concurrency) =? concurrency)%Z.
Proof.
  unfold test_jwks_endpoint_load. cbv zeta. intros H.
  bind_inv H. bind_inv H. bind_inv H. injection H as <-.
  eexists. split; [reflexivity|]. simpl.
  now rewrite gather_return_exceptions_id.
Qed.

Lemma hash_appends py_str w beyond_limit results results' :
  test_hash_concurrency_limit py_str w beyond_limit results = Ok results' ->
  exists r, results' = results ++ [r].
Proof.
  unfold test_hash_concurrency_limit. cbv zeta. intros H.
  bind_inv H. bind_inv H. bind_inv H. injection H as <-. eauto.
Qed.

Lemma replay_appends w results results' :
  test_replay_detection_with_ip w results = Ok results' ->
  results' = results \/ exists r, results' = results ++ [r].
Proof.
  unfold test_replay_detection_with_ip. cbv zeta. intros H.
  bind_inv H. destruct (negb _); [injection H as <-; auto|].
  bind_inv H. bind_inv H. bind_inv H.
  destruct (negb _); [injection H as <-; auto|].
  bind_inv H. bind_inv H. bind_inv H. injection H as <-. eauto.
Qed.

Lemma rate_appends w results results' :
  test_rate_limiting w results = Ok results' ->
  results' = results \/ exists r, results' = results ++ [r].
Proof.
  unfold test_rate_limiting. cbv zeta. intros H.
  bind_inv H. destruct (negb _); [injection H as <-; auto|].
  bind_inv H. injection H as <-. eauto.
Qed.

Lemma metrics_appends w results results' :
  validate_metrics w results = Ok results' ->
  exists r, results' = results ++ [r].
Proof.
  unfold validate_metrics. cbv zeta. intros H.
  bind_inv H. injection H as <-. eauto.
Qed.

(** The replay scenario, once the refresh token is there. *)
Lemma replay_run w results reg login body token first second :
  replay_register w = Ok reg -> status reg = 200%Z ->
  replay_login w = Ok login -> json login = Ok body ->
  PyJson.get body "refresh_token" = Ok token -> PyJson.truthy token = true ->
  replay_first w = Ok first -> replay_second w = Ok second ->
  match log_file w with
  | Ok logs =>
      exists r,
        test_replay_detection_with_ip w results = Ok (results ++ [r])
        /\ success r
           = (status second =? 401)%Z
             && PyStr.contains logs "refresh_replay_detected"
             && (PyStr.contains logs "198.51.100.99"
                 || PyStr.contains logs "client_ip")
  | Raise e => test_replay_detection_with_ip w results = Raise e
  end.
Proof.
  intros Hreg Hst Hlogin Hbody Htok Htruthy Hfirst Hsecond.
  unfold test_replay_detection_with_ip.
  rewrite Hreg. simpl. rewrite Hst. simpl.
  rewrite Hlogin. simpl. rewrite Hbody. simpl. rewrite Htok. simpl.
  rewrite Htruthy. simpl. rewrite Hfirst. simpl. rewrite Hsecond. simpl.
  destruct (log_file w) as [logs|e]; simpl; [|reflexivity].
  eexists. split; reflexivity.
Qed.

Lemma replay_no_registration w results reg :
  replay_register w = Ok reg -> status reg <> 200%Z ->
  test_replay_detection_with_ip w results = Ok results.
Proof.
  intros Hreg Hst. unfold test_replay_detection_with_ip.
  rewrite Hreg. simpl. apply Z.eqb_neq in Hst. now rewrite Hst.
Qed.

Lemma replay_no_token w results reg login body token :
  replay_register w = Ok reg -> status reg = 200%Z ->
  replay_login w = Ok login -> json login = Ok body ->
  PyJson.get body "refresh_token" = Ok token -> PyJson.truthy token = false ->
  test_replay_detection_with_ip w results = Ok results.
Proof.
  intros Hreg Hst Hlogin Hbody Htok Htruthy.
  unfold test_replay_detection_with_ip.
  rewrite Hreg. simpl. rewrite Hst. simpl.
  rewrite Hlogin. simpl. rewrite Hbody. simpl. rewrite Htok. simpl.
  now rewrite Htruthy.
Qed.

Lemma rate_no_registration w results reg :
  rate_register w = Ok reg -> status reg <> 200%Z ->
  test_rate_limiting w results = Ok results.
Proof.
  intros Hreg Hst. unfold test_rate_limiting.
  rewrite Hreg. simpl. apply Z.eqb_neq in Hst. now rewrite Hst.
Qed.

(** A run that reaches the summary has a result to report. *)
Lemma run_scenarios_nonempty py_str w results results' :
  run_scenarios py_str w results = Ok results' -> results' <> [].
Proof.
  unfold run_scenarios. intros H.
  apply bind_Ok in H as (r1 & H1 & H).
  apply bind_Ok in H as (r2 & H2 & H).
  apply bind_Ok in H as (r3 & H3 & H).
  apply bind_Ok in H as (r4 & H4 & H).
  apply metrics_appends in H as (r & ->).
  now destruct r4.
Qed.

Lemma summary_spec results :
  results <> [] ->
  exists b, summary results = Ok b
    /\ (b = true <-> Forall (fun r => success r = true) results).
Proof.
  intros Hne. unfold summary.
  destruct (Z.of_nat (length results) =? 0)%Z eqn:E.
  - apply Z.eqb_eq in E. destruct results; [contradiction|simpl in E; lia].
  - eexists. split; [reflexivity|].
    rewrite Z.eqb_eq. apply count_all.
Qed.

Lemma main_zero py_str w :
  main py_str w = 0%Z <-> run_all_tests py_str w [] = Ok true.
Proof.
  unfold main. destruct (run_all_tests py_str w []) as [[|]|e];
    split; congruence.
Qed.

Lemma app_one_neq {A} (l : list A) (x : A) : l ++ [x] <> l.
Proof.
  intros H. apply (f_equal length) in H. rewrite length_app in H. simpl in H. lia.
Qed.

(** Each scenario only appends: what it does to [results] is what it
    does to the empty list, put after [results]. *)
Lemma jwks_frame w c results :
  test_jwks_endpoint_load w c results
  = (rs ← test_jwks_endpoint_load w c []; Ok (results ++ rs)).
Proof.
  unfold test_jwks_endpoint_load. cbv zeta.
  destruct (PyFmt.float_of_int c); simpl; [|reflexivity].
  destruct (PyFloat.div _ _); simpl; [|reflexivity].
  match goal with |- (?m ≫= _) = _ => destruct m end; reflexivity.
Qed.

Lemma hash_frame py_str w n results :
  test_hash_concurrency_limit py_str w n results
  = (rs ← test_hash_concurrency_limit py_str w n []; Ok (results ++ rs)).
Proof.
  unfold test_hash_concurrency_limit. cbv zeta.
  destruct (Metrics.get_metrics (metrics_before w)); simpl; [|reflexivity].
  destruct (gather _); simpl; [|reflexivity].
  destruct (Metrics.get_metrics (metrics_after w)); reflexivity.
Qed.

Lemma replay_frame w results :
  test_replay_detection_with_ip w results
  = (rs ← test_replay_detection_with_ip w []; Ok (results ++ rs)).
Proof.
  unfold test_replay_detection_with_ip. cbv zeta.
  destruct (replay_register w); simpl; [|reflexivity].
  destruct (negb _); simpl; [now rewrite app_nil_r|].
  destruct (replay_login w) as [login|]; simpl; [|reflexivity].
  destruct (json login) as [body|]; simpl; [|reflexivity].
  destruct (PyJson.get body "refresh_token"); simpl; [|reflexivity].
  destruct (negb _); simpl; [now rewrite app_nil_r|].
  destruct (replay_first w); simpl; [|reflexivity].
  destruct (replay_second w); simpl; [|reflexivity].
  destruct (log_file w); reflexivity.
Qed.

Lemma rate_frame w results :
  test_rate_limiting w results
  = (rs ← test_rate_limiting w []; Ok (results ++ rs)).
Proof.
  unfold test_rate_limiting. cbv zeta.
  generalize (login_statuses w (seq 0 10)). intros statuses.
  destruct (rate_register w); simpl; [|reflexivity].
  destruct (negb _); simpl; [now rewrite app_nil_r|].
  destruct statuses; reflexivity.
Qed.

Lemma metrics_frame w results :
  validate_metrics w results
  = (rs ← validate_metrics w []; Ok (results ++ rs)).
Proof.
  unfold validate_metrics. cbv zeta.
  destruct (Metrics.get_metrics (metrics_final w)); reflexivity.
Qed.


(** The run, scenario by scenario. *)
Lemma run_scenarios_split py_str w results :
  run_scenarios py_str w [] = Ok results <->
  exists jwks hash replay rate metrics,
    test_jwks_endpoint_load w 100 [] = Ok [jwks]
    /\ test_hash_concurrency_limit py_str w 60 [] = Ok [hash]
    /\ test_replay_detection_with_ip w [] = Ok replay
    /\ test_rate_limiting w [] = Ok rate
    /\ validate_metrics w [] = Ok [metrics]
    /\ length replay <= 1 /\ length rate <= 1
    /\ results = jwks :: hash :: replay ++ rate ++ [metrics].
Proof.
  unfold run_scenarios. split.
  - intros H.
    apply bind_Ok in H as (r1 & H1 & H).
    apply bind_Ok in H as (r2 & H2 & H).
    apply bind_Ok in H as (r3 & H3 & H).
    apply bind_Ok in H as (r4 & H4 & H).
    rewrite hash_frame in H2. apply bind_Ok in H2 as (b & H2 & [= <-]).
    rewrite replay_frame in H3. apply bind_Ok in H3 as (c & H3 & [= <-]).
    rewrite rate_frame in H4. apply bind_Ok in H4 as (d & H4 & [= <-]).
    rewrite metrics_frame in H. apply bind_Ok in H as (m & H & [= <-]).
    destruct (jwks_appends _ _ _ _ H1) as (a' & -> & _).
    destruct (hash_appends _ _ _ _ _ H2) as (b' & ->).
    destruct (metrics_appends _ _ _ H) as (m' & ->).
    exists a', b', c, d, m'. simpl in *.
    repeat split; try assumption.
    + destruct (replay_appends _ _ _ H3) as [->|(x & ->)]; simpl; lia.
    + destruct (rate_appends _ _ _ H4) as [->|(x & ->)]; simpl; lia.
    + now rewrite <- !app_assoc.
  - intros (a & b & c & d & m & H1 & H2 & H3 & H4 & H5 & _ & _ & ->).
    rewrite H1. simpl. rewrite hash_frame, H2. simpl.
    rewrite replay_frame, H3. simpl. rewrite rate_frame, H4. simpl.
    rewrite metrics_frame, H5. simpl. now rewrite <- !app_assoc.
Qed.

(** The replay scenario returns early exactly when the registration
    is not answered 200 or the login gives no refresh token. *)
Lemma replay_none_iff w results :
  test_replay_detection_with_ip w results = Ok results <->
  exists reg, replay_register w = Ok reg
    /\ (status reg <> 200%Z
        \/ exists login body token,
             replay_login w = Ok login /\ json login = Ok body
             /\ PyJson.get body "refresh_token" = Ok token
             /\ PyJson.truthy token = false).
Proof.
  split.
  - unfold test_replay_detection_with_ip. cbv zeta. intros H.
    destruct (replay_register w) as [reg|]; [|discriminate]. simpl in H.
    exists reg. split; [reflexivity|].
    destruct (Z.eqb_spec (status reg) 200) as [E|E]; [|now left]. right. simpl in H.
    destruct (replay_login w) as [login|] eqn:Hl; [|discriminate]. simpl in H.
    destruct (json login) as [body|] eqn:Hb; [|discriminate]. simpl in H.
    destruct (PyJson.get body "refresh_token") as [token|] eqn:Hg; [|discriminate].
    simpl in H. destruct (PyJson.truthy token) eqn:Ht; simpl in H.
    + destruct (replay_first w); [|discriminate]. simpl in H.
      destruct (replay_second w); [|discriminate]. simpl in H.
      destruct (log_file w); [|discriminate]. simpl in H.
      injection H as H. now apply app_one_neq in H.
    + exists login, body, token. repeat split; auto.
  - intros (reg & Hreg & [Hst|(login & body & token & Hl & Hb & Hg & Ht)]).
    + eapply replay_no_registration; eauto.
    + destruct (Z.eq_dec (status reg) 200%Z).
      * eapply replay_no_token; eauto.
      * eapply replay_no_registration; eauto.
Qed.

(** It appends its result exactly when every request is answered,
    the registration with 200 and the login with a refresh token, and
    the log file can be read. *)
Lemma replay_one_iff w results :
  (exists r, test_replay_detection_with_ip w results = Ok (results ++ [r])) <->
  exists reg login body token first second logs,
    replay_register w = Ok reg /\ status reg = 200%Z
    /\ replay_login w = Ok login /\ json login = Ok body
    /\ PyJson.get body "refresh_token" = Ok token
    /\ PyJson.truthy token = true
    /\ replay_first w = Ok first /\ replay_second w = Ok second
    /\ log_file w = Ok logs.
Proof.
  split.
  - unfold test_replay_detection_with_ip. cbv zeta. intros [r H].
    destruct (replay_register w) as [reg|]; [|discriminate]. simpl in H.
    destruct (Z.eqb_spec (status reg) 200) as [E|E]; simpl in H;
      [|injection H as H; symmetry in H; now apply app_one_neq in H].
    destruct (replay_login w) as [login|] eqn:Hl; [|discriminate]. simpl in H.
    destruct (json login) as [body|] eqn:Hb; [|discriminate]. simpl in H.
    destruct (PyJson.get body "refresh_token") as [token|] eqn:Hg; [|discriminate].
    simpl in H. destruct (PyJson.truthy token) eqn:Ht; simpl in H;
      [|injection H as H; symmetry in H; now apply app_one_neq in H].
    destruct (replay_first w) as [first|] eqn:Hf; [|discriminate]. simpl in H.
    destruct (replay_second w) as [second|] eqn:Hs; [|discriminate]. simpl in H.
    destruct (log_file w) as [logs|] eqn:Hlog; [|discriminate].
    exists reg, login, body, token, first, second, logs. repeat split; auto.
  - intros (reg & login & body & token & first & second & logs
            & Hreg & Hst & Hl & Hb & Hg & Ht & Hf & Hs & Hlog).
    pose proof (replay_run w results reg login body token first second
                  Hreg Hst Hl Hb Hg Ht Hf Hs) as H.
    rewrite Hlog in H. destruct H as (r & H & _). eauto.
Qed.

(** The ten logins: their statuses, or the exception of the first
    that fails. *)
Lemma login_statuses_spec w attempts :
  match login_statuses w attempts with
  | Ok statuses =>
      Forall2 (fun i s => exists reply, rate_login w i = Ok reply /\ status reply = s)
              attempts statuses
  | Raise e => exists i, i ∈ attempts /\ rate_login w i = Raise e
  end.
Proof.
  induction attempts as [|i rest IH]; simpl; [constructor|].
  destruct (rate_login w i) as [reply|e] eqn:Hi; simpl.
  - destruct (login_statuses w rest) as [statuses|e]; simpl.
    + constructor; eauto.
    + destruct IH as (j & Hj & He). exists j. split; [now right|assumption].
  - exists i. split; [now left|assumption].
Qed.

Lemma login_statuses_returns w attempts :
  returns (login_statuses w attempts) = true <->
  forall i, i ∈ attempts -> returns (rate_login w i) = true.
Proof.
  pose proof (login_statuses_spec w attempts) as H.
  destruct (login_statuses w attempts) as [statuses|e]; simpl; split.
  - intros _ i Hi.
    apply list_elem_of_lookup_1 in Hi as [k Hk].
    destruct (Forall2_lookup_l _ _ _ _ _ H Hk) as (s & _ & reply & -> & _).
    reflexivity.
  - reflexivity.
  - discriminate.
  - destruct H as (i & Hi & He). intros Hall. specialize (Hall i Hi).
    now rewrite He in Hall.
Qed.

Lemma rate_none_iff w results :
  test_rate_limiting w results = Ok results <->
  exists reg, rate_register w = Ok reg /\ status reg <> 200%Z.
Proof.
  split.
  - unfold test_rate_limiting. cbv zeta.
    generalize (login_statuses w (seq 0 10)). intros ls H.
    destruct (rate_register w) as [reg|]; [|discriminate]. simpl in H.
    exists reg. split; [reflexivity|].
    destruct (Z.eqb_spec (status reg) 200) as [E|E]; [|assumption]. simpl in H.
    destruct ls; [|discriminate]. simpl in H.
    injection H as H. now apply app_one_neq in H.
  - intros (reg & Hreg & Hst). eapply rate_no_registration; eauto.
Qed.

Lemma rate_run w results reg :
  rate_register w = Ok reg -> status reg = 200%Z ->
  match login_statuses w (seq 0 10) with
  | Ok statuses =>
      exists r,
        test_rate_limiting w results = Ok (results ++ [r])
        /\ name r = "Rate Limiting"
        /\ success r = (0 <? count (fun s => (s =? 429)%Z) statuses)%Z
  | Raise e => test_rate_limiting w results = Raise e
  end.
Proof.
  intros Hreg Hst. unfold test_rate_limiting. cbv zeta.
  generalize (login_statuses w (seq 0 10)). intros ls.
  rewrite Hreg. simpl. rewrite Hst. simpl.
  destruct ls as [statuses|e]; simpl; [|reflexivity].
  eexists. repeat split.
Qed.

Lemma rate_one_iff w results :
  (exists r, test_rate_limiting w results = Ok (results ++ [r])) <->
  exists reg, rate_register w = Ok reg /\ status reg = 200%Z
    /\ forall i, i < 10 -> returns (rate_login w i) = true.
Proof.
  split.
  - intros [r H].
    destruct (rate_register w) as [reg|e] eqn:Hreg;
      [|unfold test_rate_limiting in H; rewrite Hreg in H; discriminate].
    exists reg. split; [reflexivity|].
    destruct (Z.eq_dec (status reg) 200%Z) as [E|E].
    + split; [assumption|].
      pose proof (rate_run w results reg Hreg E) as Hrun.
      pose proof (login_statuses_returns w (seq 0 10)) as Hret.
      destruct (login_statuses w (seq 0 10)); [|congruence].
      intros i Hi. apply Hret; [reflexivity|]. apply elem_of_seq. lia.
    + rewrite (rate_no_registration w results reg Hreg E) in H.
      injection H as H. symmetry in H. now apply app_one_neq in H.
  - intros (reg & Hreg & Hst & Hall).
    pose proof (rate_run w results reg Hreg Hst) as Hrun.
    pose proof (login_statuses_returns w (seq 0 10)) as Hret.
    destruct (login_statuses w (seq 0 10)).
    + destruct Hrun as (r & H & _). eauto.
    + assert (false = true); [|discriminate].
      apply Hret. intros i Hi. apply Hall. apply elem_of_seq in Hi. lia.
Qed.


(** A failed division is the only way the rate of the JWKS report
    raises. *)
Lemma div_returns c d :
  returns (PyFloat.div c d) = true <-> forall s, d <> S754_zero s.
Proof.
  unfold PyFloat.div. destruct d; simpl; split;
    try discriminate; try reflexivity; intros H; try congruence.
  now destruct (H s).
Qed.

Lemma count_some_fails {A} (f : A -> bool) (l : list A) x :
  x ∈ l -> f x = false -> (count f l < Z.of_nat (length l))%Z.
Proof.
  intros Hin Hx. pose proof (count_bounds f l) as Hb.
  destruct (Z.eq_dec (count f l) (Z.of_nat (length l))) as [E|E]; [|lia].
  apply count_all in E. rewrite Forall_forall in E.
  specialize (E x Hin). congruence.
Qed.

(** A failed fetch does not make the JWKS scenario raise: the batch
    keeps the exception as its entry, and the scenario reports a
    failure, provided the elapsed time is not zero and the sample
    taken from the first response can be printed. *)
Lemma jwks_failed_fetch w c i results :
  returns (PyFmt.float_of_int c) = true ->
  (forall s, jwks_time w <> S754_zero s) ->
  (forall members,
     fetch_jwks (jwks_resp w 0) = Ok (JObj members) ->
     returns (print_sample members) = true) ->
  i < Z.to_nat c -> returns (fetch_jwks (jwks_resp w i)) = false ->
  exists r, test_jwks_endpoint_load w c results = Ok (results ++ [r])
            /\ success r = false.
Proof.
  intros Hc Hz Hprint Hi Hfail. apply returns_true in Hc as [cf Hc].
  apply (div_returns cf) in Hz. apply returns_true in Hz as [rate Hrate].
  unfold test_jwks_endpoint_load. cbv zeta. rewrite Hc. simpl.
  rewrite Hrate. simpl. rewrite gather_return_exceptions_id.
  assert (Hlen : length (jwks_tasks w c) = Z.to_nat c)
    by (unfold jwks_tasks; now rewrite length_map, length_seq).
  assert (Hin : fetch_jwks (jwks_resp w i) ∈ jwks_tasks w c).
  { unfold jwks_tasks. apply list_elem_of_In, in_map_iff.
    exists i. split; [reflexivity|]. apply in_seq. lia. }
  assert (Hcount : (count jwks_ok (jwks_tasks w c) =? c)%Z = false).
  { apply Z.eqb_neq.
    assert (Hno : jwks_ok (fetch_jwks (jwks_resp w i)) = false)
      by (destruct (fetch_jwks (jwks_resp w i)); [discriminate|reflexivity]).
    pose proof (count_some_fails jwks_ok _ _ Hin Hno) as Hlt.
    rewrite Hlen in Hlt. lia. }
  assert (Hhead : forall t rest, jwks_tasks w c = t :: rest ->
                                 t = fetch_jwks (jwks_resp w 0)).
  { unfold jwks_tasks. destruct (Z.to_nat c) as [|k]; [lia|].
    simpl. now intros t rest [= <- _]. }
  destruct (jwks_tasks w c) as [|[j|e] rest] eqn:Et; simpl.
  - eexists. split; [reflexivity|exact Hcount].
  - specialize (Hhead _ _ eq_refl).
    destruct j as [| | | | | |[|m ms]]; simpl;
      try (eexists; split; [reflexivity|exact Hcount]).
    symmetry in Hhead. apply Hprint, returns_true in Hhead as [[] Hp].
    rewrite Hp. simpl. eexists. split; [reflexivity|exact Hcount].
  - eexists. split; [reflexivity|exact Hcount].
Qed.

Lemma gather_returns_iff {A} (tasks : list (result A)) :
  returns (gather tasks) = true <-> Forall (fun task => returns task = true) tasks.
Proof.
  split; [|apply gather_returns].
  induction tasks as [|task tasks IH]; [constructor|]. simpl.
  destruct task as [a|e]; [|discriminate]. simpl.
  destruct (gather tasks); [|discriminate]. intros _.
  constructor; [reflexivity|]. now apply IH.
Qed.

Lemma register_user_returns_iff resp :
  returns (register_user resp) = true <->
  resp <> Raise CancelledError
  /\ forall r, resp = Ok r -> json r <> Raise CancelledError.
Proof.
  split.
  - unfold register_user. destruct resp as [r|e]; simpl.
    + destruct (json r) as [j|e] eqn:Hj; simpl.
      * intros _. split; [discriminate|]. intros r' [= <-]. now rewrite Hj.
      * destruct e; simpl; try discriminate;
          (intros _; split; [discriminate|]; intros r' [= <-]; now rewrite Hj).
    + destruct e; simpl; try discriminate;
        (intros _; split; [discriminate|]; discriminate).
  - intros [Hr Hj]. now apply register_user_returns.
Qed.

(** The hash scenario reports exactly when its two metrics fetches
    parse and no registration is cancelled: [register_user] turns
    every other failure of a registration into an outcome. *)
Lemma hash_returns_iff py_str w n results :
  returns (test_hash_concurrency_limit py_str w n results) = true <->
  returns (Metrics.get_metrics (metrics_before w)) = true
  /\ returns (Metrics.get_metrics (metrics_after w)) = true
  /\ forall i, i < Z.to_nat n ->
       register_resp w i <> Raise CancelledError
       /\ forall r, register_resp w i = Ok r -> json r <> Raise CancelledError.
Proof.
  unfold test_hash_concurrency_limit. cbv zeta.
  pose proof (gather_returns_iff (register_tasks w n)) as Hg.
  unfold register_tasks in Hg. rewrite Forall_map, Forall_forall in Hg.
  assert (Hg' : returns (gather (register_tasks w n)) = true <->
                forall i, i < Z.to_nat n ->
                  register_resp w i <> Raise CancelledError
                  /\ forall r, register_resp w i = Ok r -> json r <> Raise CancelledError).
  { unfold register_tasks. rewrite Hg. split.
    - intros H i Hi. apply register_user_returns_iff, H.
      apply list_elem_of_In, in_seq. lia.
    - intros H i Hi. apply register_user_returns_iff, H.
      apply list_elem_of_In, in_seq in Hi. lia. }
  destruct (Metrics.get_metrics (metrics_before w)); simpl;
    [|split; [discriminate|now intros [? _]]].
  destruct (gather (register_tasks w n)); simpl.
  - destruct (Metrics.get_metrics (metrics_after w)); simpl.
    + split; [|reflexivity]. intros _. repeat split; now apply Hg'.
    + split; [discriminate|now intros (_ & ? & _)].
  - split; [discriminate|]. intros (_ & _ & H). now apply Hg' in H.
Qed.

Lemma hash_metrics_raise py_str w n results e :
  Metrics.get_metrics (metrics_before w) = Raise e ->
  test_hash_concurrency_limit py_str w n results = Raise e.
Proof. intros H. unfold test_hash_concurrency_limit. now rewrite H. Qed.

(** A run in which some scenario raises does not reach the summary. *)
Lemma run_needs_every_scenario py_str w :
  returns (run_all_tests py_str w []) = true ->
  returns (test_jwks_endpoint_load w 100 []) = true
  /\ returns (test_hash_concurrency_limit py_str w 60 []) = true
  /\ returns (test_replay_detection_with_ip w []) = true
  /\ returns (test_rate_limiting w []) = true
  /\ returns (validate_metrics w []) = true.
Proof.
  intros H. apply returns_true in H as [b H]. unfold run_all_tests in H.
  apply bind_Ok in H as (results & H & _).
  apply run_scenarios_split in H
    as (a & b' & c & d & m & -> & -> & -> & -> & -> & _).
  repeat split.
Qed.

(** What [gather] returns are the values of the tasks. *)
Lemma gather_Ok {A} (tasks : list (result A)) : forall values,
  gather tasks = Ok values -> tasks = map Ok values.
Proof.
  induction tasks as [|task tasks IH]; intros values H; simpl in H.
  - now injection H as <-.
  - apply bind_Ok in H as (a & -> & H).
    apply bind_Ok in H as (vs & Hvs & H).
    injection H as <-. simpl. f_equal. now apply IH.
Qed.

(** The outcome of a registration, read off the answer: the status
    counts only when the body was read as JSON. *)
Lemma register_user_busy py_str resp st body :
  register_user resp = Ok (st, body) ->
  ((st =? 503)%Z || PyStr.contains (py_str body) "hash_busy" = true <->
   match resp with
   | Ok reply =>
       match json reply with
       | Ok b => status reply = 503%Z \/ PyStr.contains (py_str b) "hash_busy" = true
       | Raise e =>
           PyStr.contains (py_str (JObj [("error", JStr (exn_str e))])) "hash_busy" = true
       end
   | Raise e =>
       PyStr.contains (py_str (JObj [("error", JStr (exn_str e))])) "hash_busy" = true
   end).
Proof.
  unfold register_user. destruct resp as [reply|e]; simpl.
  - destruct (json reply) as [b|e]; simpl.
    + intros [= <- <-]. rewrite orb_true_iff, Z.eqb_eq. reflexivity.
    + destruct (is_Exception e); [|discriminate]. intros [= <- <-]. reflexivity.
  - destruct (is_Exception e); [|discriminate]. intros [= <- <-]. reflexivity.
Qed.

End HarnessFacts.

(** C1, as stated, fails: a scenario that returns early leaves no
    [TestResult] and is not counted.  With the registration of the
    replay scenario answered 500 that scenario reports nothing, the
    other four pass, and the exit status is 0. *)
Lemma exit_zero_with_a_scenario_unreported :
  let w := Samples.world Samples.jwks_doc 500 Samples.tokens 401
             (Ok Samples.replay_log)
             (Samples.reply 200 Samples.final_exposition (Raise (ContentError ""))) in
  Harness.test_replay_detection_with_ip w [] = Ok []
  /\ Harness.main Samples.no_str w = 0%Z
  /\ exists results,
       Harness.run_scenarios Samples.no_str w [] = Ok results
       /\ map Harness.name results
          = ["JWKS Load Test"; "Hash Concurrency Limiting"; "Rate Limiting";
             "Metrics Validation"]
       /\ map Harness.success results = [true; true; true; true].
Proof.
  split; [reflexivity|]. split; [vm_compute; reflexivity|].
  eexists. split; [vm_compute; reflexivity|]. split; reflexivity.
Qed.

(** C1, as the code behaves: the exit status is 0 exactly when the
    five scenarios return and every [TestResult] they appended has
    [success] true; in every other case it is 1.  The JWKS, hash and
    metrics scenarios append one result each, the replay and
    rate-limit scenarios one or none: a scenario that appended none
    is not counted. *)
Theorem exit_status_all_or_nothing py_str w :
  (Harness.main py_str w = 0%Z <->
   exists results,
     Harness.run_scenarios py_str w [] = Ok results
     /\ Forall (fun r => Harness.success r = true) results)
  /\ (Harness.main py_str w = 0%Z <->
      exists jwks hash replay rate metrics,
        Harness.test_jwks_endpoint_load w 100 [] = Ok [jwks]
        /\ Harness.test_hash_concurrency_limit py_str w 60 [] = Ok [hash]
        /\ Harness.test_replay_detection_with_ip w [] = Ok replay
        /\ Harness.test_rate_limiting w [] = Ok rate
        /\ Harness.validate_metrics w [] = Ok [metrics]
        /\ length replay <= 1 /\ length rate <= 1
        /\ Forall (fun r => Harness.success r = true)
                  (jwks :: hash :: replay ++ rate ++ [metrics]))
  /\ (Harness.main py_str w = 0%Z \/ Harness.main py_str w = 1%Z)
  /\ (forall results,
        Harness.run_scenarios py_str w [] = Ok results ->
        Harness.run_all_tests py_str w []
        = Ok (bool_decide (count Harness.success results
                           = Z.of_nat (length results)))).
Proof.
  assert (Hmain : Harness.main py_str w = 0%Z <->
                  exists results,
                    Harness.run_scenarios py_str w [] = Ok results
                    /\ Forall (fun r => Harness.success r = true) results).
  { rewrite HarnessFacts.main_zero. unfold Harness.run_all_tests. split.
    - intros H. apply bind_Ok in H as (results & Hr & Hs).
      exists results. split; [assumption|].
      destruct (HarnessFacts.summary_spec results) as (b & Hb & Hall).
      { eapply HarnessFacts.run_scenarios_nonempty, Hr. }
      apply Hall. congruence.
    - intros (results & Hr & Hall). rewrite Hr. simpl.
      destruct (HarnessFacts.summary_spec results) as (b & -> & Hb).
      { eapply HarnessFacts.run_scenarios_nonempty, Hr. }
      f_equal. now apply Hb. }
  split; [exact Hmain|]. split; [|split].
  - rewrite Hmain. split.
    + intros (results & Hr & Hall).
      apply HarnessFacts.run_scenarios_split in Hr
        as (a & b & c & d & m & H1 & H2 & H3 & H4 & H5 & Hc & Hd & ->).
      exists a, b, c, d, m. auto 10.
    + intros (a & b & c & d & m & H1 & H2 & H3 & H4 & H5 & Hc & Hd & Hall).
      eexists. split; [|exact Hall].
      apply HarnessFacts.run_scenarios_split. exists a, b, c, d, m. auto 10.
  - unfold Harness.main.
    destruct (Harness.run_all_tests py_str w []) as [[|]|e]; auto.
  - intros results Hr. unfold Harness.run_all_tests. rewrite Hr. simpl.
    unfold Harness.summary.
    destruct (Z.of_nat (length results) =? 0)%Z eqn:E.
    + apply Z.eqb_eq in E.
      apply HarnessFacts.run_scenarios_nonempty in Hr.
      destruct results; [contradiction|simpl in E; lia].
    + f_equal. destruct (Z.eqb_spec (count Harness.success results)
                           (Z.of_nat (length results))) as [Heq|Hne].
      * now rewrite bool_decide_eq_true_2.
      * now rewrite bool_decide_eq_false_2.
Qed.

Lemma exit_status_sample :
  Harness.main Samples.no_str Samples.passing = 0%Z <->
  exists results,
    Harness.run_scenarios Samples.no_str Samples.passing [] = Ok results
    /\ Forall (fun r => Harness.success r = true) results.
Proof. exact (proj1 (exit_status_all_or_nothing Samples.no_str Samples.passing)). Defined.

(** C6, as stated, fails: a batch in which every response is
    [{"keys": []}] passes. *)
Lemma jwks_empty_key_list_passes :
  let w := Samples.world Samples.empty_keys 200 Samples.tokens 401
             (Ok Samples.replay_log) (Raise (ClientError "")) in
  (forall i, Harness.fetch_jwks (Harness.jwks_resp w i) = Ok (JObj [("keys", JArr [])]))
  /\ exists r, Harness.test_jwks_endpoint_load w 100 [] = Ok [r]
               /\ Harness.success r = true.
Proof.
  split; [reflexivity|].
  eexists. split; [vm_compute; reflexivity|reflexivity].
Qed.

(** C6, as the code behaves: the JWKS scenario, when it returns,
    appends one [TestResult], whose [success] is true exactly when
    every one of the [concurrency] responses parses as a JSON object
    with a ["keys"] member, whatever that member holds. *)
Theorem jwks_success_iff_keys_present w concurrency results results' :
  Harness.test_jwks_endpoint_load w concurrency results = Ok results' ->
  exists r, results' = results ++ [r]
    /\ (Harness.success r = true <->
        (0 <= concurrency)%Z
        /\ forall i, (i < Z.to_nat concurrency)%nat ->
             exists members v,
               Harness.fetch_jwks (Harness.jwks_resp w i) = Ok (JObj members)
               /\ PyJson.lookup members "keys" = Some v).
Proof.
  intros H. apply HarnessFacts.jwks_appends in H as (r & -> & Hs).
  exists r. split; [reflexivity|]. rewrite Hs, Z.eqb_eq.
  pose proof (count_bounds Harness.jwks_ok (Harness.jwks_tasks w concurrency)) as Hb.
  assert (Hlen : length (Harness.jwks_tasks w concurrency) = Z.to_nat concurrency).
  { unfold Harness.jwks_tasks. now rewrite length_map, length_seq. }
  assert (Hall : Forall (fun x => Harness.jwks_ok x = true)
                   (Harness.jwks_tasks w concurrency) <->
                 forall i, (i < Z.to_nat concurrency)%nat ->
                   Harness.jwks_ok (Harness.fetch_jwks (Harness.jwks_resp w i)) = true).
  { unfold Harness.jwks_tasks. rewrite Forall_map, Forall_forall.
    split; intros Hi i.
    - intros Hlt. apply Hi. apply elem_of_seq. lia.
    - intros Hin. apply elem_of_seq in Hin. apply Hi. lia. }
  split.
  - intros Hc. split; [lia|].
    intros i Hi. apply HarnessFacts.jwks_ok_spec.
    apply Hall; [|exact Hi]. apply count_all. lia.
  - intros [Hc Hi].
    replace concurrency with (Z.of_nat (length (Harness.jwks_tasks w concurrency)))
      at 2 by lia.
    apply count_all, Hall. intros i Hlt.
    apply HarnessFacts.jwks_ok_spec. auto.
Qed.

Lemma jwks_success_sample :
  exists r,
    Harness.test_jwks_endpoint_load Samples.passing 100 [] = Ok [r]
    /\ (Harness.success r = true <->
        (0 <= 100)%Z
        /\ forall i, (i < Z.to_nat 100)%nat ->
             exists members v,
               Harness.fetch_jwks (Harness.jwks_resp Samples.passing i) = Ok (JObj members)
               /\ PyJson.lookup members "keys" = Some v).
Proof.
  destruct (Harness.test_jwks_endpoint_load Samples.passing 100 []) as [rs|e] eqn:E.
  - destruct (jwks_success_iff_keys_present Samples.passing 100 [] rs E)
      as (r & -> & Hr).
    exists r. split; [reflexivity|exact Hr].
  - vm_compute in E. discriminate.
Defined.

(** C5, as stated, fails: with the first refresh answered 200 and the
    second 401, the verdict is false when the log lacks the replay
    event, and there is no [TestResult] at all when the log file
    cannot be opened: the exception leaves the scenario. *)
Lemma replay_verdict_needs_log :
  let final := Samples.reply 200 Samples.final_exposition (Raise (ContentError "")) in
  let quiet := Samples.world Samples.jwks_doc 200 Samples.tokens 401 (Ok "") final in
  let absent := Samples.world Samples.jwks_doc 200 Samples.tokens 401
                  (Raise FileNotFoundError) final in
  (exists first second,
     Harness.replay_first quiet = Ok first /\ status first = 200%Z
     /\ Harness.replay_second quiet = Ok second /\ status second = 401%Z
     /\ Harness.replay_first absent = Ok first
     /\ Harness.replay_second absent = Ok second)
  /\ (exists r, Harness.test_replay_detection_with_ip quiet [] = Ok [r]
                /\ Harness.success r = false)
  /\ Harness.test_replay_detection_with_ip absent [] = Raise FileNotFoundError.
Proof.
  split; [|split].
  - eexists _, _. repeat split.
  - eexists. split; [vm_compute; reflexivity|reflexivity].
  - vm_compute. reflexivity.
Qed.

(** C5, as the code behaves: once the registration succeeded and the
    login gave a refresh token, the verdict of the replay scenario is
    read off the log file: [success] is true exactly when the second
    refresh is answered 401 and the log holds
    [refresh_replay_detected] and the client address (or the word
    [client_ip]); the status of the first refresh and the user-agent
    play no part; when the log file cannot be read the exception
    leaves the scenario. *)
Theorem replay_verdict_reads_log w results reg login body token first second :
  Harness.replay_register w = Ok reg -> status reg = 200%Z ->
  Harness.replay_login w = Ok login -> json login = Ok body ->
  PyJson.get body "refresh_token" = Ok token -> PyJson.truthy token = true ->
  Harness.replay_first w = Ok first -> Harness.replay_second w = Ok second ->
  match Harness.log_file w with
  | Ok logs =>
      exists r,
        Harness.test_replay_detection_with_ip w results = Ok (results ++ [r])
        /\ (Harness.success r = true <->
            status second = 401%Z
            /\ PyStr.contains logs "refresh_replay_detected" = true
            /\ (PyStr.contains logs "198.51.100.99" = true
                \/ PyStr.contains logs "client_ip" = true))
  | Raise e => Harness.test_replay_detection_with_ip w results = Raise e
  end.
Proof.
  intros Hreg Hst Hlogin Hbody Htok Htruthy Hfirst Hsecond.
  pose proof (HarnessFacts.replay_run w results _ _ _ _ _ _
                Hreg Hst Hlogin Hbody Htok Htruthy Hfirst Hsecond) as H.
  destruct (Harness.log_file w) as [logs|e]; [|exact H].
  destruct H as (r & Hr & Hs). exists r. split; [exact Hr|].
  rewrite Hs, !andb_true_iff, orb_true_iff, Z.eqb_eq. tauto.
Qed.

Lemma replay_verdict_sample :
  exists r,
    Harness.test_replay_detection_with_ip Samples.passing [] = Ok [r]
    /\ (Harness.success r = true <->
        401%Z = 401%Z
        /\ PyStr.contains Samples.replay_log "refresh_replay_detected" = true
        /\ (PyStr.contains Samples.replay_log "198.51.100.99" = true
            \/ PyStr.contains Samples.replay_log "client_ip" = true)).
Proof.
  exact (replay_verdict_reads_log Samples.passing []
           {| status := 200; text := ""; json := Ok (JObj []) |}
           {| status := 200; text := ""; json := Ok Samples.tokens |}
           Samples.tokens (JStr "r-1")
           {| status := 200; text := ""; json := Ok Samples.tokens |}
           {| status := 401; text := ""; json := Ok (JObj []) |}
           eq_refl eq_refl eq_refl eq_refl eq_refl eq_refl eq_refl eq_refl).
Defined.

(** C7, as stated, fails: after a failed registration or a login
    without refresh token the replay scenario returns without a
    [TestResult]; an unreadable log file and an unreachable metrics
    endpoint raise out of the scenario, and the run ends with status
    1. *)
Lemma scenario_without_result_or_raising :
  let final := Samples.reply 200 Samples.final_exposition (Raise (ContentError "")) in
  let refused := ClientError "Cannot connect to host localhost:8081" in
  let offline := Samples.world Samples.jwks_doc 200 Samples.tokens 401
                   (Ok Samples.replay_log) (Raise refused) in
  Harness.test_replay_detection_with_ip
    (Samples.world Samples.jwks_doc 500 Samples.tokens 401 (Ok Samples.replay_log) final) []
  = Ok []
  /\ Harness.test_replay_detection_with_ip
       (Samples.world Samples.jwks_doc 200 (JObj []) 401 (Ok Samples.replay_log) final) []
     = Ok []
  /\ Harness.test_replay_detection_with_ip
       (Samples.world Samples.jwks_doc 200 Samples.tokens 401 (Raise FileNotFoundError) final) []
     = Raise FileNotFoundError
  /\ Harness.validate_metrics offline [] = Raise refused
  /\ Harness.run_all_tests Samples.no_str offline [] = Raise refused
  /\ Harness.main Samples.no_str offline = 1%Z.
Proof. repeat split; vm_compute; reflexivity. Qed.

(** C7, as the code behaves.  A scenario that returns has appended at
    most one [TestResult]: the JWKS, hash and metrics scenarios one;
    the replay scenario none exactly when its registration is
    answered with a status other than 200 or its login gives no
    truthy refresh token, and one exactly when every request is
    answered (the registration with 200, the login with a refresh
    token) and the log file is read; the rate-limit scenario none
    exactly when its registration is answered with a status other
    than 200, and one exactly when it is answered 200 and the ten
    logins are answered.  Exceptions are absorbed in two places: the
    JWKS batch keeps the exception of a failed fetch as an entry (the
    result then has [success] false), and [register_user] of the hash
    scenario turns an [Exception] of its request into a status-0
    outcome (the scenario returns exactly when its two metrics
    fetches parse and no registration is cancelled).  The other
    exceptions leave the scenario: an unreadable log file, a failed
    registration request, an unreachable metrics endpoint; the run
    then does not reach the summary and the exit status is 1. *)
Theorem scenario_appends_or_raises py_str w results :
  (forall concurrency results',
     Harness.test_jwks_endpoint_load w concurrency results = Ok results' ->
     exists r, results' = results ++ [r])
  /\ (forall beyond_limit results',
        Harness.test_hash_concurrency_limit py_str w beyond_limit results = Ok results' ->
        exists r, results' = results ++ [r])
  /\ (forall results',
        Harness.test_replay_detection_with_ip w results = Ok results' ->
        results' = results \/ exists r, results' = results ++ [r])
  /\ (forall results',
        Harness.test_rate_limiting w results = Ok results' ->
        results' = results \/ exists r, results' = results ++ [r])
  /\ (forall results',
        Harness.validate_metrics w results = Ok results' ->
        exists r, results' = results ++ [r])
  /\ (Harness.test_replay_detection_with_ip w results = Ok results <->
      exists reg, Harness.replay_register w = Ok reg
        /\ (status reg <> 200%Z
            \/ exists login body token,
                 Harness.replay_login w = Ok login /\ json login = Ok body
                 /\ PyJson.get body "refresh_token" = Ok token
                 /\ PyJson.truthy token = false))
  /\ ((exists r, Harness.test_replay_detection_with_ip w results = Ok (results ++ [r])) <->
      exists reg login body token first second logs,
        Harness.replay_register w = Ok reg /\ status reg = 200%Z
        /\ Harness.replay_login w = Ok login /\ json login = Ok body
        /\ PyJson.get body "refresh_token" = Ok token
        /\ PyJson.truthy token = true
        /\ Harness.replay_first w = Ok first /\ Harness.replay_second w = Ok second
        /\ Harness.log_file w = Ok logs)
  /\ (Harness.test_rate_limiting w results = Ok results <->
      exists reg, Harness.rate_register w = Ok reg /\ status reg <> 200%Z)
  /\ ((exists r, Harness.test_rate_limiting w results = Ok (results ++ [r])) <->
      exists reg, Harness.rate_register w = Ok reg /\ status reg = 200%Z
        /\ forall i, i < 10 -> returns (Harness.rate_login w i) = true)
  /\ (forall concurrency i,
        returns (PyFmt.float_of_int concurrency) = true ->
        (forall s, Harness.jwks_time w <> S754_zero s) ->
        (forall members,
           Harness.fetch_jwks (Harness.jwks_resp w 0) = Ok (JObj members) ->
           returns (Harness.print_sample members) = true) ->
        i < Z.to_nat concurrency ->
        returns (Harness.fetch_jwks (Harness.jwks_resp w i)) = false ->
        exists r,
          Harness.test_jwks_endpoint_load w concurrency results = Ok (results ++ [r])
          /\ Harness.success r = false)
  /\ (forall beyond_limit,
        returns (Harness.test_hash_concurrency_limit py_str w beyond_limit results) = true
        <->
        returns (Metrics.get_metrics (Harness.metrics_before w)) = true
        /\ returns (Metrics.get_metrics (Harness.metrics_after w)) = true
        /\ forall i, i < Z.to_nat beyond_limit ->
             Harness.register_resp w i <> Raise CancelledError
             /\ forall r, Harness.register_resp w i = Ok r ->
                          json r <> Raise CancelledError)
  /\ (forall reg login body token first second e,
        Harness.replay_register w = Ok reg -> status reg = 200%Z ->
        Harness.replay_login w = Ok login -> json login = Ok body ->
        PyJson.get body "refresh_token" = Ok token -> PyJson.truthy token = true ->
        Harness.replay_first w = Ok first -> Harness.replay_second w = Ok second ->
        Harness.log_file w = Raise e ->
        Harness.test_replay_detection_with_ip w results = Raise e)
  /\ (forall e,
        Harness.replay_register w = Raise e ->
        Harness.test_replay_detection_with_ip w results = Raise e)
  /\ (forall e,
        Harness.rate_register w = Raise e ->
        Harness.test_rate_limiting w results = Raise e)
  /\ (forall e beyond_limit,
        Metrics.get_metrics (Harness.metrics_before w) = Raise e ->
        Harness.test_hash_concurrency_limit py_str w beyond_limit results = Raise e)
  /\ (forall e,
        Harness.metrics_final w = Raise e ->
        Harness.validate_metrics w results = Raise e)
  /\ (forall e,
        Harness.run_scenarios py_str w [] = Raise e ->
        Harness.run_all_tests py_str w [] = Raise e
        /\ Harness.main py_str w = 1%Z)
  /\ (returns (Harness.test_jwks_endpoint_load w 100 []) = false
      \/ returns (Harness.test_hash_concurrency_limit py_str w 60 []) = false
      \/ returns (Harness.test_replay_detection_with_ip w []) = false
      \/ returns (Harness.test_rate_limiting w []) = false
      \/ returns (Harness.validate_metrics w []) = false ->
      returns (Harness.run_all_tests py_str w []) = false
      /\ Harness.main py_str w = 1%Z).
Proof.
  repeat match goal with |- _ /\ _ => split end.
  - intros c rs' H. apply HarnessFacts.jwks_appends in H as (r & -> & _). eauto.
  - intros n rs'. apply HarnessFacts.hash_appends.
  - intros rs'. apply HarnessFacts.replay_appends.
  - intros rs'. apply HarnessFacts.rate_appends.
  - intros rs'. apply HarnessFacts.metrics_appends.
  - apply HarnessFacts.replay_none_iff.
  - apply HarnessFacts.replay_one_iff.
  - apply HarnessFacts.rate_none_iff.
  - apply HarnessFacts.rate_one_iff.
  - intros c i. apply HarnessFacts.jwks_failed_fetch.
  - intros n. apply HarnessFacts.hash_returns_iff.
  - intros reg login body token first second e Hreg Hst Hl Hb Hg Ht Hf Hs Hlog.
    pose proof (HarnessFacts.replay_run w results reg login body token first second
                  Hreg Hst Hl Hb Hg Ht Hf Hs) as H.
    now rewrite Hlog in H.
  - intros e He. unfold Harness.test_replay_detection_with_ip. now rewrite He.
  - intros e He. unfold Harness.test_rate_limiting. now rewrite He.
  - intros e n. apply HarnessFacts.hash_metrics_raise.
  - intros e He. unfold Harness.validate_metrics. now rewrite He.
  - intros e He. unfold Harness.main, Harness.run_all_tests. now rewrite He.
  - intros H.
    assert (Hr : returns (Harness.run_all_tests py_str w []) = false).
    { destruct (returns (Harness.run_all_tests py_str w [])) eqn:E; [|reflexivity].
      apply HarnessFacts.run_needs_every_scenario in E as (E1 & E2 & E3 & E4 & E5).
      destruct H as [H|[H|[H|[H|H]]]]; congruence. }
    split; [exact Hr|]. unfold Harness.main.
    now destruct (Harness.run_all_tests py_str w []) as [[|]|e].
Qed.

(** An unreadable log file: the replay scenario raises, and so does
    the run. *)
Lemma scenario_appends_sample :
  let w := Samples.world Samples.jwks_doc 200 Samples.tokens 401
             (Raise FileNotFoundError) (Raise (ClientError "")) in
  Harness.test_replay_detection_with_ip w [] = Raise FileNotFoundError
  /\ Harness.main Samples.no_str w = 1%Z.
Proof.
  intros w.
  pose proof (scenario_appends_or_raises Samples.no_str w [])
    as (_ & _ & _ & _ & _ & _ & _ & _ & _ & _ & _ & Hlog & _ & _ & _ & _ & _ & Hrun).
  assert (H : Harness.test_replay_detection_with_ip w [] = Raise FileNotFoundError).
  { apply (Hlog {| status := 200; text := ""; json := Ok (JObj []) |}
                {| status := 200; text := ""; json := Ok Samples.tokens |}
                Samples.tokens (JStr "r-1")
                {| status := 200; text := ""; json := Ok Samples.tokens |}
                {| status := 401; text := ""; json := Ok (JObj []) |});
      reflexivity. }
  split; [exact H|].
  apply Hrun. right. right. left. now rewrite H.
Defined.

(** ** The verdicts of the other scenarios *)

Lemma count_positive {A} (f : A -> bool) (l : list A) :
  (0 <? count f l)%Z = true <-> exists x, x ∈ l /\ f x = true.
Proof.
  unfold count. rewrite Z.ltb_lt. split.
  - intros H. destruct (filter (fun x => f x = true) l) as [|x l'] eqn:E;
      [simpl in H; lia|].
    assert (Hx : x ∈ filter (fun x => f x = true) l) by (rewrite E; constructor).
    apply list_elem_of_filter in Hx as [Hf Hx]. eauto.
  - intros (x & Hx & Hf).
    assert (Hin : x ∈ filter (fun x => f x = true) l)
      by (apply list_elem_of_filter; auto).
    destruct (filter (fun x => f x = true) l); [inversion Hin|simpl; lia].
Qed.

(** The hash-concurrency scenario passes exactly when some
    registration of the batch counts as busy.  One answered with a
    JSON body counts when its status is 503 or [hash_busy] is in the
    text of the body; one whose request or whose [resp.json()] raised
    has become [(0, {"error": str(e)})] and counts only when
    [hash_busy] is in that text: a 503 whose body is not JSON is not
    counted on its status. *)
Theorem hash_success_iff_busy py_str w beyond_limit results results' :
  Harness.test_hash_concurrency_limit py_str w beyond_limit results = Ok results' ->
  exists r,
    results' = results ++ [r]
    /\ Harness.name r = "Hash Concurrency Limiting"
    /\ (Harness.success r = true <->
        exists i, i < Z.to_nat beyond_limit /\
          match Harness.register_resp w i with
          | Ok reply =>
              match json reply with
              | Ok body =>
                  status reply = 503%Z
                  \/ PyStr.contains (py_str body) "hash_busy" = true
              | Raise e =>
                  PyStr.contains (py_str (JObj [("error", JStr (exn_str e))]))
                                 "hash_busy" = true
              end
          | Raise e =>
              PyStr.contains (py_str (JObj [("error", JStr (exn_str e))]))
                             "hash_busy" = true
          end).
Proof.
  unfold Harness.test_hash_concurrency_limit. cbv zeta. intros H.
  apply bind_Ok in H as (m1 & _ & H).
  apply bind_Ok in H as (outcomes & Hg & H).
  apply bind_Ok in H as (m2 & _ & H).
  injection H as <-. eexists.
  split; [reflexivity|]. split; [reflexivity|]. simpl.
  apply HarnessFacts.gather_Ok in Hg. unfold Harness.register_tasks in Hg.
  rewrite count_positive. split.
  - intros ([st body] & Hin & Hf).
    assert (Ht : In (Ok (st, body)) (map Ok outcomes))
      by (apply in_map, list_elem_of_In, Hin).
    rewrite <- Hg in Ht. apply in_map_iff in Ht as (i & Hi & Hseq).
    apply in_seq in Hseq. exists i. split; [lia|].
    now apply (HarnessFacts.register_user_busy py_str _ _ _ Hi).
  - intros (i & Hlt & Hbusy).
    assert (Ht : In (Harness.register_user (Harness.register_resp w i))
                    (map Ok outcomes)).
    { rewrite <- Hg. apply in_map_iff. exists i. split; [reflexivity|].
      apply in_seq. lia. }
    apply in_map_iff in Ht as ([st body] & Hi & Hin).
    exists (st, body). split; [now apply list_elem_of_In|].
    symmetry in Hi. now apply (HarnessFacts.register_user_busy py_str _ _ _ Hi).
Qed.

Lemma hash_success_sample :
  exists r,
    Harness.test_hash_concurrency_limit Samples.no_str Samples.passing 60 [] = Ok [r]
    /\ Harness.success r = true.
Proof.
  destruct (Harness.test_hash_concurrency_limit Samples.no_str Samples.passing 60 [])
    as [rs|e] eqn:E; [|vm_compute in E; discriminate].
  destruct (hash_success_iff_busy Samples.no_str Samples.passing 60 [] rs E)
    as (r & -> & _ & Hs).
  exists r. split; [reflexivity|].
  apply Hs. exists 50. split; [vm_compute; lia|]. left. reflexivity.
Defined.

(** The rate-limit scenario, once its registration is answered:
    with a status other than 200 it returns without a result; with
    200 it makes the ten logins, raises if one of them fails, and
    otherwise appends one result, which passes exactly when one of
    the ten logins is answered 429. *)
Theorem rate_success_iff_limited w results reg :
  Harness.rate_register w = Ok reg ->
  (status reg <> 200%Z -> Harness.test_rate_limiting w results = Ok results)
  /\ (status reg = 200%Z ->
      (forall i, i < 10 -> returns (Harness.rate_login w i) = true) ->
      exists r,
        Harness.test_rate_limiting w results = Ok (results ++ [r])
        /\ Harness.name r = "Rate Limiting"
        /\ (Harness.success r = true <->
            exists i reply,
              i < 10 /\ Harness.rate_login w i = Ok reply /\ status reply = 429%Z))
  /\ (status reg = 200%Z ->
      forall i, i < 10 -> returns (Harness.rate_login w i) = false ->
      returns (Harness.test_rate_limiting w results) = false).
Proof.
  intros Hreg. split; [|split].
  - intros Hst. now apply (HarnessFacts.rate_no_registration w results reg).
  - intros Hst Hall.
    pose proof (HarnessFacts.rate_run w results reg Hreg Hst) as Hrun.
    pose proof (HarnessFacts.login_statuses_spec w (seq 0 10)) as Hspec.
    pose proof (HarnessFacts.login_statuses_returns w (seq 0 10)) as Hret.
    destruct (Harness.login_statuses w (seq 0 10)) as [statuses|e].
    + destruct Hrun as (r & Hr & Hn & Hs). exists r.
      split; [exact Hr|]. split; [exact Hn|].
      rewrite Hs, count_positive. split.
      * intros (s & Hin & Hx). apply Z.eqb_eq in Hx. subst s.
        apply list_elem_of_lookup_1 in Hin as [k Hk].
        destruct (Forall2_lookup_r _ _ _ _ _ Hspec Hk) as (i & Hi & reply & Hl & Hst').
        exists i, reply. split; [|auto].
        apply list_elem_of_lookup_2, elem_of_seq in Hi. lia.
      * intros (i & reply & Hi & Hl & Hst').
        assert (Hin : i ∈ seq 0 10) by (apply elem_of_seq; lia).
        apply list_elem_of_lookup_1 in Hin as [k Hk].
        destruct (Forall2_lookup_l _ _ _ _ _ Hspec Hk) as (s & Hs' & reply' & Hl' & Hst'').
        exists s. split; [eapply list_elem_of_lookup_2, Hs'|].
        apply Z.eqb_eq. congruence.
    + assert (false = true); [|discriminate].
      apply Hret. intros i Hi. apply Hall. apply elem_of_seq in Hi. lia.
  - intros Hst i Hi Hfail.
    pose proof (HarnessFacts.rate_run w results reg Hreg Hst) as Hrun.
    pose proof (HarnessFacts.login_statuses_returns w (seq 0 10)) as Hret.
    destruct (Harness.login_statuses w (seq 0 10)) as [statuses|e].
    + assert (Ht : returns (Harness.rate_login w i) = true).
      { apply Hret; [reflexivity|]. apply elem_of_seq. lia. }
      congruence.
    + now rewrite Hrun.
Qed.

Lemma rate_success_sample :
  exists r,
    Harness.test_rate_limiting Samples.passing [] = Ok [r]
    /\ Harness.name r = "Rate Limiting"
    /\ Harness.success r = true.
Proof.
  destruct (rate_success_iff_limited Samples.passing []
              {| status := 200; text := ""; json := Ok (JObj []) |} eq_refl)
    as (_ & H & _).
  destruct (H eq_refl) as (r & Hr & Hn & Hs).
  - intros i Hi. simpl. now destruct (i <? 5).
  - exists r. split; [exact Hr|]. split; [exact Hn|].
    apply Hs. exists 5, {| status := 429; text := ""; json := Ok (JObj []) |}.
    split; [lia|]. split; reflexivity.
Defined.

Lemma found_among_lookup (all : gmap string metric) (required : list string) :
  forall (found : gmap string metric) (k : string),
  fold_left (fun found m =>
               match all !! m with
               | Some v => <[m := v]> found
               | None => found
               end) required found !! k
  = if bool_decide (k ∈ required) then
      match all !! k with Some v => Some v | None => found !! k end
    else found !! k.
Proof.
  induction required as [|m required IH]; intros found k; simpl.
  - reflexivity.
  - rewrite IH. destruct (decide (m = k)) as [->|Hne].
    + rewrite (bool_decide_eq_true_2 (k ∈ k :: required)) by constructor.
      destruct (all !! k) as [v|] eqn:E.
      * rewrite lookup_insert_eq. now destruct (bool_decide _).
      * now destruct (bool_decide _).
    + assert (Hk : bool_decide (k ∈ m :: required) = bool_decide (k ∈ required)).
      { apply bool_decide_ext. rewrite elem_of_cons.
        split; [intros [E|Hin]; [congruence|exact Hin]|auto]. }
      rewrite Hk. destruct (all !! m) as [v|];
        [rewrite lookup_insert_ne by assumption|]; reflexivity.
Qed.

(** The metrics scenario passes exactly when three of the four
    required names are keys of the snapshot; the result carries the
    required metrics that were found. *)
Theorem metrics_success_iff_three w results results' :
  Harness.validate_metrics w results = Ok results' ->
  exists r all found,
    Metrics.get_metrics (Harness.metrics_final w) = Ok all
    /\ results' = results ++ [r]
    /\ Harness.metrics r = Some found
    /\ (forall k, found !! k
                  = if bool_decide (k ∈ Harness.required_metrics) then all !! k
                    else None)
    /\ (Harness.success r = true <-> 3 <= size found).
Proof.
  unfold Harness.validate_metrics. cbv zeta. intros H.
  apply bind_Ok in H as (all & Hall & H). injection H as <-.
  eexists _, all, _. split; [exact Hall|].
  split; [reflexivity|]. split; [reflexivity|]. split.
  - intros k. unfold Harness.found_among. rewrite found_among_lookup.
    rewrite lookup_empty. destruct (bool_decide _); [|reflexivity].
    now destruct (all !! k).
  - simpl. apply bool_decide_eq_true.
Qed.

Lemma metrics_success_sample :
  exists r all found,
    Harness.validate_metrics Samples.passing [] = Ok [r]
    /\ Metrics.get_metrics (Harness.metrics_final Samples.passing) = Ok all
    /\ Harness.metrics r = Some found
    /\ (forall k, found !! k
                  = if bool_decide (k ∈ Harness.required_metrics) then all !! k
                    else None)
    /\ (Harness.success r = true <-> 3 <= size found).
Proof.
  destruct (Harness.validate_metrics Samples.passing []) as [rs|e] eqn:E.
  - destruct (metrics_success_iff_three Samples.passing [] rs E)
      as (r & all & found & H1 & -> & H3 & H4 & H5).
    exists r, all, found. auto.
  - vm_compute in E. discriminate.
Defined.

(** ** The client-address header *)

(** C9, as stated, fails: the header is not a function of the
    identity alone.  [hash] is keyed by the secret of the interpreter
    process, and two processes give the same e-mail different
    addresses. *)
Lemma forwarded_for_depends_on_process :
  Harness.forwarded_for Samples.seed1 "load-1234@test.com" = "192.0.2.97"
  /\ Harness.forwarded_for Samples.seed2 "load-1234@test.com" = "192.0.2.208"
  /\ Harness.headers (Harness.register_request Samples.seed1 "t" "u" "1234")
     <> Harness.headers (Harness.register_request Samples.seed2 "t" "u" "1234").
Proof.
  split; [vm_compute; reflexivity|]. split; [vm_compute; reflexivity|].
  vm_compute. discriminate.
Qed.

(** C9, within one interpreter process: the header of a registration
    is a function of the e-mail and of the hash secret of the process;
    the tenant, the user id and the password play no part, and the
    last octet lies between 0 and 254. *)
Theorem forwarded_for_from_email key :
  (forall tenant1 tenant2 user1 user2 uuid,
     Harness.headers (Harness.register_request key tenant1 user1 uuid)
     = Harness.headers (Harness.register_request key tenant2 user2 uuid)
     /\ Harness.headers (Extreme.register_request key tenant1 user1 uuid)
        = Harness.headers (Extreme.register_request key tenant2 user2 uuid))
  /\ (forall tenant user uuid,
        Harness.headers (Harness.register_request key tenant user uuid)
        = [("X-Forwarded-For",
            Harness.forwarded_for key ("load-" +:+ uuid +:+ "@test.com"))]
        /\ Harness.headers (Extreme.register_request key tenant user uuid)
           = [("X-Forwarded-For",
               Harness.forwarded_for key ("extreme-" +:+ uuid +:+ "@test.com"))])
  /\ (forall email,
        exists octet, (0 <= octet < 255)%Z
          /\ Harness.forwarded_for key email = "192.0.2." +:+ pretty octet).
Proof.
  split; [|split].
  - intros. split; reflexivity.
  - intros. split; reflexivity.
  - intros email. exists (PyHash.hash key email `mod` 255)%Z.
    split; [apply Z.mod_pos_bound; lia|reflexivity].
Qed.

(** ** The concurrency ceiling *)

Module DispatchFacts.
Import Dispatch.

Lemma in_flight_insert l : forall i old new,
  l !! i = Some old ->
  length (filter (fun p => p = InFlight) (<[i := new]> l)) + weight old
  = length (filter (fun p => p = InFlight) l) + weight new.
Proof.
  induction l as [|p l IH]; intros i old new Hi; [now rewrite lookup_nil in Hi|].
  destruct i as [|i]; simpl in *.
  - injection Hi as ->. rewrite !filter_cons. unfold weight.
    destruct (decide (new = InFlight)), (decide (old = InFlight)); simpl; lia.
  - rewrite !filter_cons. specialize (IH i old new Hi).
    destruct (decide (p = InFlight)); simpl; lia.
Qed.

Lemma step_gated_invariant s t s' :
  step_gated s t = Some s' ->
  permits s' + in_flight s' = permits s + in_flight s
  /\ length (tasks s') = length (tasks s).
Proof.
  unfold step_gated, in_flight, set_phase.
  destruct t as [i|i|i]; destruct (tasks s !! i) as [[| | |]|] eqn:Hi;
    try discriminate; try (destruct (permits s); discriminate).
  - destruct (permits s) as [|k] eqn:Hp; intros [= <-]; simpl;
      rewrite length_insert;
      pose proof (in_flight_insert _ _ _ Waiting Hi);
      pose proof (in_flight_insert _ _ _ InFlight Hi);
      unfold weight in *; simpl in *; lia.
  - destruct (permits s) as [|k] eqn:Hp; [discriminate|].
    intros [= <-]; simpl. rewrite length_insert.
    pose proof (in_flight_insert _ _ _ InFlight Hi).
    unfold weight in *; simpl in *; lia.
  - intros [= <-]; simpl. rewrite length_insert.
    pose proof (in_flight_insert _ _ _ Done Hi).
    unfold weight in *; simpl in *; lia.
Qed.

Lemma run_gated_invariant schedule : forall s s',
  run step_gated s schedule = Some s' ->
  permits s' + in_flight s' = permits s + in_flight s
  /\ length (tasks s') = length (tasks s).
Proof.
  induction schedule as [|t rest IH]; intros s s' H; simpl in H.
  - injection H as <-. auto.
  - destruct (step_gated s t) as [s1|] eqn:E; [|discriminate]. simpl in H.
    destruct (step_gated_invariant _ _ _ E) as [E1 E2].
    destruct (IH _ _ H) as [H1 H2]. split; congruence.
Qed.

Lemma init_in_flight c n : in_flight (init c n) = 0.
Proof.
  unfold in_flight, init. simpl.
  induction n as [|n IH]; [reflexivity|].
  simpl. rewrite filter_cons. destruct (decide (Pending = InFlight)); [discriminate|].
  exact IH.
Qed.

End DispatchFacts.

(** C8, as stated, fails for the batch of [pressure-test.py], which
    takes no permit: with 60 tasks all 60 requests are in flight at
    once, above any ceiling of 50. *)
Lemma ungated_batch_exceeds_ceiling :
  exists s,
    Dispatch.run Dispatch.step_ungated (Dispatch.init 50 60)
      (map Dispatch.Start (seq 0 60)) = Some s
    /\ Dispatch.in_flight s = 60
    /\ ~ Dispatch.in_flight s <= 50.
Proof.
  eexists. split; [vm_compute; reflexivity|].
  split; [vm_compute; reflexivity|]. vm_compute. lia.
Qed.

(** C8, for the batch of [test-hash-concurrency-extreme.py]: for every
    ceiling [c], every number [n] of tasks and every schedule, the
    requests in flight never exceed [c]; the permits left and the
    requests in flight add up to [c], so a request is in flight only
    while it holds a permit, and a task that finds no permit waits. *)
Theorem gated_batch_respects_ceiling c n schedule s :
  Dispatch.run Dispatch.step_gated (Dispatch.init c n) schedule = Some s ->
  Dispatch.in_flight s <= c
  /\ Dispatch.permits s + Dispatch.in_flight s = c
  /\ length (Dispatch.tasks s) = n
  /\ (forall i, Dispatch.permits s = 0 ->
        Dispatch.tasks s !! i = Some Dispatch.Pending ->
        exists s', Dispatch.step_gated s (Dispatch.Start i) = Some s'
                   /\ Dispatch.tasks s' !! i = Some Dispatch.Waiting
                   /\ Dispatch.in_flight s' = Dispatch.in_flight s).
Proof.
  intros H. apply DispatchFacts.run_gated_invariant in H as [H1 H2].
  rewrite DispatchFacts.init_in_flight in H1. simpl in H1, H2.
  rewrite length_replicate in H2.
  split; [lia|]. split; [lia|]. split; [assumption|].
  intros i Hp Hi. unfold Dispatch.step_gated. rewrite Hi, Hp.
  eexists. split; [reflexivity|]. split.
  - simpl. apply list_lookup_insert_eq. eapply lookup_lt_Some, Hi.
  - unfold Dispatch.in_flight, Dispatch.set_phase. simpl.
    pose proof (DispatchFacts.in_flight_insert _ _ _ Dispatch.Waiting Hi) as E.
    unfold Dispatch.weight in E. simpl in E. lia.
Qed.

Lemma gated_batch_sample :
  exists s,
    Dispatch.run Dispatch.step_gated (Dispatch.init 2 3)
      [Dispatch.Start 0; Dispatch.Start 1; Dispatch.Start 2; Dispatch.Finish 0;
       Dispatch.Wake 2] = Some s
    /\ Dispatch.in_flight s <= 2.
Proof.
  eexists. split; [vm_compute; reflexivity|].
  refine (proj1 (gated_batch_respects_ceiling 2 3
                   [Dispatch.Start 0; Dispatch.Start 1; Dispatch.Start 2;
                    Dispatch.Finish 0; Dispatch.Wake 2] _ _)).
  vm_compute. reflexivity.
Defined.

(** * Further properties *)

(** ** More on the percentile of [load-login.py] *)

Module PctFacts.
Import Latency.

(** What [l[k]] reads: the element at [k], or at [len(l) + k] for a
    negative [k]. *)
Lemma getitem_spec {A} (l : list A) (k : Z) (v : A) :
  py_getitem l k = Ok v <->
  let i := if (k <? 0)%Z then (Z.of_nat (length l) + k)%Z else k in
  (0 <= i)%Z /\ l !! Z.to_nat i = Some v.
Proof.
  unfold py_getitem. cbn zeta.
  set (i := if (k <? 0)%Z then (Z.of_nat (length l) + k)%Z else k).
  destruct ((0 <=? i)%Z && (i <? Z.of_nat (length l))%Z) eqn:E.
  - apply andb_true_iff in E as [E1 E2]. apply Z.leb_le in E1. apply Z.ltb_lt in E2.
    destruct (l !! Z.to_nat i) as [x|] eqn:Hx.
    + split; [intros [= ->]; auto|intros [_ [= ->]]; reflexivity].
    + split; [discriminate|intros [_ ?]; discriminate].
  - split; [discriminate|]. intros [H0 Hv].
    apply lookup_lt_Some in Hv.
    apply andb_false_iff in E as [E|E];
      [apply Z.leb_gt in E|apply Z.ltb_ge in E]; lia.
Qed.

Lemma getitem_elem {A} (l : list A) (k : Z) (v : A) :
  py_getitem l k = Ok v -> v ∈ l.
Proof.
  intros H. apply getitem_spec in H as [_ H]. eapply list_elem_of_lookup_2, H.
Qed.

Lemma getitem_nil {A} (k : Z) : py_getitem (@nil A) k = Raise IndexError.
Proof. unfold py_getitem. simpl. now destruct (_ && _). Qed.

(** On two lists of the same length [l[k]] reads the same index, or
    raises on both. *)
Lemma getitem_same_length {A} (l1 l2 : list A) (k : Z) :
  length l1 = length l2 ->
  match py_getitem l1 k, py_getitem l2 k with
  | Ok a, Ok b => exists i, l1 !! i = Some a /\ l2 !! i = Some b
  | Raise e1, Raise e2 => e1 = e2
  | _, _ => False
  end.
Proof.
  intros Hlen. unfold py_getitem. rewrite <- Hlen.
  set (i := if (k <? 0)%Z then (Z.of_nat (length l1) + k)%Z else k).
  destruct ((0 <=? i)%Z && (i <? Z.of_nat (length l1))%Z) eqn:E; [|reflexivity].
  apply andb_true_iff in E as [E1 E2]. apply Z.leb_le in E1. apply Z.ltb_lt in E2.
  destruct (lookup_lt_is_Some_2 l1 (Z.to_nat i)) as [a Ha]; [lia|].
  destruct (lookup_lt_is_Some_2 l2 (Z.to_nat i)) as [b Hb]; [lia|].
  rewrite Ha, Hb. eauto.
Qed.

Section Counting.
Context {F : Type} {ops : FloatOps F} {order : FloatOrder F}.

Notation "x ⊑ y" := (f_leb x y = true) (at level 70).

Lemma filter_all (P : F -> Prop) `{!forall x, Decision (P x)} (l : list F) :
  Forall P l -> filter P l = l.
Proof.
  induction 1 as [|x l Hx Hl IH]; [reflexivity|].
  rewrite filter_cons_True by assumption. now rewrite IH.
Qed.

Lemma filter_none (P : F -> Prop) `{!forall x, Decision (P x)} (l : list F) :
  Forall (fun x => ~ P x) l -> filter P l = [].
Proof.
  induction 1 as [|x l Hx Hl IH]; [reflexivity|].
  now rewrite filter_cons_False by assumption.
Qed.

(** In an ascending list the element at index [i] has at least
    [i + 1] elements at or below it, and a value strictly below it has
    at most [i]. *)
Lemma count_below_at l i v :
  StronglySorted (fun a b => a ⊑ b) l -> Forall ordered l ->
  l !! i = Some v ->
  i + 1 <= length (filter (fun x => x ⊑ v) l).
Proof.
  intros Hs Ho Hv.
  rewrite <- (take_drop (S i) l), filter_app, length_app.
  rewrite filter_all.
  - rewrite length_take. apply lookup_lt_Some in Hv. lia.
  - apply Forall_forall. intros x Hx.
    apply list_elem_of_lookup_1 in Hx as [j Hj].
    pose proof (lookup_lt_Some _ _ _ Hj) as Hlt. rewrite length_take in Hlt.
    rewrite lookup_take_lt in Hj by lia.
    apply (LatencyFacts.ascending_lookup l j i x v); auto. lia.
Qed.

Lemma count_below_strict l i v t :
  StronglySorted (fun a b => a ⊑ b) l -> Forall ordered l ->
  l !! i = Some v -> f_leb v t = false ->
  length (filter (fun x => x ⊑ t) l) <= i.
Proof.
  intros Hs Ho Hv Hvt.
  rewrite <- (take_drop i l), filter_app, length_app.
  rewrite (filter_none _ (drop i l)).
  - pose proof (length_filter (fun x => x ⊑ t) (take i l)) as H1.
    rewrite length_take in H1. simpl. lia.
  - apply Forall_forall. intros x Hx Hxt.
    apply list_elem_of_lookup_1 in Hx as [j Hj]. rewrite lookup_drop in Hj.
    assert (Hvx : v ⊑ x)
      by (apply (LatencyFacts.ascending_lookup l i (i + j) v x); auto; lia).
    rewrite (leb_trans v x t Hvx Hxt) in Hvt. discriminate.
Qed.

(** Two ascending lists with the same elements agree at every index,
    up to [==]. *)
Lemma ascending_unique l1 l2 i a b :
  l1 ≡ₚ l2 -> Forall ordered l1 ->
  StronglySorted (fun a b => a ⊑ b) l1 ->
  StronglySorted (fun a b => a ⊑ b) l2 ->
  l1 !! i = Some a -> l2 !! i = Some b -> f_eqv a b.
Proof.
  intros Hp Ho1 Hs1 Hs2 Ha Hb.
  assert (Ho2 : Forall ordered l2) by now rewrite <- Hp.
  assert (Hhalf : forall l l' x y,
            l ≡ₚ l' -> Forall ordered l -> Forall ordered l' ->
            StronglySorted (fun a b => a ⊑ b) l ->
            StronglySorted (fun a b => a ⊑ b) l' ->
            l !! i = Some x -> l' !! i = Some y -> x ⊑ y).
  { intros l l' x y Hperm Hol Hol' Hsl Hsl' Hx Hy.
    destruct (f_leb x y) eqn:E; [reflexivity|exfalso].
    pose proof (count_below_strict l i x y Hsl Hol Hx E) as H1.
    pose proof (count_below_at l' i y Hsl' Hol' Hy) as H2.
    rewrite Hperm in H1. lia. }
  split.
  - apply (Hhalf l1 l2); auto.
  - apply (Hhalf l2 l1); auto. now symmetry.
Qed.

End Counting.

End PctFacts.

(** On samples without NaN [pct] hands back one of the samples,
    between the least and the greatest of them, whatever the
    percentile asked for: also a negative one, which counts from the
    end of the sorted list. *)
Theorem pct_returns_an_element (samples : list PyFloat.float) (p v : PyFloat.float) :
  Forall (fun x => x <> S754_nan) samples ->
  Latency.pct samples p = Ok v ->
  v ∈ samples
  /\ exists lo hi,
       Latency.py_min samples = Ok lo /\ Latency.py_max samples = Ok hi
       /\ PyFloat.leb lo v = true /\ PyFloat.leb v hi = true.
Proof.
  intros Hnan H.
  assert (Hin : v ∈ samples).
  { unfold Latency.pct in H.
    destruct (Latency.rank p (length (Latency.sorted samples))) as [k|e];
      [|discriminate].
    simpl in H. apply PctFacts.getitem_elem in H.
    now rewrite LatencyFacts.sorted_perm in H. }
  split; [exact Hin|].
  assert (Hne : samples <> []) by (intros ->; inversion Hin).
  assert (Ho : Forall Latency.ordered samples).
  { eapply Forall_impl; [exact Hnan|]. intros x. apply Binary64.ordered_not_nan. }
  pose proof Binary64.binary64_order as Hord.
  destruct (LatencyFacts.py_min_least samples Hne Ho) as (lo & Hlo & _ & Hleast).
  destruct (LatencyFacts.py_max_greatest samples Hne Ho) as (hi & Hhi & _ & Hmost).
  exists lo, hi. rewrite Forall_forall in Hleast, Hmost.
  split; [exact Hlo|]. split; [exact Hhi|].
  split; [apply (Hleast v Hin)|apply (Hmost v Hin)].
Qed.

Lemma pct_returns_an_element_sample :
  PyFloat.of_int 30 ∈ [PyFloat.of_int 30; PyFloat.of_int 10; PyFloat.of_int 20]
  /\ exists lo hi,
       Latency.py_min [PyFloat.of_int 30; PyFloat.of_int 10; PyFloat.of_int 20] = Ok lo
       /\ Latency.py_max [PyFloat.of_int 30; PyFloat.of_int 10; PyFloat.of_int 20] = Ok hi
       /\ PyFloat.leb lo (PyFloat.of_int 30) = true
       /\ PyFloat.leb (PyFloat.of_int 30) hi = true.
Proof.
  apply (pct_returns_an_element _ (PyFloat.of_int 95)).
  - repeat constructor; discriminate.
  - vm_compute. reflexivity.
Defined.

(** The percentile does not depend on the order in which the samples
    arrived: on two lists with the same samples, none a NaN, [pct]
    raises on both or returns equal values. *)
Theorem pct_order_independent (l1 l2 : list PyFloat.float) (p : PyFloat.float) :
  l1 ≡ₚ l2 -> Forall (fun x => x <> S754_nan) l1 ->
  match Latency.pct l1 p, Latency.pct l2 p with
  | Ok a, Ok b => PyFloat.eqb a b = true
  | Raise e1, Raise e2 => e1 = e2
  | _, _ => False
  end.
Proof.
  intros Hp Hnan.
  assert (Ho1 : Forall Latency.ordered l1).
  { eapply Forall_impl; [exact Hnan|]. intros x. apply Binary64.ordered_not_nan. }
  assert (Ho2 : Forall Latency.ordered l2) by now rewrite <- Hp.
  pose proof Binary64.binary64_order as Hord.
  pose proof (LatencyFacts.sorted_ascending l1 Ho1) as Hs1.
  pose proof (LatencyFacts.sorted_ascending l2 Ho2) as Hs2.
  assert (Hps : Latency.sorted l1 ≡ₚ Latency.sorted l2)
    by now rewrite !LatencyFacts.sorted_perm.
  assert (Hlen : length (Latency.sorted l1) = length (Latency.sorted l2))
    by now rewrite Hps.
  unfold Latency.pct. rewrite Hlen.
  destruct (Latency.rank p (length (Latency.sorted l2))) as [k|e]; [|reflexivity].
  simpl.
  pose proof (PctFacts.getitem_same_length _ _ k Hlen) as Hget.
  destruct (py_getitem (Latency.sorted l1) k) as [a|e1];
    destruct (py_getitem (Latency.sorted l2) k) as [b|e2]; try assumption.
  destruct Hget as (i & Ha & Hb). apply Binary64.eqb_eqv.
  eapply (PctFacts.ascending_unique (Latency.sorted l1) (Latency.sorted l2));
    eauto. now rewrite LatencyFacts.sorted_perm.
Qed.

Lemma pct_order_independent_sample :
  match Latency.pct [PyFloat.of_int 30; PyFloat.of_int 10; PyFloat.of_int 20]
                    (PyFloat.of_int 50),
        Latency.pct [PyFloat.of_int 10; PyFloat.of_int 20; PyFloat.of_int 30]
                    (PyFloat.of_int 50) with
  | Ok a, Ok b => PyFloat.eqb a b = true
  | Raise e1, Raise e2 => e1 = e2
  | _, _ => False
  end.
Proof.
  apply pct_order_independent.
  - eapply perm_trans; [apply perm_swap|apply perm_skip, perm_swap].
  - repeat constructor; discriminate.
Defined.

(** *** The 95th percentile is never above the 99th

    A product [c * m] that is at least an integer [J] rounds to a
    float that is at least [J]; with the bound from above this puts an
    integer between the two indices. *)

Module RoundingFacts.
Import Latency Binary64.
Local Open Scope Z_scope.

Lemma Zdigits2_lower m : 0 < m -> 2 ^ (Zdigits2 m - 1) <= m.
Proof.
  intros Hm. rewrite Zdigits2_log2 by assumption.
  replace (Z.log2 m + 1 - 1) with (Z.log2 m) by lia.
  apply Z.log2_spec. assumption.
Qed.

(** The exponent and the mantissa after the shift. *)
Lemma shr_fexp_spec M e l :
  0 <= M ->
  exists mrs,
    shr_fexp 53 1024 M e l = (mrs, Z.max e (fexp 53 1024 (Zdigits2 M + e)))
    /\ shr_m mrs = M / 2 ^ (Z.max e (fexp 53 1024 (Zdigits2 M + e)) - e).
Proof.
  intros HM. unfold shr_fexp, shr.
  destruct (fexp 53 1024 (Zdigits2 M + e) - e) as [|p|p] eqn:En.
  - exists (shr_record_of_loc M l).
    replace (Z.max e (fexp 53 1024 (Zdigits2 M + e))) with e by lia.
    split; [reflexivity|].
    rewrite Z.sub_diag, shr_record_of_loc_m. simpl. now rewrite Z.div_1_r.
  - exists (SpecFloat.iter_pos shr_1 p (shr_record_of_loc M l)).
    replace (Z.max e (fexp 53 1024 (Zdigits2 M + e))) with (e + Zpos p) by lia.
    split; [reflexivity|].
    replace (e + Zpos p - e) with (Zpos p) by lia.
    destruct (iter_shr_spec p (shr_record_of_loc M l)) as [Hm _];
      [now rewrite shr_record_of_loc_m|].
    now rewrite shr_record_of_loc_m in Hm.
  - exists (shr_record_of_loc M l).
    replace (Z.max e (fexp 53 1024 (Zdigits2 M + e))) with e by lia.
    split; [reflexivity|].
    rewrite Z.sub_diag, shr_record_of_loc_m. simpl. now rewrite Z.div_1_r.
Qed.

(** Rounding a value that is at least the integer [J] gives a float
    that is not zero and is at least [J]. *)
Lemma round_aux_above mx ex lx J :
  0 < J -> ex <= 0 -> J * 2 ^ (- ex) <= mx ->
  match binary_round_aux 53 1024 false mx ex lx with
  | S754_zero _ => False
  | S754_finite s mr er => s = false /\ (er <= 0 -> J * 2 ^ (- er) <= Zpos mr)
  | _ => True
  end.
Proof.
  intros HJ Hex Hle.
  assert (Hpx : 0 < 2 ^ (- ex)) by (apply Z.pow_pos_nonneg; lia).
  assert (Hmx : 0 < mx) by nia.
  unfold binary_round_aux.
  destruct (shr_fexp_spec mx ex lx ltac:(lia)) as (mrs1 & -> & Hm1).
  set (e1 := Z.max ex (fexp 53 1024 (Zdigits2 mx + ex))) in *.
  assert (Hmin : -1074 <= fexp 53 1024 (Zdigits2 mx + ex)) by (unfold fexp, emin; lia).
  set (M2 := round_nearest_even (shr_m mrs1) (loc_of_shr_record mrs1)).
  destruct (round_nearest_even_bounds (shr_m mrs1) (loc_of_shr_record mrs1))
    as [Hb2 _]. fold M2 in Hb2.
  assert (Hp1 : 0 < 2 ^ (e1 - ex)) by (apply Z.pow_pos_nonneg; lia).
  assert (HM1 : 1 <= shr_m mrs1).
  { rewrite Hm1. apply Z.div_le_lower_bound; [lia|].
    destruct (Z.max_spec ex (fexp 53 1024 (Zdigits2 mx + ex))) as [[_ E]|[_ E]];
      fold e1 in E.
    - pose proof (Zdigits2_lower mx Hmx) as Hlow.
      assert (Hd : - ex + 1 <= Zdigits2 mx).
      { pose proof (Zdigits2_le (1 * 2 ^ (- ex)) mx ltac:(nia)) as Hd.
        rewrite Zdigits2_mul_pow2 in Hd by lia. simpl Zdigits2 in Hd. lia. }
      assert (Hle2 : 2 ^ (e1 - ex) <= 2 ^ (Zdigits2 mx - 1)).
      { apply Z.pow_le_mono_r; [lia|]. unfold fexp, emin in E. lia. }
      lia.
    - replace (e1 - ex) with 0 by lia. simpl. lia. }
  assert (HM2 : 1 <= M2) by lia.
  destruct (shr_fexp_spec M2 e1 loc_Exact ltac:(lia)) as (mrs2 & -> & Hm2).
  set (e2 := Z.max e1 (fexp 53 1024 (Zdigits2 M2 + e1))) in *.
  assert (Hp2 : 0 < 2 ^ (e2 - e1)) by (apply Z.pow_pos_nonneg; lia).
  assert (HM3 : 1 <= shr_m mrs2).
  { rewrite Hm2. apply Z.div_le_lower_bound; [lia|].
    destruct (Z.max_spec e1 (fexp 53 1024 (Zdigits2 M2 + e1))) as [[Hlt E]|[_ E]];
      fold e2 in E.
    - pose proof (Zdigits2_lower M2 ltac:(lia)) as Hlow.
      assert (He1 : -1074 <= e1) by lia.
      assert (Hle2 : 2 ^ (e2 - e1) <= 2 ^ (Zdigits2 M2 - 1)).
      { apply Z.pow_le_mono_r; [lia|]. unfold fexp, emin in E, Hlt. lia. }
      lia.
    - replace (e2 - e1) with 0 by lia. simpl. lia. }
  destruct (shr_m mrs2) as [|m|m] eqn:Em; [lia| |lia].
  destruct (e2 <=? 1024 - 53); [|exact I].
  split; [reflexivity|].
  intros He2. rewrite Hm2.
  assert (He1 : e1 <= 0) by lia.
  assert (HJ1 : J * 2 ^ (- e1) <= shr_m mrs1).
  { rewrite Hm1. apply Z.div_le_lower_bound; [lia|].
    rewrite Z.mul_comm, <- Z.mul_assoc, <- Z.pow_add_r by lia.
    replace (- e1 + (e1 - ex)) with (- ex) by lia. exact Hle. }
  apply Z.div_le_lower_bound; [lia|].
  rewrite Z.mul_comm, <- Z.mul_assoc, <- Z.pow_add_r by lia.
  replace (- e2 + (e2 - e1)) with (- e1) by lia. lia.
Qed.

Lemma round_half_even_above a d J :
  0 < d -> J * d <= a -> J <= PyFloat.round_half_even a d.
Proof.
  intros Hd HJ. unfold PyFloat.round_half_even.
  assert (Hq : J <= a / d) by (apply Z.div_le_lower_bound; lia).
  destruct (Z.compare_spec (2 * (a mod d)) d); try destruct (Z.even (a / d)); lia.
Qed.

(** The index [round(c * m)] for a factor [c] below 1 and the float
    of an integer [N]: an integer [J] with [c * N <= J] is above it,
    one with [J <= c * N] is below it. *)
Lemma mul_round_le mc ec N J :
  ec <= -52 -> 0 < N < 2 ^ 53 -> 0 < J < 2 ^ 53 ->
  Zpos mc * N <= J * 2 ^ (- ec) ->
  exists k,
    PyFloat.round (PyFloat.mul (S754_finite false mc ec) (PyFloat.of_int N)) = Ok k
    /\ k <= J.
Proof.
  intros Hec HN HJ Hle.
  destruct N as [|pn|pn]; try lia. destruct J as [|pj|pj]; try lia.
  destruct (of_int_canonical pn) as (M & k & -> & HdM & Hk & HM); [lia|].
  destruct (of_int_canonical pj) as (MJ & kJ & _ & HdJ & HkJ & HMJ); [lia|].
  unfold PyFloat.mul, SFmul, PyFloat.prec, PyFloat.emax.
  change (xorb false false) with false.
  assert (Hb : PyFloat.below
                 (binary_round_aux 53 1024 false (Zpos (mc * M)) (ec + - k) loc_Exact)
                 MJ (- kJ)).
  { apply round_aux_below.
    - lia.
    - now apply bounded_53.
    - lia.
    - rewrite Pos2Z.inj_mul, HM, HMJ.
      rewrite <- (Z.mul_assoc (Zpos pj)), <- Z.pow_add_r by lia.
      replace (kJ + (- kJ - (ec + - k))) with (- ec + k) by lia.
      rewrite Z.pow_add_r by lia.
      assert (0 < 2 ^ k) by (apply Z.pow_pos_nonneg; lia).
      assert (0 < 2 ^ kJ) by (apply Z.pow_pos_nonneg; lia).
      assert (0 <= 2 ^ (- ec)) by (apply Z.pow_nonneg; lia).
      nia.
    - reflexivity. }
  destruct (binary_round_aux 53 1024 false (Zpos (mc * M)) (ec + - k) loc_Exact)
    as [s|s| |s mr er]; try contradiction.
  - exists 0. split; [reflexivity|lia].
  - destruct s; [contradiction|]. destruct Hb as [Her Hmr].
    unfold PyFloat.round.
    destruct er as [|j|j]; [|lia|].
    + assert (kJ = 0) by lia. subst kJ.
      exists (Zpos mr * 2 ^ 0). split; [reflexivity|].
      change (- 0 - 0) with 0 in Hmr. change (2 ^ 0) with 1 in *. lia.
    + exists (PyFloat.round_half_even (Zpos mr) (Zpos (2 ^ j))).
      split; [reflexivity|].
      apply round_half_even_below; [lia|]. split; [lia|].
      rewrite Pos2Z.inj_pow.
      replace (- kJ - Zneg j) with (Zpos j - kJ) in Hmr by lia.
      assert (Hsplit : 2 ^ Zpos j = 2 ^ kJ * 2 ^ (Zpos j - kJ)).
      { rewrite <- Z.pow_add_r by lia. f_equal. lia. }
      rewrite Hsplit, Z.mul_assoc, <- HMJ. exact Hmr.
Qed.

Lemma mul_round_ge mc ec N J :
  ec <= 0 -> Zpos mc <= 2 ^ (- ec) -> 0 < N < 2 ^ 53 -> 0 < J ->
  J * 2 ^ (- ec) <= Zpos mc * N ->
  forall k,
    PyFloat.round (PyFloat.mul (S754_finite false mc ec) (PyFloat.of_int N)) = Ok k ->
    J <= k.
Proof.
  intros Hec Hmc HN HJ Hle r.
  destruct N as [|pn|pn]; try lia.
  destruct (of_int_canonical pn) as (M & k & -> & HdM & Hk & HM); [lia|].
  unfold PyFloat.mul, SFmul, PyFloat.prec, PyFloat.emax.
  change (xorb false false) with false.
  assert (Hb : PyFloat.below
                 (binary_round_aux 53 1024 false (Zpos (mc * M)) (ec + - k) loc_Exact)
                 M (- k)).
  { apply round_aux_below.
    - lia.
    - now apply bounded_53.
    - lia.
    - replace (- k - (ec + - k)) with (- ec) by lia.
      rewrite Pos2Z.inj_mul. nia.
    - reflexivity. }
  pose proof (round_aux_above (Zpos (mc * M)) (ec + - k) loc_Exact J HJ ltac:(lia))
    as Ha.
  assert (Hpre : J * 2 ^ (- (ec + - k)) <= Zpos (mc * M)).
  { rewrite Pos2Z.inj_mul, HM.
    replace (- (ec + - k)) with (- ec + k) by lia.
    rewrite Z.pow_add_r by lia.
    assert (0 < 2 ^ k) by (apply Z.pow_pos_nonneg; lia). nia. }
  specialize (Ha Hpre).
  destruct (binary_round_aux 53 1024 false (Zpos (mc * M)) (ec + - k) loc_Exact)
    as [s|s| |s mr er]; try contradiction; try discriminate.
  destruct Ha as [-> Ha]. destruct Hb as [Her _]. unfold PyFloat.round.
  destruct er as [|j|j]; intros [= <-].
  - specialize (Ha ltac:(lia)). change (2 ^ (- 0)) with 1 in Ha.
    change (2 ^ 0) with 1. lia.
  - lia.
  - specialize (Ha ltac:(lia)). rewrite Pos2Z.inj_pow.
    apply round_half_even_above; [apply Z.pow_pos_nonneg; lia|].
    exact Ha.
Qed.

(** The two indices [main] asks for, on a list of [n] samples. *)
Lemma rank_95_99 n :
  (0 < n)%nat -> Z.of_nat n - 1 < 2 ^ 53 ->
  exists a b,
    rank (PyFloat.of_int 95) n = Ok a /\ rank (PyFloat.of_int 99) n = Ok b
    /\ 0 <= a <= b /\ b < Z.of_nat n.
Proof.
  intros Hn Hbig.
  destruct (le_lt_dec n 20) as [Hsmall|Hlarge].
  - assert (Hall : forallb (fun n =>
                      match rank (PyFloat.of_int 95) n, rank (PyFloat.of_int 99) n with
                      | Ok a, Ok b => (0 <=? a) && (a <=? b) && (b <? Z.of_nat n)
                      | _, _ => false
                      end) (seq 1 20) = true) by (vm_compute; reflexivity).
    rewrite forallb_forall in Hall. specialize (Hall n).
    destruct (rank (PyFloat.of_int 95) n) as [a|]; [|discriminate Hall; apply in_seq; lia].
    destruct (rank (PyFloat.of_int 99) n) as [b|]; [|discriminate Hall; apply in_seq; lia].
    exists a, b. do 2 (split; [reflexivity|]).
    assert (Hin : In n (seq 1 20)) by (apply in_seq; lia).
    apply Hall in Hin. apply andb_true_iff in Hin as [Hin H3].
    apply andb_true_iff in Hin as [H1 H2].
    apply Z.leb_le in H1, H2. apply Z.ltb_lt in H3. lia.
  - destruct (rank_in_range_binary64 (PyFloat.of_int 95) n) as (a & Ha & Har);
      try assumption; try (vm_compute; reflexivity).
    destruct (rank_in_range_binary64 (PyFloat.of_int 99) n) as (b & Hb & Hbr);
      try assumption; try (vm_compute; reflexivity).
    exists a, b. do 2 (split; [assumption|]).
    set (m := Z.of_nat n - 1) in *.
    assert (Hm : 20 <= m) by (unfold m; lia).
    set (J := m - m / 20).
    unfold rank in Ha, Hb. cbn [f_round f_mul f_div f_of_int binary64] in Ha, Hb.
    fold m in Ha, Hb.
    assert (E95 : SFdiv PyFloat.prec PyFloat.emax (PyFloat.of_int 95) (PyFloat.of_int 100)
                  = S754_finite false 8556839292003942 (-53)) by (vm_compute; reflexivity).
    assert (E99 : SFdiv PyFloat.prec PyFloat.emax (PyFloat.of_int 99) (PyFloat.of_int 100)
                  = S754_finite false 8917127262193582 (-53)) by (vm_compute; reflexivity).
    rewrite E95 in Ha. rewrite E99 in Hb.
    assert (Hpow : 2 ^ (- -53) = 9007199254740992) by reflexivity.
    assert (H53 : 2 ^ 53 = 9007199254740992) by reflexivity.
    assert (Hm53 : m < 9007199254740992) by (rewrite <- H53; exact Hbig).
    pose proof (Z.div_mod m 20 ltac:(lia)) as Hdm.
    pose proof (Z.mod_pos_bound m 20 ltac:(lia)) as Hmod.
    assert (HJ : 0 < J <= m) by (unfold J; lia).
    assert (H95 : 8556839292003942 * m <= J * 9007199254740992) by (unfold J; lia).
    assert (H99 : J * 9007199254740992 <= 8917127262193582 * m) by (unfold J; lia).
    destruct (mul_round_le 8556839292003942 (-53) m J) as (a' & Ha' & HaJ);
      rewrite ?Hpow, ?H53; try lia.
    assert (HJb : J <= b).
    { apply (mul_round_ge 8917127262193582 (-53) m J);
        rewrite ?Hpow, ?H53; try assumption; lia. }
    rewrite Ha in Ha'. injection Ha' as <-. lia.
Qed.

End RoundingFacts.

(** The report of [main] is consistent: on a non-empty list of samples
    without NaN (of at most [2^53] elements), the 95th percentile that
    [main] asks for is at most the 99th. *)
Theorem p95_at_most_p99 (samples : list PyFloat.float) :
  samples <> [] ->
  Forall (fun x => x <> S754_nan) samples ->
  (Z.of_nat (length samples) <= 2 ^ 53)%Z ->
  exists a b,
    Latency.pct samples (PyFloat.of_int 95) = Ok a
    /\ Latency.pct samples (PyFloat.of_int 99) = Ok b
    /\ PyFloat.leb a b = true.
Proof.
  intros Hne Hnan Hbig.
  assert (Hord : Forall Latency.ordered samples).
  { eapply Forall_impl; [exact Hnan|]. intros x. apply Binary64.ordered_not_nan. }
  assert (Hn : (0 < length samples)%nat)
    by (destruct samples; [contradiction|simpl; lia]).
  pose proof Binary64.binary64_order as Hlaws.
  destruct (RoundingFacts.rank_95_99 (length samples) Hn ltac:(lia))
    as (i & j & Hi & Hj & Hij & Hjn).
  destruct (LatencyFacts.pct_at samples _ i Hi ltac:(lia)) as (a & Ha & Hpa).
  destruct (LatencyFacts.pct_at samples _ j Hj ltac:(lia)) as (b & Hb & Hpb).
  exists a, b. do 2 (split; [assumption|]).
  change (Latency.f_leb a b = true).
  apply (LatencyFacts.ascending_lookup (Latency.sorted samples)
           (Z.to_nat i) (Z.to_nat j)); auto.
  - now apply LatencyFacts.sorted_ascending.
  - now rewrite LatencyFacts.sorted_perm.
  - lia.
Qed.

Lemma p95_at_most_p99_sample :
  exists a b,
    Latency.pct [PyFloat.of_int 30; PyFloat.of_int 10; PyFloat.of_int 20]
                (PyFloat.of_int 95) = Ok a
    /\ Latency.pct [PyFloat.of_int 30; PyFloat.of_int 10; PyFloat.of_int 20]
                   (PyFloat.of_int 99) = Ok b
    /\ PyFloat.leb a b = true.
Proof.
  apply p95_at_most_p99.
  - discriminate.
  - repeat constructor; discriminate.
  - simpl. lia.
Defined.

(** *** The empty list *)

Module EmptyFacts.
Import Latency Binary64.
Local Open Scope Z_scope.

(** The sign only marks the result of a rounding. *)
Lemma round_aux_sign m e l :
  binary_round_aux 53 1024 true m e l
  = SFopp (binary_round_aux 53 1024 false m e l).
Proof.
  unfold binary_round_aux.
  destruct (shr_fexp 53 1024 m e l) as [mrs1 e1].
  destruct (shr_fexp 53 1024 _ e1 loc_Exact) as [mrs2 e2].
  destruct (shr_m mrs2); try reflexivity.
  now destruct (e2 <=? 1024 - 53).
Qed.

Lemma rank_empty (p : PyFloat.float) :
  PyFloat.valid p = true ->
  f_leb (f_of_int 0) p = true -> f_leb p (f_of_int 100) = true ->
  returns (rank p 0) = true.
Proof.
  intros Hv H0 H100.
  pose proof (div_100_below p Hv H0 H100) as Hc.
  unfold rank. cbn [f_round f_mul f_div f_of_int binary64].
  change (PyFloat.of_int (Z.of_nat 0 - 1))
    with (S754_finite true 4503599627370496 (-52)).
  unfold PyFloat.mul, PyFloat.prec, PyFloat.emax.
  destruct (SFdiv 53 1024 p (PyFloat.of_int 100))
    as [s|s| |s mc ec]; try contradiction; [reflexivity|].
  destruct s; [contradiction|]. destruct Hc as [Hec Hmc].
  unfold SFmul.
  change (xorb false true) with true. rewrite round_aux_sign.
  assert (Hb : PyFloat.below
                 (binary_round_aux 53 1024 false (Zpos (mc * 4503599627370496))
                    (ec + -52) loc_Exact)
                 4503599627370496 (-52)).
  { apply round_aux_below.
    - lia.
    - reflexivity.
    - lia.
    - rewrite Pos2Z.inj_mul.
      replace (-52 - (ec + -52)) with (-52 - ec + 52) by lia.
      rewrite Z.pow_add_r by lia. change (2 ^ 52) with 4503599627370496. nia.
    - reflexivity. }
  destruct (binary_round_aux 53 1024 false (Zpos (mc * 4503599627370496))
              (ec + -52) loc_Exact) as [s|s| |s mr er]; try contradiction;
    reflexivity.
Qed.

End EmptyFacts.

(** On an empty list [pct] raises [IndexError] for every percentile
    from 0 to 100: the index is computed (it is [round(-p/100)]) and
    the empty list has no element to give. *)
Theorem pct_empty_raises (p : PyFloat.float) :
  PyFloat.valid p = true ->
  PyFloat.leb (PyFloat.of_int 0) p = true ->
  PyFloat.leb p (PyFloat.of_int 100) = true ->
  Latency.pct [] p = Raise IndexError.
Proof.
  intros Hv H0 H100. unfold Latency.pct.
  pose proof (EmptyFacts.rank_empty p Hv H0 H100) as Hr.
  apply returns_true in Hr as [k Hk].
  change (length (Latency.sorted [])) with 0%nat. rewrite Hk. simpl.
  apply PctFacts.getitem_nil.
Qed.

Lemma pct_empty_raises_sample :
  Latency.pct [] (PyFloat.of_int 95) = Raise IndexError.
Proof.
  apply pct_empty_raises; vm_compute; reflexivity.
Defined.

(** ** More on the metrics parser *)

Module FamilyFacts.
Import PyStr Metrics MetricsFacts Family.

Lemma parse_lines_app l1 : forall l2 metrics,
  parse_lines metrics (l1 ++ l2)
  = (metrics' ← parse_lines metrics l1; parse_lines metrics' l2).
Proof.
  induction l1 as [|line l1 IH]; intros l2 metrics; [reflexivity|].
  simpl. destruct (parse_line metrics line) as [m1|e]; simpl; [apply IH|reflexivity].
Qed.

(** What a turn of the loop that returns has done. *)
Lemma parse_line_cases metrics line metrics' :
  parse_line metrics line = Ok metrics' ->
  (line_name line = None /\ metrics' = metrics)
  \/ exists name v,
       line_name line = Some name /\ line_value line = Some v
       /\ ((contains line "{" = true
            /\ ((metrics !! name = None /\ metrics' = <[name := MList [v]]> metrics)
                \/ exists vs, metrics !! name = Some (MList vs)
                              /\ metrics' = <[name := MList (vs ++ [v])]> metrics))
           \/ (contains line "{" = false /\ metrics' = <[name := MFloat v]> metrics)).
Proof.
  unfold parse_line, line_name, line_value, value_token, to_float.
  destruct (startswith line "auth_") eqn:Hl; [|intros [= <-]; auto].
  destruct (contains line "{").
  - rewrite getitem_last.
    destruct (last (split line)) as [tok|]; [|discriminate]. simpl.
    destruct (PyFloat.of_string tok) as [v|]; [|discriminate]. simpl.
    destruct (metrics !! label_name line) as [[vs|x]|] eqn:E; try discriminate;
      intros [= <-]; right; exists (label_name line), v;
      repeat split; left; split; eauto.
  - rewrite (auth_not_comment line Hl). simpl.
    destruct (split line) as [|name [|tok [|? ?]]].
    + intros [= <-]; auto.
    + intros [= <-]; auto.
    + simpl. destruct (PyFloat.of_string tok) as [v|]; [|discriminate]. simpl.
      intros [= <-]. right. exists name, v. repeat split. right. auto.
    + intros [= <-]; auto.
Qed.

Lemma family_snoc name lines line :
  family name (lines ++ [line])
  = family name lines ++ (if decide (line_name line = Some name) then [line] else []).
Proof.
  unfold family. now rewrite filter_app.
Qed.

Lemma reads_step lines metrics line metrics' :
  reads lines metrics -> parse_line metrics line = Ok metrics' ->
  reads (lines ++ [line]) metrics'.
Proof.
  intros Hinv Hstep name.
  apply parse_line_cases in Hstep
    as [[Hn ->]|(n & v & Hn & Hv & [[Hb [[Hnone ->]|(vs & Hsome & ->)]]|[Hb ->]])].
  - (* the line is not read *)
    specialize (Hinv name). rewrite family_snoc.
    destruct (decide (line_name line = Some name)) as [E|_]; [congruence|].
    rewrite app_nil_r.
    destruct (metrics !! name) as [[vs|x]|]; auto.
    destruct Hinv as (before & l & after & -> & H1 & H2 & H3 & H4).
    exists before, l, (after ++ [line]). rewrite <- app_assoc. simpl.
    repeat split; auto. rewrite family_snoc, H4.
    destruct (decide (line_name line = Some name)); [congruence|reflexivity].
  - (* first labelled line of its name *)
    rewrite family_snoc.
    destruct (decide (n = name)) as [->|Hne].
    + rewrite lookup_insert_eq. specialize (Hinv name). rewrite Hnone in Hinv.
      rewrite Hinv. destruct (decide (line_name line = Some name)); [|congruence].
      simpl. rewrite Hv. split; [repeat constructor; assumption|reflexivity].
    + rewrite lookup_insert_ne by assumption. specialize (Hinv name).
      destruct (decide (line_name line = Some name)) as [E|_]; [congruence|].
      rewrite app_nil_r.
      destruct (metrics !! name) as [[vs|x]|]; auto.
      destruct Hinv as (before & l & after & -> & H1 & H2 & H3 & H4).
      exists before, l, (after ++ [line]). rewrite <- app_assoc. simpl.
      repeat split; auto. rewrite family_snoc, H4.
      destruct (decide (line_name line = Some name)); [congruence|reflexivity].
  - (* a further labelled line *)
    rewrite family_snoc.
    destruct (decide (n = name)) as [->|Hne].
    + rewrite lookup_insert_eq. specialize (Hinv name). rewrite Hsome in Hinv.
      destruct Hinv as [Hall Hvals].
      destruct (decide (line_name line = Some name)); [|congruence].
      split.
      * apply Forall_app. split; [assumption|repeat constructor; assumption].
      * rewrite !map_app, Hvals. simpl. now rewrite Hv.
    + rewrite lookup_insert_ne by assumption. specialize (Hinv name).
      destruct (decide (line_name line = Some name)) as [E|_]; [congruence|].
      rewrite app_nil_r.
      destruct (metrics !! name) as [[vs'|x]|]; auto.
      destruct Hinv as (before & l & after & -> & H1 & H2 & H3 & H4).
      exists before, l, (after ++ [line]). rewrite <- app_assoc. simpl.
      repeat split; auto. rewrite family_snoc, H4.
      destruct (decide (line_name line = Some name)); [congruence|reflexivity].
  - (* a line without labels *)
    destruct (decide (n = name)) as [->|Hne].
    + rewrite lookup_insert_eq. exists lines, line, []. repeat split; auto.
    + rewrite lookup_insert_ne by assumption. specialize (Hinv name).
      rewrite family_snoc.
      destruct (decide (line_name line = Some name)) as [E|_]; [congruence|].
      rewrite app_nil_r.
      destruct (metrics !! name) as [[vs|x]|]; auto.
      destruct Hinv as (before & l & after & -> & H1 & H2 & H3 & H4).
      exists before, l, (after ++ [line]). rewrite <- app_assoc. simpl.
      repeat split; auto. rewrite family_snoc, H4.
      destruct (decide (line_name line = Some name)); [congruence|reflexivity].
Qed.

Lemma reads_parse lines : forall metrics,
  parse_lines ∅ lines = Ok metrics -> reads lines metrics.
Proof.
  induction lines as [|line lines IH] using rev_ind; intros metrics H.
  - injection H as <-. intros name. now rewrite lookup_empty.
  - rewrite parse_lines_app in H. apply bind_Ok in H as (m1 & H1 & H).
    simpl in H. apply bind_Ok in H as (m2 & H2 & [= <-]).
    eapply reads_step; eauto.
Qed.

End FamilyFacts.

(** A metric with labels is read back as the values of all the lines
    of its name, in the order of the text, the labels dropped; every
    line of that name has labels. *)
Theorem labelled_values_in_order text metrics name values :
  Metrics.parse text = Ok metrics ->
  metrics !! name = Some (MList values) ->
  Forall (fun line => PyStr.contains line "{" = true)
         (Family.family name (PyStr.split_on PyStr.newline text))
  /\ map Family.line_value (Family.family name (PyStr.split_on PyStr.newline text))
     = map Some values.
Proof.
  intros Hparse Hname. apply FamilyFacts.reads_parse in Hparse.
  specialize (Hparse name). now rewrite Hname in Hparse.
Qed.

Lemma labelled_values_sample :
  map Family.line_value
      (Family.family "auth_h" (PyStr.split_on PyStr.newline Samples.exposition))
  = map Some [PyFloat.of_int 3; PyFloat.of_ratio false 9 2].
Proof.
  refine (proj2 (labelled_values_in_order Samples.exposition
                   Samples.exposition_metrics "auth_h" _ _ _)).
  - vm_compute. reflexivity.
  - vm_compute. reflexivity.
Defined.

(** A metric without labels is read back as the value of the last
    line of its name: a later line overwrites an earlier one, and
    lines with labels before it are forgotten. *)
Theorem simple_metric_last_wins text metrics name x :
  Metrics.parse text = Ok metrics ->
  metrics !! name = Some (MFloat x) ->
  exists before line after,
    PyStr.split_on PyStr.newline text = before ++ line :: after
    /\ Metrics.line_name line = Some name
    /\ PyStr.contains line "{" = false
    /\ Family.line_value line = Some x
    /\ Family.family name after = [].
Proof.
  intros Hparse Hname. apply FamilyFacts.reads_parse in Hparse.
  specialize (Hparse name). now rewrite Hname in Hparse.
Qed.

Lemma simple_metric_sample :
  exists before line after,
    PyStr.split_on PyStr.newline Samples.exposition = before ++ line :: after
    /\ Metrics.line_name line = Some "auth_login_total"
    /\ PyStr.contains line "{" = false
    /\ Family.line_value line = Some (PyFloat.of_int 42)
    /\ Family.family "auth_login_total" after = [].
Proof.
  apply (simple_metric_last_wins Samples.exposition Samples.exposition_metrics).
  - vm_compute. reflexivity.
  - vm_compute. reflexivity.
Defined.

(** When the parse completes, the keys of the snapshot are exactly
    the names of the lines the loop reads: no line that is read is
    lost. *)
Theorem snapshot_keys_are_line_names text metrics name :
  Metrics.parse text = Ok metrics ->
  (is_Some (metrics !! name) <->
   exists line, line ∈ PyStr.split_on PyStr.newline text
                /\ Metrics.line_name line = Some name).
Proof.
  intros Hparse. split.
  - intros Hk. unfold Metrics.parse in Hparse.
    destruct (MetricsFacts.parse_lines_keys _ _ _ name Hparse Hk) as [Hin|Hl].
    + rewrite lookup_empty in Hin. now destruct Hin.
    + exact Hl.
  - intros (line & Hin & Hn). apply FamilyFacts.reads_parse in Hparse.
    specialize (Hparse name).
    destruct (metrics !! name) as [m|] eqn:E; [eauto|exfalso].
    assert (Hf : line ∈ Family.family name (PyStr.split_on PyStr.newline text))
      by (apply list_elem_of_filter; auto).
    rewrite Hparse in Hf. now apply elem_of_nil in Hf.
Qed.

Lemma snapshot_keys_sample :
  is_Some (Samples.exposition_metrics !! "auth_h") <->
  exists line, line ∈ PyStr.split_on PyStr.newline Samples.exposition
               /\ Metrics.line_name line = Some "auth_h".
Proof.
  apply (snapshot_keys_are_line_names Samples.exposition).
  vm_compute. reflexivity.
Defined.

(** A family written first without labels and later with labels
    aborts the parse: the loop appends to what is by then a float. *)
Theorem mixed_family_aborts text before plain between labelled after name :
  PyStr.split_on PyStr.newline text
  = before ++ plain :: between ++ labelled :: after ->
  Metrics.line_name plain = Some name -> PyStr.contains plain "{" = false ->
  Metrics.line_name labelled = Some name -> PyStr.contains labelled "{" = true ->
  returns (Metrics.parse text) = false.
Proof.
  intros Hsplit Hp Hpb Hl Hlb.
  destruct (returns (Metrics.parse text)) eqn:Hr; [exfalso|reflexivity].
  apply returns_true in Hr as [metrics Hparse].
  unfold Metrics.parse in Hparse. rewrite Hsplit in Hparse.
  replace (before ++ plain :: between ++ labelled :: after)
    with ((before ++ plain :: between) ++ labelled :: after) in Hparse
    by (rewrite <- app_assoc; reflexivity).
  rewrite FamilyFacts.parse_lines_app in Hparse.
  apply bind_Ok in Hparse as (m1 & H1 & H2). simpl in H2.
  apply bind_Ok in H2 as (m2 & Hstep & _).
  apply FamilyFacts.reads_parse in H1. specialize (H1 name).
  assert (Hin : plain ∈ Family.family name (before ++ plain :: between)).
  { apply list_elem_of_filter. split; [assumption|].
    apply elem_of_app. right. constructor. }
  apply FamilyFacts.parse_line_cases in Hstep
    as [[Hn _]|(n & v & Hn & _ & [[_ Hcase]|[Hb _]])]; [congruence| |congruence].
  assert (n = name) by congruence. subst n.
  destruct Hcase as [[Hnone _]|(vs & Hsome & _)].
  - rewrite Hnone in H1. rewrite H1 in Hin. now apply elem_of_nil in Hin.
  - rewrite Hsome in H1. destruct H1 as [Hall _].
    rewrite Forall_forall in Hall. specialize (Hall plain Hin). congruence.
Qed.

Lemma mixed_family_sample :
  returns (Metrics.parse Samples.mixed_exposition) = false.
Proof.
  apply (mixed_family_aborts Samples.mixed_exposition [] "auth_up 1" []
           "auth_up{zone=a} 1" [] "auth_up"); vm_compute; reflexivity.
Defined.

(** ** More on the scenarios of [pressure-test.py] *)

Module RunFacts.
Import Harness HarnessFacts.

(** The prints under [if sample_jwk:] come through when the first
    response has no ["keys"], a falsy one, or a list that starts with
    a dict. *)
Lemma print_sample_returns members :
  returns (print_sample members) = true <->
  match PyJson.lookup members "keys" with
  | None => True
  | Some ks =>
      PyJson.truthy ks = false
      \/ exists fields rest, ks = JArr (JObj fields :: rest)
  end.
Proof.
  unfold print_sample.
  destruct (PyJson.lookup members "keys") as [ks|]; [|now split].
  destruct (PyJson.truthy ks) eqn:Ht; [|split; auto].
  split.
  - intros H. right.
    destruct ks as [|b|n|x|s|[|[| | | | | |fields] rest]|ms]; try discriminate H;
      try (destruct s; discriminate H); eauto.
  - intros [H|(fields & rest & ->)]; [discriminate|reflexivity].
Qed.

(** The names of the results, in the order the scenarios leave them. *)
Lemma jwks_name w concurrency results results' :
  test_jwks_endpoint_load w concurrency results = Ok results' ->
  exists r, results' = results ++ [r] /\ name r = "JWKS Load Test".
Proof.
  unfold test_jwks_endpoint_load. cbv zeta. intros H.
  bind_inv H. bind_inv H. bind_inv H. injection H as <-.
  eexists. split; reflexivity.
Qed.

Lemma hash_name py_str w beyond_limit results results' :
  test_hash_concurrency_limit py_str w beyond_limit results = Ok results' ->
  exists r, results' = results ++ [r] /\ name r = "Hash Concurrency Limiting".
Proof.
  unfold test_hash_concurrency_limit. cbv zeta. intros H.
  bind_inv H. bind_inv H. bind_inv H. injection H as <-.
  eexists. split; reflexivity.
Qed.

Lemma replay_name w results results' :
  test_replay_detection_with_ip w results = Ok results' ->
  results' = results
  \/ exists r, results' = results ++ [r]
               /\ name r = "Replay Detection with Client IP".
Proof.
  unfold test_replay_detection_with_ip. cbv zeta. intros H.
  bind_inv H. destruct (negb _); [injection H as <-; auto|].
  bind_inv H. bind_inv H. bind_inv H.
  destruct (negb _); [injection H as <-; auto|].
  bind_inv H. bind_inv H. bind_inv H. injection H as <-.
  right. eexists. split; reflexivity.
Qed.

Lemma rate_name w results results' :
  test_rate_limiting w results = Ok results' ->
  results' = results
  \/ exists r, results' = results ++ [r] /\ name r = "Rate Limiting".
Proof.
  unfold test_rate_limiting. cbv zeta. intros H.
  bind_inv H. destruct (negb _); [injection H as <-; auto|].
  bind_inv H. injection H as <-. right. eexists. split; reflexivity.
Qed.

Lemma metrics_name w results results' :
  validate_metrics w results = Ok results' ->
  exists r, results' = results ++ [r] /\ name r = "Metrics Validation".
Proof.
  unfold validate_metrics. cbv zeta. intros H.
  bind_inv H. injection H as <-. eexists. split; reflexivity.
Qed.

End RunFacts.

(** The JWKS scenario raises instead of reporting a failure in two
    cases: when the elapsed time is zero (the rate divides by it), and
    when the first response is a dict whose ["keys"] is truthy without
    being a list that starts with a dict (the sample is printed from
    [keys[0]]).  In every other case it returns. *)
Theorem jwks_scenario_returns_iff w concurrency results :
  returns (PyFmt.float_of_int concurrency) = true ->
  (returns (Harness.test_jwks_endpoint_load w concurrency results) = true
   <->
   (forall s, Harness.jwks_time w <> S754_zero s)
   /\ match Harness.jwks_tasks w concurrency with
      | Ok (JObj members) :: _ =>
          match PyJson.lookup members "keys" with
          | None => True
          | Some ks =>
              PyJson.truthy ks = false
              \/ exists fields rest, ks = JArr (JObj fields :: rest)
          end
      | _ => True
      end).
Proof.
  intros Hc. apply returns_true in Hc as [c Hc].
  unfold Harness.test_jwks_endpoint_load. cbv zeta. rewrite Hc. simpl.
  rewrite gather_return_exceptions_id.
  assert (Hdiv : returns (PyFloat.div c (Harness.jwks_time w)) = true
                 <-> forall s, Harness.jwks_time w <> S754_zero s).
  { unfold PyFloat.div. destruct (Harness.jwks_time w); simpl;
      split; try discriminate; try reflexivity; intros H; try congruence.
    now destruct (H s). }
  destruct (PyFloat.div c (Harness.jwks_time w)) as [rate|e]; simpl.
  - assert (Hz : forall s, Harness.jwks_time w <> S754_zero s) by now apply Hdiv.
    destruct (Harness.jwks_tasks w concurrency) as [|[[| | | | | |members]|e] rest];
      simpl; try (split; [intros _; split; [exact Hz|exact I]|reflexivity]).
    destruct members as [|m ms]; simpl.
    + split; [intros _; split; [exact Hz|exact I]|reflexivity].
    + pose proof (RunFacts.print_sample_returns (m :: ms)) as Hp.
      destruct (Harness.print_sample (m :: ms)) as [[]|e]; simpl in *.
      * split; [intros _; split; [exact Hz|now apply Hp]|reflexivity].
      * split; [discriminate|]. intros [_ H]. now apply Hp in H.
  - split; [discriminate|]. intros [Hz _]. now apply Hdiv in Hz.
Qed.

Lemma jwks_scenario_returns_sample :
  returns (Harness.test_jwks_endpoint_load Samples.passing 100 []) = true
  <->
  (forall s, Harness.jwks_time Samples.passing <> S754_zero s)
  /\ match Harness.jwks_tasks Samples.passing 100 with
     | Ok (JObj members) :: _ =>
         match PyJson.lookup members "keys" with
         | None => True
         | Some ks =>
             PyJson.truthy ks = false
             \/ exists fields rest, ks = JArr (JObj fields :: rest)
         end
     | _ => True
     end.
Proof.
  apply jwks_scenario_returns_iff. vm_compute. reflexivity.
Defined.

(** A run that reaches the summary reports between three and five
    results, in the order of the scenarios.  The JWKS, hash and
    metrics scenarios always report.  The result of the replay
    scenario is missing exactly when its registration is not answered
    200 or its login gives no refresh token, that of the rate-limit
    scenario exactly when its registration is not answered 200. *)
Theorem run_reports_three_to_five py_str w results :
  Harness.run_scenarios py_str w [] = Ok results ->
  exists jwks hash replay rate metrics reg_replay reg_rate,
    results = jwks :: hash :: replay ++ rate ++ [metrics]
    /\ Harness.name jwks = "JWKS Load Test"
    /\ Harness.name hash = "Hash Concurrency Limiting"
    /\ Harness.name metrics = "Metrics Validation"
    /\ (replay = []
        \/ exists r, replay = [r]
                     /\ Harness.name r = "Replay Detection with Client IP")
    /\ (rate = [] \/ exists r, rate = [r] /\ Harness.name r = "Rate Limiting")
    /\ Harness.replay_register w = Ok reg_replay
    /\ Harness.rate_register w = Ok reg_rate
    /\ (replay = [] <->
        status reg_replay <> 200%Z
        \/ exists login body token,
             Harness.replay_login w = Ok login /\ json login = Ok body
             /\ PyJson.get body "refresh_token" = Ok token
             /\ PyJson.truthy token = false)
    /\ (rate = [] <-> status reg_rate <> 200%Z)
    /\ 3 <= length results <= 5.
Proof.
  intros H.
  apply HarnessFacts.run_scenarios_split in H
    as (a & b & c & d & m & H1 & H2 & H3 & H4 & H5 & Hc & Hd & ->).
  apply RunFacts.jwks_name in H1 as (a' & [= ->] & Na).
  apply RunFacts.hash_name in H2 as (b' & [= ->] & Nb).
  apply RunFacts.metrics_name in H5 as (m' & [= ->] & Nm).
  destruct (Harness.replay_register w) as [reg3|e3] eqn:Hreg3;
    [|unfold Harness.test_replay_detection_with_ip in H3;
      rewrite Hreg3 in H3; discriminate].
  destruct (Harness.rate_register w) as [reg4|e4] eqn:Hreg4;
    [|unfold Harness.test_rate_limiting in H4;
      rewrite Hreg4 in H4; discriminate].
  exists a', b', c, d, m', reg3, reg4.
  split; [reflexivity|]. split; [exact Na|]. split; [exact Nb|].
  split; [exact Nm|].
  split; [apply RunFacts.replay_name in H3 as [->|(r & -> & Nr)]; eauto|].
  split; [apply RunFacts.rate_name in H4 as [->|(r & -> & Nr)]; eauto|].
  split; [reflexivity|]. split; [reflexivity|].
  split; [|split].
  - pose proof (HarnessFacts.replay_none_iff w []) as Hiff. split.
    + intros ->. apply Hiff in H3 as (reg & Hreg & Hcond). congruence.
    + intros Hcond.
      assert (H0 : Harness.test_replay_detection_with_ip w [] = Ok [])
        by (apply Hiff; eauto).
      congruence.
  - pose proof (HarnessFacts.rate_none_iff w []) as Hiff. split.
    + intros ->. apply Hiff in H4 as (reg & Hreg & Hcond). congruence.
    + intros Hcond.
      assert (H0 : Harness.test_rate_limiting w [] = Ok [])
        by (apply Hiff; eauto).
      congruence.
  - simpl. rewrite !length_app. simpl. lia.
Qed.

Lemma run_reports_sample :
  exists jwks hash replay rate metrics,
    Harness.name jwks = "JWKS Load Test"
    /\ Harness.name hash = "Hash Concurrency Limiting"
    /\ Harness.name metrics = "Metrics Validation"
    /\ length (jwks :: hash :: replay ++ rate ++ [metrics]) = 5%nat.
Proof.
  destruct (Harness.run_scenarios Samples.no_str Samples.passing []) as [rs|e] eqn:E;
    [|vm_compute in E; discriminate].
  destruct (run_reports_three_to_five Samples.no_str Samples.passing rs E)
    as (a & b & c & d & m & reg3 & reg4 & Hrs & Na & Nb & Nm & _).
  exists a, b, c, d, m. repeat split; try assumption.
  rewrite <- Hrs. vm_compute in E. injection E as <-. reflexivity.
Defined.

(** ** More on [test-hash-concurrency-extreme.py] *)

Module LimiterFacts.
Import Dispatch DispatchFacts.

(** While a task has not started, fewer requests are in flight than
    there are tasks. *)
Lemma in_flight_pending s i :
  tasks s !! i = Some Pending -> in_flight s < length (tasks s).
Proof.
  intros Hi. unfold in_flight.
  pose proof (in_flight_insert _ _ _ InFlight Hi) as E.
  pose proof (length_filter (fun p => p = InFlight) (<[i := InFlight]> (tasks s))) as L.
  rewrite length_insert in L. unfold weight in E. simpl in E. lia.
Qed.

Lemma no_waiting_insert (l : list phase) i p :
  p <> Waiting -> Forall (fun q => q <> Waiting) l ->
  Forall (fun q => q <> Waiting) (<[i := p]> l).
Proof.
  intros Hp Hl. apply Forall_insert; assumption.
Qed.

(** With at least as many permits as tasks a gated step is an
    ungated one: no task is parked. *)
Lemma step_full c s t s' :
  permits s + in_flight s = c -> length (tasks s) <= c ->
  Forall (fun q => q <> Waiting) (tasks s) ->
  step_gated s t = Some s' ->
  Forall (fun q => q <> Waiting) (tasks s')
  /\ step_ungated {| permits := c; tasks := tasks s |} t
     = Some {| permits := c; tasks := tasks s' |}.
Proof.
  intros Hperm Hlen Hnw. unfold step_gated, step_ungated, set_phase.
  destruct t as [i|i|i]; simpl;
    destruct (tasks s !! i) as [[| | |]|] eqn:Hi;
    destruct (permits s) as [|k] eqn:Hp; intros H; try discriminate H.
  - pose proof (in_flight_pending s i Hi). lia.
  - injection H as <-. simpl. split; [|reflexivity].
    apply no_waiting_insert; [discriminate|assumption].
  - rewrite Forall_forall in Hnw.
    destruct (Hnw Waiting); [|reflexivity].
    eapply list_elem_of_lookup_2, Hi.
  - injection H as <-. simpl. split; [|reflexivity].
    apply no_waiting_insert; [discriminate|assumption].
  - injection H as <-. simpl. split; [|reflexivity].
    apply no_waiting_insert; [discriminate|assumption].
Qed.

Lemma run_full c schedule : forall s s',
  permits s + in_flight s = c -> length (tasks s) <= c ->
  Forall (fun q => q <> Waiting) (tasks s) ->
  run step_gated s schedule = Some s' ->
  Forall (fun q => q <> Waiting) (tasks s')
  /\ run step_ungated {| permits := c; tasks := tasks s |} schedule
     = Some {| permits := c; tasks := tasks s' |}.
Proof.
  induction schedule as [|t rest IH]; intros s s' Hperm Hlen Hnw H; simpl in H.
  - injection H as <-. auto.
  - destruct (step_gated s t) as [s1|] eqn:E; [|discriminate]. simpl in H.
    destruct (step_full c s t s1 Hperm Hlen Hnw E) as [Hnw1 Hu].
    destruct (step_gated_invariant _ _ _ E) as [E1 E2].
    simpl. rewrite Hu. simpl.
    apply (IH s1 s'); try assumption; [lia|now rewrite E2].
Qed.

(** Starting the tasks one after the other puts them all in flight. *)
Lemma start_one c j k :
  j + S k <= c ->
  step_gated {| permits := c - j;
                tasks := replicate j InFlight ++ replicate (S k) Pending |}
             (Start j)
  = Some {| permits := c - S j;
            tasks := replicate (S j) InFlight ++ replicate k Pending |}.
Proof.
  intros Hjk. unfold step_gated, set_phase. cbn [tasks permits].
  assert (Hlook : (replicate j InFlight ++ replicate (S k) Pending) !! j = Some Pending).
  { rewrite lookup_app_r by (rewrite length_replicate; lia).
    now rewrite length_replicate, Nat.sub_diag. }
  rewrite Hlook.
  destruct (c - j) as [|p] eqn:Hp; [lia|].
  f_equal. f_equal; [lia|].
  rewrite insert_app_r_alt by (rewrite length_replicate; lia).
  rewrite length_replicate, Nat.sub_diag.
  now rewrite (replicate_S_end j InFlight), <- app_assoc.
Qed.

Lemma start_all c k : forall j,
  j + k <= c ->
  run step_gated {| permits := c - j;
                    tasks := replicate j InFlight ++ replicate k Pending |}
      (map Start (seq j k))
  = Some {| permits := c - j - k; tasks := replicate (j + k) InFlight |}.
Proof.
  induction k as [|k IH]; intros j Hjk.
  - simpl. rewrite app_nil_r, Nat.add_0_r, Nat.sub_0_r. reflexivity.
  - cbn [seq map run]. rewrite start_one by assumption.
    cbn [mbind option_bind].
    rewrite (IH (S j)) by lia. f_equal. f_equal; [lia|f_equal; lia].
Qed.

Lemma in_flight_all n : length (filter (fun p => p = InFlight) (replicate n InFlight)) = n.
Proof.
  induction n as [|n IH]; [reflexivity|].
  cbn [replicate]. rewrite filter_cons_True by reflexivity.
  cbn [length]. now rewrite IH.
Qed.

End LimiterFacts.

(** The semaphore of [test-hash-concurrency-extreme.py] has as many
    permits as there are tasks ([Semaphore(CONCURRENCY)] for
    [CONCURRENCY] tasks), so it never holds a request back: whatever
    the schedule, no task is ever parked, the batch goes through the
    same states as one without a semaphore, and all the requests can
    be in flight at once. *)
Theorem full_semaphore_never_waits c n schedule s :
  n <= c ->
  Dispatch.run Dispatch.step_gated (Dispatch.init c n) schedule = Some s ->
  Forall (fun p => p <> Dispatch.Waiting) (Dispatch.tasks s)
  /\ Dispatch.run Dispatch.step_ungated (Dispatch.init c n) schedule
     = Some {| Dispatch.permits := c; Dispatch.tasks := Dispatch.tasks s |}
  /\ exists s',
       Dispatch.run Dispatch.step_gated (Dispatch.init c n)
         (map Dispatch.Start (seq 0 n)) = Some s'
       /\ Dispatch.in_flight s' = n.
Proof.
  intros Hn H.
  destruct (LimiterFacts.run_full c schedule (Dispatch.init c n) s) as [Hnw Hu];
    try assumption.
  - rewrite DispatchFacts.init_in_flight. simpl. lia.
  - simpl. now rewrite length_replicate.
  - simpl. apply Forall_replicate. discriminate.
  - split; [assumption|]. split; [exact Hu|].
    pose proof (LimiterFacts.start_all c n 0 ltac:(lia)) as Hs.
    simpl in Hs. rewrite Nat.sub_0_r in Hs. unfold Dispatch.init.
    eexists. split; [exact Hs|].
    unfold Dispatch.in_flight. simpl. apply LimiterFacts.in_flight_all.
Qed.

Lemma full_semaphore_sample :
  exists s',
    Dispatch.run Dispatch.step_gated
      (Dispatch.init Extreme.CONCURRENCY Extreme.CONCURRENCY)
      (map Dispatch.Start (seq 0 Extreme.CONCURRENCY)) = Some s'
    /\ Dispatch.in_flight s' = Extreme.CONCURRENCY.
Proof.
  refine (proj2 (proj2 (full_semaphore_never_waits
                          Extreme.CONCURRENCY Extreme.CONCURRENCY
                          [Dispatch.Start 0; Dispatch.Start 1; Dispatch.Finish 0]
                          _ _ _))).
  - unfold Extreme.CONCURRENCY. lia.
  - vm_compute. reflexivity.
Defined.

Module ReportFacts.

Lemma gather_map {A B} (g : A -> result B) (l : list A) : forall values,
  gather (map g l) = Ok values -> Forall2 (fun x v => g x = Ok v) l values.
Proof.
  induction l as [|x l IH]; intros values H; simpl in H.
  - injection H as <-. constructor.
  - apply bind_Ok in H as (a & Ha & H).
    apply bind_Ok in H as (vs & Hvs & H).
    injection H as <-. constructor; [assumption|now apply IH].
Qed.

Lemma count_cons {A} (f : A -> bool) x l :
  count f (x :: l) = ((if f x then 1 else 0) + count f l)%Z.
Proof.
  unfold count. rewrite filter_cons.
  destruct (decide (f x = true)) as [E|E].
  - rewrite E. simpl length. lia.
  - apply not_true_is_false in E. rewrite E. lia.
Qed.

Lemma count_Forall2 {A B} (P : A -> bool) (Q : B -> bool) l values :
  Forall2 (fun x v => Q v = P x) l values -> count Q values = count P l.
Proof.
  induction 1 as [|x v l values E _ IH]; [reflexivity|].
  now rewrite !count_cons, E, IH.
Qed.

Lemma count_exclusive {A} (P Q R : A -> bool) l :
  (forall x, (if P x then 1 else 0) + (if Q x then 1 else 0)
             + (if R x then 1 else 0) <= 1)%Z ->
  (count P l + count Q l + count R l <= Z.of_nat (length l))%Z.
Proof.
  intros Hex. induction l as [|x l IH]; [unfold count; simpl; lia|].
  rewrite !count_cons. specialize (Hex x). simpl length. lia.
Qed.

(** What a registration task hands to the batch when it returns. *)
Lemma register_user_outcome resp st body :
  Extreme.register_user resp = Ok (st, body) ->
  (exists r, resp = Ok r /\ json r = Ok body /\ st = status r)
  \/ (st = 0%Z
      /\ match resp with
         | Ok r => match json r with Ok _ => False | Raise _ => True end
         | Raise _ => True
         end).
Proof.
  unfold Extreme.register_user. destruct resp as [r|e]; simpl.
  - destruct (json r) as [b|e] eqn:Hj; simpl.
    + intros [= <- <-]. left. exists r. auto.
    + destruct e; simpl; intros [= <- <-]; right; auto.
  - destruct e; simpl; intros [= <- <-]; right; auto.
Qed.

End ReportFacts.

(** The [Errors/Timeouts] count of the report is the number of
    requests that failed on the client side (a timeout, a connection
    error, a body that is not JSON), provided the server never answers
    with status 0; a request is counted at most once among
    [Succeeded], [Rate Limited] and [Errors/Timeouts]. *)
Theorem extreme_errors_are_failures py_str net metrics rep :
  (forall i r, net i = Ok r -> status r <> 0%Z) ->
  ExtremeRun.main py_str net metrics = Ok rep ->
  ExtremeRun.errors rep
  = count (fun i => match net i with
                    | Ok r => match json r with Ok _ => false | Raise _ => true end
                    | Raise _ => true
                    end) (seq 0 Extreme.CONCURRENCY)
  /\ (ExtremeRun.successes rep + ExtremeRun.rate_limited rep + ExtremeRun.errors rep
      <= Z.of_nat Extreme.CONCURRENCY)%Z.
Proof.
  intros Hst H. unfold ExtremeRun.main in H.
  apply bind_Ok in H as (results & Hres & H). cbv zeta in H.
  apply bind_Ok in H as (resp & _ & H). injection H as <-. simpl.
  unfold Extreme.fan_out, Extreme.register_tasks in Hres.
  pose proof (gather_length _ _ Hres) as Hlen.
  rewrite length_map, length_seq in Hlen.
  apply ReportFacts.gather_map in Hres. split.
  - apply ReportFacts.count_Forall2.
    eapply Forall2_impl; [exact Hres|]. intros i [st body] Hi. simpl in Hi.
    apply ReportFacts.register_user_outcome in Hi
      as [(r & Hr & Hj & ->)|[-> Hfail]].
    + rewrite Hr, Hj. apply Z.eqb_neq. exact (Hst i r Hr).
    + destruct (net i) as [r|e]; [|reflexivity].
      destruct (json r); [contradiction|reflexivity].
  - rewrite <- Hlen. apply ReportFacts.count_exclusive.
    intros [st body].
    destruct (Z.eqb_spec st 200), (Z.eqb_spec st 429), (Z.eqb_spec st 0); lia.
Qed.

Lemma extreme_errors_sample :
  exists rep,
    ExtremeRun.main Samples.no_str Samples.flaky
      (Samples.reply 200 Samples.exposition (Raise (ContentError ""))) = Ok rep
    /\ ExtremeRun.errors rep = 67%Z.
Proof.
  destruct (ExtremeRun.main Samples.no_str Samples.flaky
              (Samples.reply 200 Samples.exposition (Raise (ContentError ""))))
    as [rep|e] eqn:E; [|vm_compute in E; discriminate].
  exists rep. split; [reflexivity|].
  destruct (extreme_errors_are_failures Samples.no_str Samples.flaky
              (Samples.reply 200 Samples.exposition (Raise (ContentError ""))) rep)
    as [He _].
  - intros i r. unfold Samples.flaky, Samples.replied, Samples.reply.
    destruct (i mod 3 =? 0)%nat; [discriminate|].
    destruct (i <? 50)%nat; intros [= <-]; discriminate.
  - exact E.
  - rewrite He. vm_compute. reflexivity.
Defined.

(** ** [test-external-validation.py]: decoding the key *)

Module Base64Facts.
Import PyBase64.
Local Open Scope Z_scope.

Lemma value_range c v :
  value c = Some v -> 0 <= v < 64 /\ Ascii.eqb c "=" = false /\ is_ascii c = true.
Proof.
  destruct c as [[] [] [] [] [] [] [] []]; vm_compute; intros [= <-];
    repeat split; congruence.
Qed.

(** The bytes the loop writes, as arithmetic. *)
Lemma pack_table :
  forallb (fun l => forallb (fun v =>
      (Z.lor (Z.shiftl l 2) (Z.shiftr v 4) mod 256 =? l * 4 + v / 16)
      && (Z.land v 15 =? v mod 16)
      && (Z.land v 3 =? v mod 4)
      && ((Z.lor (Z.shiftl (l mod 16) 4) (Z.shiftr v 2) mod 256
           =? (l mod 16) * 16 + v / 4))
      && ((Z.lor (Z.shiftl (l mod 4) 6) v mod 256 =? (l mod 4) * 64 + v)))
    (map Z.of_nat (seq 0 64))) (map Z.of_nat (seq 0 64)) = true.
Proof. vm_compute. reflexivity. Qed.

Lemma pack l v :
  0 <= l < 64 -> 0 <= v < 64 ->
  Z.lor (Z.shiftl l 2) (Z.shiftr v 4) mod 256 = l * 4 + v / 16
  /\ Z.land v 15 = v mod 16
  /\ Z.land v 3 = v mod 4
  /\ Z.lor (Z.shiftl (l mod 16) 4) (Z.shiftr v 2) mod 256 = (l mod 16) * 16 + v / 4
  /\ Z.lor (Z.shiftl (l mod 4) 6) v mod 256 = (l mod 4) * 64 + v.
Proof.
  intros Hl Hv. pose proof pack_table as H.
  rewrite forallb_forall in H.
  assert (Hin : forall x, 0 <= x < 64 -> In x (map Z.of_nat (seq 0 64))).
  { intros x Hx. apply in_map_iff. exists (Z.to_nat x).
    split; [lia|]. apply in_seq. lia. }
  specialize (H l (Hin l Hl)). rewrite forallb_forall in H.
  specialize (H v (Hin v Hv)).
  repeat (apply andb_true_iff in H as [H ?]).
  repeat split; now apply Z.eqb_eq.
Qed.

Lemma from_bytes_snoc out b : from_bytes (out ++ [b]) = from_bytes out * 256 + b.
Proof. unfold from_bytes. now rewrite fold_left_app. Qed.

(** Reading characters of the alphabet: the bytes written and the
    bits that wait make up the numeral read so far. *)
Lemma a2b_digits ds : forall tail qp left pads out,
  Forall (fun c => is_Some (value c)) ds ->
  (qp < 4)%nat -> 0 <= left < 2 ^ waiting qp ->
  exists qp' left' out',
    a2b (ds ++ tail) qp left pads out
    = a2b tail qp' left' (match ds with [] => pads | _ => 0%nat end) out'
    /\ qp' = ((qp + length ds) mod 4)%nat
    /\ 0 <= left' < 2 ^ waiting qp'
    /\ from_bytes out' * 2 ^ waiting qp' + left'
       = fold_left (fun acc c => acc * 64 + default 0 (value c)) ds
                   (from_bytes out * 2 ^ waiting qp + left).
Proof.
  induction ds as [|c ds IH]; intros tail qp left pads out Hds Hqp Hleft.
  - exists qp, left, out. split; [reflexivity|]. split.
    + cbn [length]. now rewrite Nat.add_0_r, Nat.mod_small by lia.
    + split; [assumption|reflexivity].
  - apply Forall_cons in Hds as [[v Hv] Hds].
    destruct (value_range c v Hv) as (Hvr & Heq & _).
    cbn [app a2b fold_left]. rewrite Heq, Hv. cbn [default from_option id].
    destruct (pack (left mod 64) v (Z.mod_pos_bound left 64 eq_refl) Hvr)
      as (P1 & P2 & P3 & P4 & P5).
    destruct qp as [|[|[|[|?]]]]; try lia; cbn [waiting] in *.
    + destruct (IH tail 1%nat v 0%nat out Hds ltac:(lia) ltac:(cbn; lia))
        as (qp' & left' & out' & E & Hq & Hl & Hn).
      exists qp', left', out'. split; [|split; [|split]].
      * rewrite E. now destruct ds.
      * rewrite Hq. cbn [length]. f_equal; lia.
      * assumption.
      * rewrite Hn. cbn [waiting]. f_equal.
        change (2 ^ 0) with 1 in *. change (2 ^ 6) with 64. lia.
    + change (2 ^ 6) with 64 in *. rewrite (Z.mod_small left 64) in P1 by lia.
      rewrite P1, P2.
      destruct (IH tail 2%nat (v mod 16) 0%nat (out ++ [left * 4 + v / 16]) Hds
                  ltac:(lia)) as (qp' & left' & out' & E & Hq & Hl & Hn).
      { cbn. change (2 ^ 4) with 16. apply Z.mod_pos_bound. lia. }
      exists qp', left', out'. split; [|split; [|split]].
      * rewrite E. now destruct ds.
      * rewrite Hq. cbn [length]. f_equal; lia.
      * assumption.
      * rewrite Hn. cbn [waiting]. f_equal. rewrite from_bytes_snoc.
        change (2 ^ 4) with 16. change (2 ^ 6) with 64.
        pose proof (Z.div_mod v 16 ltac:(lia)). lia.
    + change (2 ^ 4) with 16 in *.
      assert (E16 : left mod 64 mod 16 = left)
        by (rewrite (Z.mod_small left 64) by lia; apply Z.mod_small; lia).
      rewrite (Z.mod_small left 64) in E16 by lia.
      rewrite (Z.mod_small left 64) in P4 by lia.
      rewrite (Z.mod_small left 16) in P4 by lia.
      rewrite P4, P3.
      destruct (IH tail 3%nat (v mod 4) 0%nat (out ++ [left * 16 + v / 4]) Hds
                  ltac:(lia)) as (qp' & left' & out' & E & Hq & Hl & Hn).
      { cbn. change (2 ^ 2) with 4. apply Z.mod_pos_bound. lia. }
      exists qp', left', out'. split; [|split; [|split]].
      * rewrite E. now destruct ds.
      * rewrite Hq. cbn [length]. f_equal; lia.
      * assumption.
      * rewrite Hn. cbn [waiting]. f_equal. rewrite from_bytes_snoc.
        change (2 ^ 2) with 4. change (2 ^ 4) with 16.
        pose proof (Z.div_mod v 4 ltac:(lia)). lia.
    + change (2 ^ 2) with 4 in *.
      rewrite (Z.mod_small left 64) in P5 by lia.
      rewrite (Z.mod_small left 4) in P5 by lia.
      rewrite P5.
      destruct (IH tail 0%nat 0 0%nat (out ++ [left * 64 + v]) Hds
                  ltac:(lia)) as (qp' & left' & out' & E & Hq & Hl & Hn).
      { cbn. lia. }
      exists qp', left', out'. split; [|split; [|split]].
      * rewrite E. now destruct ds.
      * rewrite Hq. cbn [length].
        replace (3 + S (length ds))%nat with (length ds + 1 * 4)%nat by lia.
        rewrite Nat.Div0.mod_add. reflexivity.
      * assumption.
      * rewrite Hn. cbn [waiting]. f_equal. rewrite from_bytes_snoc.
        change (2 ^ 0) with 1. change (2 ^ 2) with 4. lia.
Qed.

Lemma chars_length s : length (list_ascii_of_string s) = String.length s.
Proof. induction s as [|c s IH]; simpl; congruence. Qed.

Lemma chars_app s t :
  list_ascii_of_string (s +:+ t) = list_ascii_of_string s ++ list_ascii_of_string t.
Proof.
  induction s as [|c s IH]; [reflexivity|].
  change (String c s +:+ t) with (String c (s +:+ t)). simpl. congruence.
Qed.

Lemma chars_equals n :
  list_ascii_of_string (Federation.equals n) = replicate n "="%char.
Proof. induction n as [|n IH]; simpl; congruence. Qed.

Lemma fold_left_translate (l : list ascii) : forall a,
  fold_left (fun acc c => acc * 64 + default 0 (value c)) (map translate l) a
  = fold_left (fun acc c => acc * 64 + default 0 (digit c)) l a.
Proof. induction l as [|c l IH]; intros a; simpl; [reflexivity|apply IH]. Qed.

(** What the padding adds. *)
Lemma pad_spec s :
  Federation.pad s
  = s +:+ Federation.equals (match (String.length s mod 4)%nat with
                             | 0 => 0 | 1 => 3 | 2 => 2 | _ => 1
                             end)%nat.
Proof.
  unfold Federation.pad.
  replace (Z.of_nat (String.length s) mod 4)
    with (Z.of_nat (String.length s mod 4)) by (now rewrite Nat2Z.inj_mod).
  pose proof (Nat.mod_upper_bound (String.length s) 4 ltac:(lia)) as Hr.
  destruct (String.length s mod 4)%nat as [|[|[|[|?]]]]; try lia; simpl;
    try reflexivity.
  clear Hr. induction s as [|c s IH]; [reflexivity|].
  change (String c s +:+ "") with (String c (s +:+ "")). congruence.
Qed.

Lemma digit_ascii c : is_Some (digit c) -> is_ascii c = true.
Proof.
  destruct c as [[] [] [] [] [] [] [] []]; vm_compute; intros [v H];
    congruence.
Qed.

Lemma translate_equals n :
  map translate (replicate n "="%char) = replicate n "="%char.
Proof.
  induction n as [|n IH]; [reflexivity|].
  cbn [replicate map]. rewrite IH. reflexivity.
Qed.

End Base64Facts.

(** [b64_to_int] reads a string of base64 characters (the URL-safe
    alphabet, and ['+'] and ['/'] as well) as a numeral in base 64,
    most significant digit first, and drops the bits that do not fill
    a byte: four when [len % 4 == 2], two when [len % 4 == 3].  A
    length that is 1 more than a multiple of 4 raises [binascii.Error]
    (a [ValueError]); the padding it adds never does. *)
Theorem b64_to_int_reads_base64 s :
  Forall (fun c => is_Some (PyBase64.digit c)) (list_ascii_of_string s) ->
  Federation.b64_to_int s
  = match (String.length s mod 4)%nat with
    | 0%nat => Ok (PyBase64.numeral s)
    | 1%nat => Raise ValueError
    | 2%nat => Ok (PyBase64.numeral s / 16)%Z
    | _ => Ok (PyBase64.numeral s / 4)%Z
    end.
Proof.
  intros Hs. unfold Federation.b64_to_int, PyBase64.urlsafe_b64decode.
  rewrite Base64Facts.pad_spec, Base64Facts.chars_app, Base64Facts.chars_equals.
  set (k := match (String.length s mod 4)%nat with
            | 0 => 0 | 1 => 3 | 2 => 2 | _ => 1 end%nat).
  assert (Hascii : forallb PyBase64.is_ascii
                     (list_ascii_of_string s ++ replicate k "="%char) = true).
  { rewrite forallb_app. apply andb_true_iff. split.
    - apply forallb_forall. intros c Hc. apply Base64Facts.digit_ascii.
      rewrite Forall_forall in Hs. apply Hs. now apply list_elem_of_In.
    - apply forallb_forall. intros c Hc. apply list_elem_of_In in Hc.
      apply elem_of_replicate in Hc as [-> _]. reflexivity. }
  rewrite Hascii, map_app, Base64Facts.translate_equals.
  destruct (Base64Facts.a2b_digits (map PyBase64.translate (list_ascii_of_string s))
              (replicate k "="%char) 0 0 0 [])
    as (qp & left & out & E & Hq & Hl & Hn).
  { apply Forall_map. exact Hs. }
  { lia. }
  { simpl. lia. }
  rewrite E. clear E Hascii.
  assert (Hp : match map PyBase64.translate (list_ascii_of_string s) with
               | [] => 0%nat | _ => 0%nat end = 0%nat)
    by now destruct (map PyBase64.translate (list_ascii_of_string s)).
  rewrite Hp. clear Hp.
  rewrite Base64Facts.fold_left_translate in Hn.
  change (PyBase64.from_bytes [] * 2 ^ PyBase64.waiting 0 + 0)%Z with 0%Z in Hn.
  fold (PyBase64.numeral s) in Hn.
  rewrite length_map, Base64Facts.chars_length, Nat.add_0_l in Hq.
  pose proof (Nat.mod_upper_bound (String.length s) 4 ltac:(lia)) as Hr.
  subst qp. unfold k. clear k.
  set (N := PyBase64.numeral s) in *. set (B := PyBase64.from_bytes out) in *.
  destruct (String.length s mod 4)%nat as [|[|[|[|?]]]]; try lia;
    cbn [PyBase64.waiting] in Hl, Hn; simpl.
  - f_equal. change (2 ^ 0)%Z with 1%Z in *. lia.
  - reflexivity.
  - f_equal. change (2 ^ 4)%Z with 16%Z in *.
    apply (Z.div_unique _ _ _ left); lia.
  - f_equal. change (2 ^ 2)%Z with 4%Z in *.
    apply (Z.div_unique _ _ _ left); lia.
Qed.

Lemma b64_to_int_sample : Federation.b64_to_int "AQAB" = Ok 65537%Z.
Proof.
  rewrite b64_to_int_reads_base64; [reflexivity|].
  repeat (apply Forall_cons_2; [eexists; reflexivity|]). apply Forall_nil_2.
Defined.

(** ** [test-external-validation.py]: choosing the key *)

(** The loop of step 4 picks the first entry of the JWKS whose [kid]
    equals the token's: every entry before it has a [kid] and a
    different one.  It finds nothing exactly when every entry has a
    different [kid], and it raises at the first entry that has no
    [kid] to read. *)
Theorem find_key_first_match py_eq keys kid :
  let differs := fun k => exists v, Federation.subscript k "kid" = Ok v
                                    /\ py_eq v kid = false in
  match Federation.find_key py_eq keys kid with
  | Ok (Some key) =>
      exists before after v,
        keys = before ++ key :: after
        /\ Federation.subscript key "kid" = Ok v /\ py_eq v kid = true
        /\ Forall differs before
  | Ok None => Forall differs keys
  | Raise e =>
      exists before k after,
        keys = before ++ k :: after
        /\ Federation.subscript k "kid" = Raise e
        /\ Forall differs before
  end.
Proof.
  intros differs. induction keys as [|k keys IH]; simpl; [constructor|].
  destruct (Federation.subscript k "kid") as [v|e] eqn:Ek; simpl.
  - destruct (py_eq v kid) eqn:Ev.
    + exists [], keys, v. repeat split; auto.
    + assert (Hk : differs k) by (exists v; auto).
      destruct (Federation.find_key py_eq keys kid) as [[key|]|e].
      * destruct IH as (before & after & v' & -> & H1 & H2 & H3).
        exists (k :: before), after, v'. repeat split; auto.
      * constructor; assumption.
      * destruct IH as (before & k' & after & -> & H1 & H2).
        exists (k :: before), k', after. repeat split; auto.
  - exists [], k, keys. repeat split; auto.
Qed.

Module ScriptFacts.
Import Federation.

(** Only the items of a list can carry a [kid]. *)
Lemma find_key_items py_eq keys items kid key :
  iterate keys = Ok items ->
  find_key py_eq items kid = Ok (Some key) ->
  keys = JArr items.
Proof.
  destruct keys as [| | | |s|l|members]; try discriminate; simpl.
  - intros [= <-]. destruct (list_ascii_of_string s); discriminate.
  - now intros [= <-].
  - intros [= <-]. destruct members; discriminate.
Qed.

End ScriptFacts.

(** A pass of the script is sound: exit status 0 means that the JWKS
    has a list of keys, that the entry used is the first one whose
    [kid] equals the [kid] of the token's header, that the public key
    was rebuilt from the [n] and [e] of that entry, that [jwt.decode]
    accepted the token with it, and that the claims have [sub],
    [tenant_id] and [jti]. *)
Theorem federation_pass_is_sound py_eq json_loads pem_of jwt_decode jwks_json login_json :
  Federation.exit_status py_eq json_loads pem_of jwt_decode jwks_json login_json = 0%Z ->
  exists jwks items login token kid key n e pem claims,
    jwks_json = Ok jwks
    /\ Federation.subscript jwks "keys" = Ok (JArr items)
    /\ login_json = Ok login
    /\ Federation.subscript login "access_token" = Ok (JStr token)
    /\ Federation.token_kid json_loads token = Ok kid
    /\ Federation.find_key py_eq items kid = Ok (Some key)
    /\ Federation.member_to_int key "n" = Ok n
    /\ Federation.member_to_int key "e" = Ok e
    /\ pem_of e n = Ok pem
    /\ jwt_decode token pem = Federation.Verified claims
    /\ Forall (fun c => returns (Federation.subscript claims c) = true)
              ["sub"; "tenant_id"; "jti"].
Proof.
  unfold Federation.exit_status.
  destruct (Federation.validate _ _ _ _ _ _) as [[claims|]|e] eqn:H;
    try discriminate. intros _.
  unfold Federation.validate in H.
  apply bind_Ok in H as (jwks & Hjwks & H).
  apply bind_Ok in H as (keys & Hkeys & H).
  apply bind_Ok in H as (len & _ & H).
  apply bind_Ok in H as (login & Hlogin & H).
  apply bind_Ok in H as (tok & Htok & H).
  apply bind_Ok in H as (token & Htext & H).
  apply bind_Ok in H as (kid & Hkid & H).
  apply bind_Ok in H as (items & Hitems & H).
  apply bind_Ok in H as ([key|] & Hfind & H); [|discriminate].
  apply bind_Ok in H as (pem & Hpem & H).
  unfold Federation.jwk_to_pem in Hpem.
  apply bind_Ok in Hpem as (n & Hn & Hpem).
  apply bind_Ok in Hpem as (e & He & Hpem).
  destruct (jwt_decode token pem) as [decoded| | |e'] eqn:Hdec; try discriminate.
  apply bind_Ok in H as (sub & Hsub & H).
  apply bind_Ok in H as (tenant & Htenant & H).
  apply bind_Ok in H as (jti & Hjti & H). injection H as ->.
  pose proof (ScriptFacts.find_key_items py_eq keys items kid key Hitems Hfind) as ->.
  assert (tok = JStr token) as ->
    by (destruct tok; try discriminate; now injection Htext as ->).
  exists jwks, items, login, token, kid, key, n, e, pem, claims.
  repeat split; try assumption.
  apply Forall_cons_2; [now rewrite Hsub|].
  apply Forall_cons_2; [now rewrite Htenant|].
  apply Forall_cons_2; [now rewrite Hjti|]. apply Forall_nil_2.
Qed.

Lemma federation_pass_sample :
  exists key pem claims,
    Federation.find_key Samples.same_text
      [JObj [("kty", JStr "RSA"); ("kid", JStr "key-1");
             ("n", JStr "wJ3n"); ("e", JStr "AQAB")]] (JStr "key-1") = Ok (Some key)
    /\ Samples.accepted "aGVhZGVy.cGF5bG9hZA.c2ln" pem = Federation.Verified claims.
Proof.
  destruct (federation_pass_is_sound Samples.same_text Samples.header_of
              (fun e n => Ok "PEM") Samples.accepted
              (Ok Samples.published) (Ok Samples.issued))
    as (jwks & items & login & token & kid & key & n & e & pem & claims
        & Hj & Hk & Hl & Ht & Hkid & Hfind & _ & _ & _ & Hdec & _).
  - vm_compute. reflexivity.
  - injection Hj as <-. injection Hl as <-.
    injection Hk as <-. injection Ht as <-.
    vm_compute in Hkid. injection Hkid as <-.
    exists key, pem, claims. split; assumption.
Defined.
